(** * studentInfoSystem: the database service and the route handlers

    A shallow embedding of [database.py] (class [DatabaseService]) and of the
    route handlers of [app.py].

    The hosted relational store is a record of typed tables.  Every
    [.execute()] of the table client is one remote request: it is logged, it
    may fail (the failure schedule is part of the state) and, when it does
    not, it reads or rewrites exactly one table.  Python code is written in a
    state-and-exception monad whose state is the store together with what the
    program prints and flashes.

    A Python string is held as its UTF-8 encoding, one [ascii] per byte;
    [len] counts its code points ([py_len]).  Floats are exact rationals.
    All of [DatabaseService] is modelled; of [app.py],
    [select_class_section] and [ai_academic_stats] are left out. *)

From Stdlib Require Import ZArith QArith Qabs Qround Ascii String Lia Lqa.
From stdpp Require Import base decidable option list sorting strings gmap pretty.

Local Open Scope Z_scope.

(** ** Python values used by the program *)

(** Exceptions that can occur in the modelled code.  All of them are
    subclasses of Python's [Exception]. *)
Inductive exn :=
  | APIError (msg : string)      (* the table client failed to run a request *)
  | NameError (name : string)
  | KeyError (key : string)
  | ValueError (msg : string).

Definition str_exn (e : exn) : string :=
  match e with
  | APIError msg => msg
  | NameError name => "name '" +:+ name +:+ "' is not defined"
  | KeyError key => "'" +:+ key +:+ "'"
  | ValueError msg => msg
  end.

Inductive outcome (A : Type) :=
  | Ret (a : A)
  | Raise (e : exn).
Arguments Ret {A} a.
Arguments Raise {A} e.

Definition raises {A} (o : outcome A) : Prop :=
  match o with Ret _ => False | Raise _ => True end.

(** A Python [dict] with string keys: an association list in insertion order
    (the order in which [items()] and [values()] iterate).  Writing an
    existing key replaces its value in place; a new key goes to the end. *)
Module PyDict.
Definition t (V : Type) := list (string * V).

Definition empty {V} : t V := [].

Fixpoint get {V} (k : string) (d : t V) : option V :=
  match d with
  | [] => None
  | (k', v) :: d' => if decide (k' = k) then Some v else get k d'
  end.

Fixpoint set {V} (k : string) (v : V) (d : t V) : t V :=
  match d with
  | [] => [(k, v)]
  | (k', v') :: d' =>
      if decide (k' = k) then (k', v) :: d' else (k', v') :: set k v d'
  end.

Definition keys {V} (d : t V) : list string := d.*1.
Definition values {V} (d : t V) : list V := d.*2.
Definition items {V} (d : t V) : list (string * V) := d.
Definition len {V} (d : t V) : nat := length d.

(** Truth value of a dict: non-empty. *)
Definition truthy {V} (d : t V) : bool :=
  match d with [] => false | _ => true end.

(** [d.get(k, default)] *)
Definition get_default {V} (k : string) (default : V) (d : t V) : V :=
  match get k d with Some v => v | None => default end.

(** What the interpreter maintains: no key occurs twice. *)
Definition wf {V} (d : t V) : Prop := NoDup (keys d).
End PyDict.

(** ** The store *)

(** [datetime.now()] is an abstract instant: the number of the call. *)
Definition timestamp := nat.
Bind Scope nat_scope with timestamp.

Module User.
Record t := mk {
  id : Z;
  username : string;
  password_hash : string;
  role : string;
  student_id : option Z;
  created_at : timestamp
}.
End User.

Module Student.
Record t := mk {
  id : Z;
  name : string;
  age : Z;
  class : string;
  section : string;
  face_data : option string;
  created_at : timestamp;
  updated_at : timestamp
}.

Definition set_face_data (f : option string) (now : timestamp) (s : t) : t :=
  mk (id s) (name s) (age s) (class s) (section s) f (created_at s) now.
End Student.

Module Teacher.
Record t := mk {
  id : Z;
  name : string;
  subject : string;
  created_at : timestamp;
  updated_at : timestamp
}.
End Teacher.

Module Mark.
Record t := mk {
  id : Z;
  student_id : Z;
  subject : string;
  mark : Z;
  created_at : timestamp
}.
End Mark.

Module Grade.
Record t := mk {
  id : Z;
  student_id : Z;
  subject : string;
  grade : string;
  created_at : timestamp
}.
End Grade.

Module Attendance.
Record t := mk {
  id : Z;
  student_id : Z;
  date : string;
  face_data : option string;
  created_at : timestamp;
  updated_at : timestamp
}.

(** [update({'face_data': ..., 'updated_at': ...})] on one row. *)
Definition set_face_data (f : option string) (now : timestamp) (a : t) : t :=
  mk (id a) (student_id a) (date a) f (created_at a) now.

Definition key (a : t) : Z * string := (student_id a, date a).
End Attendance.

Record Database := mkDatabase {
  users : list User.t;
  students : list Student.t;
  teachers : list Teacher.t;
  marks : list Mark.t;
  grades : list Grade.t;
  attendance : list Attendance.t;
  next_id : Z                      (* the store's source of fresh row ids *)
}.

Definition empty_database : Database := mkDatabase [] [] [] [] [] [] 1.

(** A table of the store: its name and how to read and replace its rows. *)
Record Table (R : Type) := mkTable {
  table_name : string;
  rows : Database → list R;
  set_rows : list R → Database → Database
}.
Arguments table_name {R} _.
Arguments rows {R} _ _.
Arguments set_rows {R} _ _ _.

Definition users_table : Table User.t :=
  mkTable _ "users" users
    (λ l d, mkDatabase l (students d) (teachers d) (marks d) (grades d) (attendance d) (next_id d)).
Definition students_table : Table Student.t :=
  mkTable _ "students" students
    (λ l d, mkDatabase (users d) l (teachers d) (marks d) (grades d) (attendance d) (next_id d)).
Definition teachers_table : Table Teacher.t :=
  mkTable _ "teachers" teachers
    (λ l d, mkDatabase (users d) (students d) l (marks d) (grades d) (attendance d) (next_id d)).
Definition marks_table : Table Mark.t :=
  mkTable _ "marks" marks
    (λ l d, mkDatabase (users d) (students d) (teachers d) l (grades d) (attendance d) (next_id d)).
Definition grades_table : Table Grade.t :=
  mkTable _ "grades" grades
    (λ l d, mkDatabase (users d) (students d) (teachers d) (marks d) l (attendance d) (next_id d)).
Definition attendance_table : Table Attendance.t :=
  mkTable _ "attendance" attendance
    (λ l d, mkDatabase (users d) (students d) (teachers d) (marks d) (grades d) l (next_id d)).

Definition set_next_id (n : Z) (d : Database) : Database :=
  mkDatabase (users d) (students d) (teachers d) (marks d) (grades d) (attendance d) n.

(** Give consecutive fresh ids to the rows of an insert. *)
Fixpoint assign_ids {R} (n : Z) (mk : list (Z → R)) : list R :=
  match mk with
  | [] => []
  | f :: mk' => f n :: assign_ids (n + 1) mk'
  end.

(** The four requests of the table client, as functions on the store.  Each
    returns the [data] of the response. *)
Section requests.
Context {R : Type} (T : Table R).
Context (P : R → Prop) `{!∀ r, Decision (P r)}.

Definition db_select (d : Database) : list R * Database :=
  (filter P (rows T d), d).

Definition db_delete (d : Database) : list R * Database :=
  (filter P (rows T d), set_rows T (filter (λ r, ¬ P r) (rows T d)) d).

Definition db_update (f : R → R) (d : Database) : list R * Database :=
  (f <$> filter P (rows T d),
   set_rows T ((λ r, if decide (P r) then f r else r) <$> rows T d) d).
End requests.

Definition db_insert {R} (T : Table R) (new : list (Z → R)) (d : Database)
  : list R * Database :=
  let inserted := assign_ids (next_id d) new in
  (inserted,
   set_next_id (next_id d + Z.of_nat (length new)) (set_rows T (rows T d ++ inserted) d)).

(** ** The world and the monad of Python code *)

Inductive verb := SELECT | INSERT | UPDATE | DELETE.

Record World := mkWorld {
  db : Database;
  faults : list (option string);   (* one entry per coming request; [Some msg]: it fails *)
  requests : list (string * verb); (* the requests sent so far *)
  stdout : list string;            (* what [print] wrote *)
  flashed : list (string * string);(* Flask's flashed messages, with category *)
  clock : timestamp;               (* the next value of [datetime.now()] *)
  today : string                   (* [date.today().isoformat()] *)
}.

Definition set_db (d : Database) (w : World) : World :=
  mkWorld d (faults w) (requests w) (stdout w) (flashed w) (clock w) (today w).
Definition set_faults (f : list (option string)) (w : World) : World :=
  mkWorld (db w) f (requests w) (stdout w) (flashed w) (clock w) (today w).
Definition log_request (r : string * verb) (w : World) : World :=
  mkWorld (db w) (faults w) (requests w ++ [r]) (stdout w) (flashed w) (clock w) (today w).

Definition M (A : Type) : Type := World → outcome A * World.

Global Instance M_ret : MRet M := λ A a w, (Ret a, w).
Global Instance M_bind : MBind M := λ A B k m w,
  match m w with
  | (Ret a, w') => k a w'
  | (Raise e, w') => (Raise e, w')
  end.

Definition raise {A} (e : exn) : M A := λ w, (Raise e, w).

(** A call of library code that returns or raises and touches nothing else. *)
Definition call {A} (o : outcome A) : M A := λ w, (o, w).

(** [try: body / except Exception as e: handler e] *)
Definition try_except {A} (body : M A) (handler : exn → M A) : M A := λ w,
  match body w with
  | (Ret a, w') => (Ret a, w')
  | (Raise e, w') => handler e w'
  end.

Definition print (s : string) : M unit := λ w,
  (Ret (), mkWorld (db w) (faults w) (requests w) (stdout w ++ [s]) (flashed w) (clock w) (today w)).

Definition flash (msg category : string) : M unit := λ w,
  (Ret (), mkWorld (db w) (faults w) (requests w) (stdout w) (flashed w ++ [(msg, category)]) (clock w) (today w)).

Definition datetime_now : M timestamp := λ w,
  (Ret (clock w), mkWorld (db w) (faults w) (requests w) (stdout w) (flashed w) (S (clock w)) (today w)).

Definition date_today : M string := λ w, (Ret (today w), w).

(** One remote request.  It is logged and takes the next entry of the
    schedule; if that entry says so the request raises and leaves the store
    as it was, otherwise it runs on the store. *)
Definition sent (r : string * verb) (w : World) : World :=
  set_faults (tail (faults w)) (log_request r w).

Definition execute {A} (table : string) (v : verb) (op : Database → A * Database) : M A := λ w,
  match head (faults w) with
  | Some (Some msg) => (Raise (APIError msg), sent (table, v) w)
  | _ => (Ret (op (db w)).1, set_db (op (db w)).2 (sent (table, v) w))
  end.

(** [for x in l: body x], collecting the results. *)
Fixpoint for_each {A B} (l : list A) (body : A → M B) : M (list B) :=
  match l with
  | [] => mret []
  | x :: l' => y ← body x; ys ← for_each l' body; mret (y :: ys)
  end.

Definition table_select {R} (T : Table R) (P : R → Prop) `{!∀ r, Decision (P r)} : M (list R) :=
  execute (table_name T) SELECT (db_select T P).
Definition table_insert {R} (T : Table R) (new : list (Z → R)) : M (list R) :=
  execute (table_name T) INSERT (db_insert T new).
Definition table_update {R} (T : Table R) (f : R → R) (P : R → Prop) `{!∀ r, Decision (P r)}
  : M (list R) :=
  execute (table_name T) UPDATE (db_update T P f).
Definition table_delete {R} (T : Table R) (P : R → Prop) `{!∀ r, Decision (P r)} : M (list R) :=
  execute (table_name T) DELETE (db_delete T P).

(** The names bound in the module [database.py] when its methods run: what
    lines 1-6 import, the class and the service instance.  Looking up a
    global name that is not bound here raises [NameError]; the one name
    looked up this way, [check_password_hash], is no builtin either. *)
Definition database_globals : list string :=
  ["create_client"; "Client"; "generate_password_hash"; "bcrypt"; "date";
   "datetime"; "json"; "Config"; "DatabaseService"; "db"].

Definition load_global (name : string) : M unit :=
  if decide (name ∈ database_globals) then mret () else raise (NameError name).

(** [s.startswith(p)] *)
Definition startswith (p s : string) : bool := String.prefix p s.

(** [len(s)].  A [str] is a sequence of code points and a request form is
    decoded text, so a string here is the UTF-8 encoding of one.  Equality,
    concatenation and prefixes are the same on the encoding; [len] counts
    code points, which are the bytes that are not continuation bytes
    (10xxxxxx, that is 128 to 191). *)
Definition continuation_byte (c : ascii) : bool :=
  let n := nat_of_ascii c in (128 <=? n)%nat && (n <? 192)%nat.

Fixpoint py_len (s : string) : nat :=
  match s with
  | EmptyString => 0%nat
  | String c s' => ((if continuation_byte c then 0 else 1) + py_len s')%nat
  end.

(** ** Flask and Python numbers *)

(** The session cookie and the request, as far as the handlers read them. *)
Definition Session := gmap string string.

Record Request := mkRequest {
  method : string;
  form : gmap string string;
  args : gmap string string
}.

Inductive Response (C : Type) :=
  | Redirect (endpoint : string)
  | RenderTemplate (template : string) (context : C).
Arguments Redirect {C} endpoint.
Arguments RenderTemplate {C} template context.

(** A Python number: the reports mix the [int] 0 with [float] quotients.
    Floats are idealised as exact rationals. *)
Inductive number :=
  | Int (z : Z)
  | Float (q : Q).

Definition to_Q (x : number) : Q :=
  match x with Int z => inject_Z z | Float q => q end.

(** [a / b] on two ints with [b] non-zero. *)
Definition truediv (a b : Z) : number := Float (inject_Z a / inject_Z b).

(** [x >= n] and [x < n] for an int literal [n]. *)
Definition number_ge (x : number) (n : Z) : bool := Qle_bool (inject_Z n) (to_Q x).
Definition number_lt (x : number) (n : Z) : bool := negb (number_ge x n).

(** ** Library code

    What the program calls but does not define: the password checks, the
    store's [ORDER BY], Python's [int] on a string, [round(x, 2)] and the
    printing of a float. *)
Class Library := {
  bcrypt_checkpw : string → string → outcome bool;
  check_password_hash : string → string → bool;
  order_by : ∀ R : Type, (R → string) → bool → list R → list R;
  order_by_perm : ∀ R key desc (l : list R), order_by R key desc l ≡ₚ l;
  (** [None] stands for [ValueError]. *)
  int_of_str : string → option Z;
  (** The result of [round(x, 2)] is within a hundredth of [x]. *)
  round2 : Q → Q;
  round2_close : ∀ x : Q, (Qabs (round2 x - x) <= 1 # 100)%Q;
  str_float : Q → string
}.

(** ** database.py: class DatabaseService *)

Section Service.
Context `{Library}.

Definition get_user (username : string) : M (option User.t) :=
  try_except
    (data ← table_select users_table (λ u, User.username u = username);
     mret (head data))
    (λ e, print ("Error getting user: " +:+ str_exn e);; mret None).

Definition verify_user (username password : string) : M (option User.t) :=
  user ← get_user username;
  match user with
  | Some u =>
      if startswith "$2b$" (User.password_hash u) then
        ok ← call (bcrypt_checkpw password (User.password_hash u));
        if ok : bool then mret (Some u) else mret None
      else
        load_global "check_password_hash";;
        if check_password_hash (User.password_hash u) password
        then mret (Some u) else mret None
  | None => mret None
  end.

Definition get_all_users : M (list User.t) :=
  try_except
    (table_select users_table (λ _, True))
    (λ e, print ("Error getting users: " +:+ str_exn e);; mret []).

Definition create_student (name : string) (age : Z) (class_name section : string)
    (face_data : option string) : M (option Student.t) :=
  try_except
    (created ← datetime_now;
     updated ← datetime_now;
     data ← table_insert students_table
       [λ id, Student.mk id name age class_name section face_data created updated];
     mret (head data))
    (λ e, print ("Error creating student: " +:+ str_exn e);; mret None).

Definition get_student (student_id : Z) : M (option Student.t) :=
  try_except
    (data ← table_select students_table (λ s, Student.id s = student_id);
     mret (head data))
    (λ e, print ("Error getting student: " +:+ str_exn e);; mret None).

Definition get_all_students : M (list Student.t) :=
  try_except
    (data ← table_select students_table (λ _, True);
     mret (order_by _ Student.name false data))
    (λ e, print ("Error getting students: " +:+ str_exn e);; mret []).

Definition delete_student (student_id : Z) : M bool :=
  try_except
    (_ ← table_delete students_table (λ s, Student.id s = student_id);
     mret true)
    (λ e, print ("Error deleting student: " +:+ str_exn e);; mret false).

Definition create_teacher (name subject : string) : M (option Teacher.t) :=
  try_except
    (created ← datetime_now;
     updated ← datetime_now;
     data ← table_insert teachers_table [λ id, Teacher.mk id name subject created updated];
     mret (head data))
    (λ e, print ("Error creating teacher: " +:+ str_exn e);; mret None).

Definition get_all_teachers : M (list Teacher.t) :=
  try_except
    (data ← table_select teachers_table (λ _, True);
     mret (order_by _ Teacher.name false data))
    (λ e, print ("Error getting teachers: " +:+ str_exn e);; mret []).

Definition delete_teacher (teacher_id : Z) : M bool :=
  try_except
    (_ ← table_delete teachers_table (λ t, Teacher.id t = teacher_id);
     mret true)
    (λ e, print ("Error deleting teacher: " +:+ str_exn e);; mret false).

Definition save_marks (student_id : Z) (marks_data : PyDict.t Z) : M (list Mark.t) :=
  try_except
    (_ ← table_delete marks_table (λ r, Mark.student_id r = student_id);
     marks_records ← for_each (PyDict.items marks_data) (λ '(subject, mark),
       now ← datetime_now;
       mret (λ id, Mark.mk id student_id subject mark now));
     match marks_records with
     | _ :: _ => table_insert marks_table marks_records
     | [] => mret []
     end)
    (λ e, print ("Error saving marks: " +:+ str_exn e);; mret []).

Definition get_student_marks (student_id : Z) : M (PyDict.t Z) :=
  try_except
    (data ← table_select marks_table (λ r, Mark.student_id r = student_id);
     mret (foldl (λ marks record, PyDict.set (Mark.subject record) (Mark.mark record) marks)
                 PyDict.empty data))
    (λ e, print ("Error getting marks: " +:+ str_exn e);; mret PyDict.empty).

Definition save_grades (student_id : Z) (grades_data : PyDict.t string) : M (list Grade.t) :=
  try_except
    (_ ← table_delete grades_table (λ r, Grade.student_id r = student_id);
     grades_records ← for_each (PyDict.items grades_data) (λ '(subject, grade),
       now ← datetime_now;
       mret (λ id, Grade.mk id student_id subject grade now));
     match grades_records with
     | _ :: _ => table_insert grades_table grades_records
     | [] => mret []
     end)
    (λ e, print ("Error saving grades: " +:+ str_exn e);; mret []).

Definition get_student_grades (student_id : Z) : M (PyDict.t string) :=
  try_except
    (data ← table_select grades_table (λ r, Grade.student_id r = student_id);
     mret (foldl (λ grades record, PyDict.set (Grade.subject record) (Grade.grade record) grades)
                 PyDict.empty data))
    (λ e, print ("Error getting grades: " +:+ str_exn e);; mret PyDict.empty).

Definition mark_attendance (student_id : Z) (date_str : string) (face_data : option string)
  : M (option Attendance.t) :=
  try_except
    (existing ← table_select attendance_table
       (λ a, Attendance.student_id a = student_id ∧ Attendance.date a = date_str);
     match existing with
     | _ :: _ =>
         now ← datetime_now;
         data ← table_update attendance_table (Attendance.set_face_data face_data now)
           (λ a, Attendance.student_id a = student_id ∧ Attendance.date a = date_str);
         mret (head data)
     | [] =>
         created ← datetime_now;
         updated ← datetime_now;
         data ← table_insert attendance_table
           [λ id, Attendance.mk id student_id date_str face_data created updated];
         mret (head data)
     end)
    (λ e, print ("Error marking attendance: " +:+ str_exn e);; mret None).

Definition get_student_attendance (student_id : Z) : M (list string) :=
  try_except
    (data ← table_select attendance_table (λ a, Attendance.student_id a = student_id);
     mret (Attendance.date <$> order_by _ Attendance.date true data))
    (λ e, print ("Error getting attendance: " +:+ str_exn e);; mret []).

Definition get_attendance_by_date (date_str : string) : M (list Attendance.t) :=
  try_except
    (table_select attendance_table (λ a, Attendance.date a = date_str))
    (λ e, print ("Error getting attendance by date: " +:+ str_exn e);; mret []).

Definition update_student_face (student_id : Z) (face_data : string) : M (option Student.t) :=
  try_except
    (now ← datetime_now;
     data ← table_update students_table (Student.set_face_data (Some face_data) now)
       (λ s, Student.id s = student_id);
     mret (head data))
    (λ e, print ("Error updating face data: " +:+ str_exn e);; mret None).

Definition delete_student_face (student_id : Z) : M (option Student.t) :=
  try_except
    (now ← datetime_now;
     data ← table_update students_table (Student.set_face_data None now)
       (λ s, Student.id s = student_id);
     mret (head data))
    (λ e, print ("Error deleting face data: " +:+ str_exn e);; mret None).

(** ** app.py: the route handlers *)

(** [round(x, 2)]: an int stays the same int. *)
Definition round (x : number) : number :=
  match x with Int z => Int z | Float q => Float (round2 q) end.

(** [f"{x}"] *)
Definition str_number (x : number) : string :=
  match x with Int z => pretty z | Float q => str_float q end.

(** [sum(l)] *)
Definition py_sum (l : list Z) : Z := foldl Z.add 0 l.

(** [sorted(set(l))] on strings. *)
Definition sorted_set (l : list string) : list string :=
  merge_sort (λ a b, String.leb a b) (remove_dups l).

(** Truth value of an optional string (a missing key, [None] or ['']
    is false). *)
Definition truthy_str (s : option string) : bool :=
  match s with Some s => bool_decide (s ≠ "") | None => false end.

(** *** enter_marks *)

Definition grade_of_mark (mark : Z) : string :=
  if mark >=? 90 then "A"
  else if mark >=? 80 then "B"
  else if mark >=? 70 then "C"
  else if mark >=? 60 then "D"
  else if mark >=? 40 then "E"
  else "F".

Definition mark_key (student : Student.t) (subject : string) : string :=
  "marks_" +:+ pretty (Student.id student) +:+ "_" +:+ subject.

(** The body of [for subject in subjects] (lines 164-186). *)
Definition read_mark (form : gmap string string) (student : Student.t)
    (acc : PyDict.t Z * PyDict.t string) (subject : string)
  : PyDict.t Z * PyDict.t string :=
  match form !! mark_key student subject with
  | Some mark_val =>
      if decide (mark_val ≠ "") then
        match int_of_str mark_val with
        | Some mark =>
            (PyDict.set subject mark acc.1,
             PyDict.set subject (grade_of_mark mark) acc.2)
        | None => acc                            (* except ValueError: pass *)
        end
      else acc
  | None => acc
  end.

Definition read_marks (form : gmap string string) (student : Student.t)
    (subjects : list string) : PyDict.t Z * PyDict.t string :=
  foldl (read_mark form student) (PyDict.empty, PyDict.empty) subjects.

(** The body of [for student in filtered_students] (lines 161-192). *)
Definition enter_marks_student (form : gmap string string) (subjects : list string)
    (student : Student.t) : M unit :=
  let marks := (read_marks form student subjects).1 in
  let grades := (read_marks form student subjects).2 in
  (if PyDict.truthy marks
   then _ ← save_marks (Student.id student) marks; mret ()
   else mret ());;
  (if PyDict.truthy grades
   then _ ← save_grades (Student.id student) grades; mret ()
   else mret ()).

Definition enter_marks (session : Session) (request : Request)
    (class_name section : string)
  : M (Response (list Student.t * list string * string * string)) :=
  if decide (session !! "role" ≠ Some "teacher") then mret (Redirect "login")
  else
    students ← get_all_students;
    let filtered_students :=
      filter (λ s, Student.class s = class_name ∧ Student.section s = section) students in
    teachers ← get_all_teachers;
    let subjects := Teacher.subject <$> teachers in
    if decide (method request = "POST") then
      for_each filtered_students (enter_marks_student (form request) subjects);;
      flash "Marks and grades updated!" "success";;
      mret (Redirect "list_students")
    else
      mret (RenderTemplate "enter_marks.html"
              (filtered_students, subjects, class_name, section)).

(** *** mark_attendance (the route; the service method has the same name) *)

Definition mark_attendance_route (session : Session) (request : Request)
  : M (Response (Student.t * string)) :=
  if decide (session !! "role" ≠ Some "student") then mret (Redirect "login")
  else
    username ← match session !! "username" with
               | Some u => mret u
               | None => raise (KeyError "username")
               end;
    user ← get_user username;
    match user ≫= User.student_id with
    | None => flash "Student data not found." "danger";;
              mret (Redirect "dashboard_student")
    | Some user_student_id =>
    if decide (user_student_id = 0) then
      flash "Student data not found." "danger";;
      mret (Redirect "dashboard_student")
    else
      student ← get_student user_student_id;
      match student with
      | None => flash "Student data not found." "danger";;
                mret (Redirect "dashboard_student")
      | Some student =>
          today ← date_today;
          if decide (method request = "POST") then
            let face_data := form request !! "face_data" in
            print ("Received face data length: " +:+
                   pretty (if truthy_str face_data
                           then py_len (default "" face_data) else 0%nat));;
            (if truthy_str face_data && bool_decide (100 < py_len (default "" face_data))%nat
             then
               try_except
                 (attendance_record ← mark_attendance (Student.id student) today face_data;
                  match attendance_record with
                  | Some _ =>
                      flash "Attendance marked successfully! Face image captured and stored." "success";;
                      print ("Attendance marked for student " +:+ Student.name student
                             +:+ " on " +:+ today)
                  | None => flash "Error marking attendance. Please try again." "danger"
                  end)
                 (λ e, print ("Error processing attendance: " +:+ str_exn e);;
                       flash "Error processing attendance. Please try again." "danger")
             else
               flash "No valid face image captured. Please ensure your camera is working and try again." "danger";;
               print "No valid face data received");;
            mret (Redirect "dashboard_student")
          else
            mret (RenderTemplate "mark_attendance.html" (student, today))
      end
    end.

(** *** student_report *)

Record ReportData := mkReportData {
  report_student : Student.t;
  report_attendance_percentage : number;
  report_average_marks : number;
  report_grade_distribution : PyDict.t Z;
  report_total_subjects : nat;
  report_total_attendance_days : nat
}.

(** Lines 412-414, with [total_days = 30]. *)
Definition attendance_percentage (attendance : list string) : number :=
  let total_days := 30 in
  if total_days >? 0
  then Float (to_Q (truediv (Z.of_nat (length attendance)) total_days) * 100)
  else Int 0.

(** Lines 416-420. *)
Definition average_marks (marks : PyDict.t Z) : number :=
  if PyDict.truthy marks
  then truediv (py_sum (PyDict.values marks)) (Z.of_nat (PyDict.len marks))
  else Int 0.

(** Lines 422-426. *)
Definition grade_distribution (grades : PyDict.t string) : PyDict.t Z :=
  if PyDict.truthy grades
  then foldl (λ dist grade, PyDict.set grade (PyDict.get_default grade 0 dist + 1) dist)
             PyDict.empty (PyDict.values grades)
  else PyDict.empty.

Definition student_report (session : Session) (student_id : Z)
  : M (Response (ReportData * option string)) :=
  if decide (session !! "role" ∉ [Some "principal"; Some "teacher"])
  then mret (Redirect "login")
  else
    student ← get_student student_id;
    match student with
    | None => flash "Student not found." "danger";;
              mret (Redirect "reports_dashboard")
    | Some student =>
        marks ← get_student_marks student_id;
        grades ← get_student_grades student_id;
        attendance ← get_student_attendance student_id;
        let report_data :=
          mkReportData student
            (round (attendance_percentage attendance))
            (round (average_marks marks))
            (grade_distribution grades)
            (if PyDict.truthy marks then PyDict.len marks else 0%nat)
            (length attendance) in
        mret (RenderTemplate "student_report.html" (report_data, session !! "username"))
    end.

(** *** attendance_report *)

Record AttendanceEntry := mkAttendanceEntry {
  entry_student : Student.t;
  entry_attendance_days : nat;
  entry_attendance_percentage : number;
  entry_has_face_data : bool
}.

Record AttendanceReport := mkAttendanceReport {
  attendance_data : list AttendanceEntry;
  classes : list string;
  sections : list string;
  selected_class : option string;
  selected_section : option string;
  report_username : option string
}.

(** [l.sort(key=..., reverse=True)]: stable, largest key first. *)
Fixpoint insert_desc {A} (key : A → Q) (x : A) (l : list A) : list A :=
  match l with
  | [] => [x]
  | y :: l' => if Qle_bool (key x) (key y) then y :: insert_desc key x l' else x :: l
  end.

Definition sort_desc {A} (key : A → Q) (l : list A) : list A :=
  foldl (λ sorted x, insert_desc key x sorted) [] l.

(** The body of [for student in filtered_students] (lines 474-483). *)
Definition attendance_entry (student : Student.t) : M AttendanceEntry :=
  attendance ← get_student_attendance (Student.id student);
  let attendance_days := length attendance in
  let attendance_percentage := Float (to_Q (truediv (Z.of_nat attendance_days) 30) * 100) in
  mret (mkAttendanceEntry student attendance_days (round attendance_percentage)
          (truthy_str (Student.face_data student))).

Definition attendance_report (session : Session) (request : Request)
  : M (Response AttendanceReport) :=
  if decide (session !! "role" ∉ [Some "principal"; Some "teacher"])
  then mret (Redirect "login")
  else
    let selected_class := args request !! "class" in
    let selected_section := args request !! "section" in
    students ← get_all_students;
    let classes := sorted_set (Student.class <$> students) in
    let sections := sorted_set (Student.section <$> students) in
    let filtered_students := students in
    let filtered_students :=
      if truthy_str selected_class
      then filter (λ s, Some (Student.class s) = selected_class) filtered_students
      else filtered_students in
    let filtered_students :=
      if truthy_str selected_section
      then filter (λ s, Some (Student.section s) = selected_section) filtered_students
      else filtered_students in
    attendance_data ← for_each filtered_students attendance_entry;
    let attendance_data :=
      sort_desc (λ x, to_Q (entry_attendance_percentage x)) attendance_data in
    mret (RenderTemplate "attendance_report.html"
            (mkAttendanceReport attendance_data classes sections
               selected_class selected_section (session !! "username"))).

(** *** generate_ai_insights *)

Record Insights := mkInsights {
  performance_level : string;
  strengths : list string;
  weaknesses : list string;
  recommendations : list string;
  trend_analysis : string;
  attendance_impact : string;
  overall_assessment : string
}.

(** [max(items, key=lambda x: x[1])] and [min(...)] on a non-empty list:
    the first item with the largest (smallest) value. *)
Definition max_by_value (first : string * Z) (rest : list (string * Z)) : string * Z :=
  foldl (λ best x, if best.2 <? x.2 then x else best) first rest.
Definition min_by_value (first : string * Z) (rest : list (string * Z)) : string * Z :=
  foldl (λ best x, if x.2 <? best.2 then x else best) first rest.

(** Performance Level Analysis (lines 661-676): the values of
    ['performance_level'] and ['overall_assessment']. *)
Definition performance_level_analysis (student : Student.t) (avg_marks : number)
  : string * string :=
  let name := Student.name student in
  let avg := str_number avg_marks in
  if number_ge avg_marks 90 then
    ("Excellent",
     name +:+ " is performing exceptionally well with an average of " +:+ avg
       +:+ "%. This student demonstrates strong academic capabilities.")
  else if number_ge avg_marks 80 then
    ("Good",
     name +:+ " is performing well with an average of " +:+ avg
       +:+ "%. There's room for improvement but overall solid performance.")
  else if number_ge avg_marks 70 then
    ("Average",
     name +:+ " has average performance with " +:+ avg
       +:+ "%. This student needs additional support to improve.")
  else if number_ge avg_marks 60 then
    ("Below Average",
     name +:+ " is struggling academically with " +:+ avg
       +:+ "%. Immediate intervention is recommended.")
  else
    ("Needs Improvement",
     name +:+ " requires significant academic support with " +:+ avg
       +:+ "%. Urgent attention needed.").

(** Subject-specific analysis (lines 678-701): ['strengths'],
    ['weaknesses'], the recommendations so far and ['trend_analysis']. *)
Definition subject_analysis (marks : PyDict.t Z)
  : list string * list string * list string * string :=
  match PyDict.items marks with
  | [] => ([], [], [], "")
  | first :: rest =>
      let best_subject := max_by_value first rest in
      let worst_subject := min_by_value first rest in
      let strengths :=
        if best_subject.2 >=? 85 then
          ["Excels in " +:+ best_subject.1 +:+ " with " +:+ pretty best_subject.2 +:+ "%"]
        else if best_subject.2 >=? 75 then
          ["Shows potential in " +:+ best_subject.1 +:+ " with "
             +:+ pretty best_subject.2 +:+ "%"]
        else [] in
      let weaknesses :=
        if worst_subject.2 <? 70 then
          ["Struggles in " +:+ worst_subject.1 +:+ " with "
             +:+ pretty worst_subject.2 +:+ "%"]
        else [] in
      let recommendations :=
        if worst_subject.2 <? 70 then
          ["Provide additional support in " +:+ worst_subject.1]
        else [] in
      let high_performing_subjects :=
        (filter (λ x, 80 ≤ x.2) (PyDict.items marks)).*1 in
      let low_performing_subjects :=
        (filter (λ x, x.2 < 70) (PyDict.items marks)).*1 in
      let trend_analysis :=
        if (length low_performing_subjects <? length high_performing_subjects)%nat then
          "Student shows consistent performance across most subjects"
        else if (length high_performing_subjects <? length low_performing_subjects)%nat then
          "Student needs improvement in multiple subjects"
        else "Mixed performance across subjects" in
      (strengths, weaknesses, recommendations, trend_analysis)
  end.

(** Attendance impact analysis (lines 703-712): ['attendance_impact'] and
    the recommendations after it. *)
Definition attendance_impact_analysis (attendance_percentage : number)
    (recommendations : list string) : string * list string :=
  if number_ge attendance_percentage 95 then
    ("Excellent attendance - this positively contributes to academic performance",
     recommendations)
  else if number_ge attendance_percentage 85 then
    ("Good attendance - consistent presence supports learning", recommendations)
  else if number_ge attendance_percentage 75 then
    ("Moderate attendance - irregular attendance may affect performance", recommendations)
  else
    ("Poor attendance - this significantly impacts academic performance",
     recommendations ++ ["Address attendance issues to improve academic outcomes"]).

(** Additional recommendations (lines 714-724). *)
Definition additional_recommendations (avg_marks attendance_percentage : number)
    (recommendations : list string) : list string :=
  let recommendations :=
    if number_lt avg_marks 75 then
      recommendations ++ ["Consider additional tutoring or remedial classes";
                          "Implement regular progress monitoring"]
    else recommendations in
  let recommendations :=
    if number_lt attendance_percentage 80 then
      recommendations ++ ["Develop attendance improvement plan"]
    else recommendations in
  match recommendations with
  | [] => ["Continue current academic support strategies";
           "Encourage participation in advanced learning opportunities"]
  | _ => recommendations
  end.

Definition generate_ai_insights (student : Student.t) (marks : PyDict.t Z)
    (grades : PyDict.t string) (attendance : list string)
    (avg_marks attendance_percentage : number) : Insights :=
  let level := performance_level_analysis student avg_marks in
  let subjects := subject_analysis marks in
  let impact := attendance_impact_analysis attendance_percentage subjects.1.2 in
  let recommendations :=
    additional_recommendations avg_marks attendance_percentage impact.2 in
  {| performance_level := level.1;
     strengths := subjects.1.1.1;
     weaknesses := subjects.1.1.2;
     recommendations := recommendations;
     trend_analysis := subjects.2;
     attendance_impact := impact.1;
     overall_assessment := level.2 |}.

(** *** The writes of the service, as steps on the world *)

Inductive service_call :=
  | CreateStudent (name : string) (age : Z) (class_name section : string)
      (face_data : option string)
  | DeleteStudent (student_id : Z)
  | CreateTeacher (name subject : string)
  | DeleteTeacher (teacher_id : Z)
  | SaveMarks (student_id : Z) (marks_data : PyDict.t Z)
  | SaveGrades (student_id : Z) (grades_data : PyDict.t string)
  | MarkAttendance (student_id : Z) (date_str : string) (face_data : option string)
  | UpdateStudentFace (student_id : Z) (face_data : string)
  | DeleteStudentFace (student_id : Z).

Definition run_call (c : service_call) (w : World) : World :=
  match c with
  | CreateStudent name age class_name section face_data =>
      (create_student name age class_name section face_data w).2
  | DeleteStudent student_id => (delete_student student_id w).2
  | CreateTeacher name subject => (create_teacher name subject w).2
  | DeleteTeacher teacher_id => (delete_teacher teacher_id w).2
  | SaveMarks student_id marks_data => (save_marks student_id marks_data w).2
  | SaveGrades student_id grades_data => (save_grades student_id grades_data w).2
  | MarkAttendance student_id date_str face_data =>
      (mark_attendance student_id date_str face_data w).2
  | UpdateStudentFace student_id face_data => (update_student_face student_id face_data w).2
  | DeleteStudentFace student_id => (delete_student_face student_id w).2
  end.

(** The worlds the service can be in, starting with an empty attendance
    table, whatever the failures of the store. *)
Inductive reachable : World → Prop :=
  | reachable_init w : attendance (db w) = [] → reachable w
  | reachable_call c w : reachable w → reachable (run_call c w)
  | reachable_schedule schedule w : reachable w → reachable (set_faults schedule w).

End Service.

(** ** The tables of the specification *)

(** The fixed threshold table of letter grades. *)
Inductive threshold_table : Z → string → Prop :=
  | grade_A m : 90 ≤ m → threshold_table m "A"
  | grade_B m : 80 ≤ m < 90 → threshold_table m "B"
  | grade_C m : 70 ≤ m < 80 → threshold_table m "C"
  | grade_D m : 60 ≤ m < 70 → threshold_table m "D"
  | grade_E m : 40 ≤ m < 60 → threshold_table m "E"
  | grade_F m : m < 40 → threshold_table m "F".

(** The five performance levels. *)
Inductive level_table : Q → string → Prop :=
  | level_excellent q : (90 <= q)%Q → level_table q "Excellent"
  | level_good q : (80 <= q)%Q → (q < 90)%Q → level_table q "Good"
  | level_average q : (70 <= q)%Q → (q < 80)%Q → level_table q "Average"
  | level_below_average q : (60 <= q)%Q → (q < 70)%Q → level_table q "Below Average"
  | level_needs_improvement q : (q < 60)%Q → level_table q "Needs Improvement".

(** At most one attendance record per student and calendar date. *)
Definition attendance_unique (d : Database) : Prop :=
  NoDup (Attendance.key <$> attendance d).

(** The rows of one student, and of one student in one subject or on one
    date. *)
Definition marks_of (student_id : Z) (d : Database) : list Mark.t :=
  filter (λ r, Mark.student_id r = student_id) (marks d).
Definition grades_of (student_id : Z) (d : Database) : list Grade.t :=
  filter (λ r, Grade.student_id r = student_id) (grades d).
Definition attendance_of (student_id : Z) (d : Database) : list Attendance.t :=
  filter (λ a, Attendance.student_id a = student_id) (attendance d).
Definition attendance_on (student_id : Z) (date_str : string) (d : Database)
  : list Attendance.t :=
  filter (λ a, Attendance.student_id a = student_id ∧ Attendance.date a = date_str)
         (attendance d).

(** The dicts that [get_student_marks] and [get_student_grades] build from
    the rows of a student. *)
Definition student_marks (student_id : Z) (d : Database) : PyDict.t Z :=
  foldl (λ marks record, PyDict.set (Mark.subject record) (Mark.mark record) marks)
        PyDict.empty (marks_of student_id d).
Definition student_grades (student_id : Z) (d : Database) : PyDict.t string :=
  foldl (λ grades record, PyDict.set (Grade.subject record) (Grade.grade record) grades)
        PyDict.empty (grades_of student_id d).

(** The number of subjects of a grades dict whose grade is [g]. *)
Definition subjects_with_grade (g : string) (grades : PyDict.t string) : nat :=
  length (filter (λ subject_grade, subject_grade.2 = g) (PyDict.items grades)).

(** No request of the schedule fails; the next request fails. *)
Definition no_faults (w : World) : Prop := Forall (λ f, f = None) (faults w).

Definition fails_next (schedule : list (option string)) : bool :=
  match head schedule with Some (Some _) => true | _ => false end.
Definition request_fails (w : World) : bool := fails_next (faults w).

(** What a row says, without its id and timestamp. *)
Definition mark_entry (r : Mark.t) : string * Z := (Mark.subject r, Mark.mark r).
Definition grade_entry (r : Grade.t) : string * string := (Grade.subject r, Grade.grade r).

(** The in-place update of [mark_attendance] on the whole table. *)
Definition touch (student_id : Z) (date_str : string) (face_data : option string)
    (now : timestamp) (a : Attendance.t) : Attendance.t :=
  if decide (Attendance.student_id a = student_id ∧ Attendance.date a = date_str)
  then Attendance.set_face_data face_data now a else a.

(** The requests a save sends: a delete, then an insert unless there is
    nothing to insert. *)
Definition save_requests {V} (table : string) (data : PyDict.t V) : list (string * verb) :=
  (table, DELETE) :: (if PyDict.truthy data then [(table, INSERT)] else []).

(** Code that never changes the attendance table. *)
Definition keeps_attendance {A} (m : M A) : Prop :=
  ∀ w, attendance (db (m w).2) = attendance (db w).

(** The mark that the form of [enter_marks] carries for a student and a
    subject: the field is present, not empty and [int] accepts it. *)
Definition submitted `{Library} (form : gmap string string) (student : Student.t)
    (subject : string) : option Z :=
  match form !! mark_key student subject with
  | Some mark_val => if decide (mark_val ≠ "") then int_of_str mark_val else None
  | None => None
  end.

(** ** A concrete library, for running the model *)

Module Sample.
(** Decimal digits with an optional minus sign. *)
Definition digit (c : ascii) : option Z :=
  let n := Z.of_nat (nat_of_ascii c) in
  if (48 <=? n) && (n <=? 57) then Some (n - 48) else None.

Fixpoint digits (acc : Z) (s : string) : option Z :=
  match s with
  | EmptyString => Some acc
  | String c s' => d ← digit c; digits (10 * acc + d) s'
  end.

Definition int_of_str (s : string) : option Z :=
  match s with
  | EmptyString => None
  | String "-"%char EmptyString => None
  | String "-"%char s' => Z.opp <$> digits 0 s'
  | _ => digits 0 s
  end.

Definition order_by (R : Type) (key : R → string) (desc : bool) (l : list R) : list R :=
  if desc
  then merge_sort (λ a b, String.leb (key b) (key a)) l
  else merge_sort (λ a b, String.leb (key a) (key b)) l.

(** Round half up to two decimals. *)
Definition round2 (x : Q) : Q := Qfloor (x * 100 + (1 # 2)) # 100.

Definition str_float (q : Q) : string :=
  pretty (Qnum q) +:+ "/" +:+ pretty (Z.pos (Qden q)).

Definition bcrypt_checkpw (password hashed : string) : outcome bool :=
  Ret (bool_decide (hashed = "$2b$" +:+ password)).

Definition check_password_hash (pwhash password : string) : bool :=
  bool_decide (pwhash = "plain$" +:+ password).

Lemma order_by_perm R key desc (l : list R) : order_by R key desc l ≡ₚ l.
Proof. unfold order_by. destruct desc; apply merge_sort_Permutation. Qed.

Lemma round2_close (x : Q) : (Qabs (round2 x - x) <= 1 # 100)%Q.
Proof.
  unfold round2.
  pose proof (Qfloor_le (x * 100 + (1 # 2))) as Hle.
  pose proof (Qlt_floor (x * 100 + (1 # 2))) as Hlt.
  set (f := Qfloor (x * 100 + (1 # 2))) in *.
  rewrite inject_Z_plus in Hlt.
  apply Qabs_Qle_condition.
  rewrite (Qmake_Qdiv f 100).
  change (inject_Z (Z.pos 100)) with 100%Q.
  change (inject_Z 1) with 1%Q in Hlt.
  assert (Hdiv : (inject_Z f / 100 * 100 == inject_Z f)%Q) by field.
  set (r := (inject_Z f / 100)%Q) in *.
  clearbody r. clearbody f.
  generalize dependent (inject_Z f). intros g ? ? ?.
  split; lra.
Qed.

Definition library : Library :=
  Build_Library bcrypt_checkpw check_password_hash order_by order_by_perm
    int_of_str round2 round2_close str_float.

(** A small store: a teacher account whose hash has the format that
    [generate_password_hash] writes, a student account, two students,
    two teachers, some marks and one attendance record. *)
Definition alice : User.t :=
  User.mk 1 "alice" "scrypt:32768:8:1$c2FsdA$9f86d081884c7d65" "teacher" None 0.
Definition bob : User.t :=
  User.mk 2 "bob" "scrypt:32768:8:1$cGVwcGVy$2c26b46b68ffc68f" "student" (Some 1) 0.
Definition student1 : Student.t := Student.mk 1 "Bob" 15 "10" "A" None 0 0.
Definition student2 : Student.t := Student.mk 2 "Carol" 15 "10" "A" None 0 0.

Definition store : Database := {|
  users := [alice; bob];
  students := [student1; student2];
  teachers := [Teacher.mk 1 "Ms Gray" "Math" 0 0; Teacher.mk 2 "Mr Hill" "Science" 0 0];
  marks := [Mark.mk 1 1 "Math" 55 0; Mark.mk 2 1 "Science" 61 0; Mark.mk 3 2 "Math" 90 0];
  grades := [Grade.mk 4 1 "Math" "E" 0; Grade.mk 5 1 "Science" "D" 0;
             Grade.mk 6 2 "Math" "A" 0];
  attendance := [Attendance.mk 7 1 "2025-08-05" (Some "data:image/png;base64,AAAA") 0 0];
  next_id := 8
|}.

Definition world : World := {|
  db := store; faults := []; requests := []; stdout := []; flashed := [];
  clock := 1; today := "2025-08-06"
|}.

Definition teacher_session : Session := {[ "username" := "alice"; "role" := "teacher" ]}.
Definition student_session : Session := {[ "username" := "bob"; "role" := "student" ]}.

(** A marks form that fills in Math only, for student 1. *)
Definition marks_request : Request :=
  mkRequest "POST" {[ "marks_1_Math" := "95" ]} ∅.

(** A posted image of 110 characters. *)
Definition image : string :=
  "data:image/jpeg;base64,/9j/4AAQSkZJRgABAQAAAQABAAD/2wBDAAgGBgcGBQgHBwcJCQgKDBQNDAsLDBkSEw8UHRofHh0aHBwgJC4nICIsIxwc".
Definition attendance_request : Request :=
  mkRequest "POST" {[ "face_data" := image ]} ∅.
End Sample.


(** ** The rest of the service *)

(** A value in the payload of an update. *)
Inductive value :=
  | VNone
  | VInt (z : Z)
  | VStr (s : string)
  | VTime (t : timestamp).

(** What the store does with a payload entry that fits no column of the
    table: it refuses the request, or it writes the entries that fit. *)
Inductive column_policy := RejectUnknown | IgnoreUnknown.

(** The columns of a table that an update can write ([id] is never
    written). *)
Record Columns (R : Type) := mkColumns {
  has_column : string → value → bool;
  set_column : string → value → R → R
}.
Arguments has_column {R} _ _ _.
Arguments set_column {R} _ _ _ _.

Definition student_columns : Columns Student.t :=
  mkColumns _
    (λ col v,
       match v with
       | VStr _ => bool_decide (col ∈ ["name"; "class"; "section"; "face_data"])
       | VInt _ => bool_decide (col = "age")
       | VNone => bool_decide (col = "face_data")
       | VTime _ => bool_decide (col ∈ ["created_at"; "updated_at"])
       end)
    (λ col v s,
       let '(Student.mk id name age class section face_data created_at updated_at) := s in
       match v with
       | VStr x =>
           if decide (col = "name")
           then Student.mk id x age class section face_data created_at updated_at
           else if decide (col = "class")
           then Student.mk id name age x section face_data created_at updated_at
           else if decide (col = "section")
           then Student.mk id name age class x face_data created_at updated_at
           else if decide (col = "face_data")
           then Student.mk id name age class section (Some x) created_at updated_at
           else s
       | VInt x =>
           if decide (col = "age")
           then Student.mk id name x class section face_data created_at updated_at
           else s
       | VNone =>
           if decide (col = "face_data")
           then Student.mk id name age class section None created_at updated_at
           else s
       | VTime t =>
           if decide (col = "created_at")
           then Student.mk id name age class section face_data t updated_at
           else if decide (col = "updated_at")
           then Student.mk id name age class section face_data created_at t
           else s
       end).

Definition teacher_columns : Columns Teacher.t :=
  mkColumns _
    (λ col v,
       match v with
       | VStr _ => bool_decide (col ∈ ["name"; "subject"])
       | VTime _ => bool_decide (col ∈ ["created_at"; "updated_at"])
       | _ => false
       end)
    (λ col v t,
       let '(Teacher.mk id name subject created_at updated_at) := t in
       match v with
       | VStr x =>
           if decide (col = "name") then Teacher.mk id x subject created_at updated_at
           else if decide (col = "subject") then Teacher.mk id name x created_at updated_at
           else t
       | VTime x =>
           if decide (col = "created_at") then Teacher.mk id name subject x updated_at
           else if decide (col = "updated_at") then Teacher.mk id name subject created_at x
           else t
       | _ => t
       end).

(** One row after the payload is written to it. *)
Definition write_payload {R} (C : Columns R) (payload : list (string * value)) (r : R) : R :=
  foldl (λ r entry, if has_column C entry.1 entry.2 then set_column C entry.1 entry.2 r else r)
        r payload.

Definition payload_fits {R} (C : Columns R) (payload : list (string * value)) : bool :=
  forallb (λ entry, has_column C entry.1 entry.2) payload.

(** [update(payload).eq(...)]: [None] when the store refuses the payload. *)
Definition db_update_payload {R} (T : Table R) (C : Columns R) (policy : column_policy)
    (payload : list (string * value)) (P : R → Prop) `{!∀ r, Decision (P r)} (d : Database)
  : option (list R * Database) :=
  match policy with
  | RejectUnknown =>
      if payload_fits C payload then Some (db_update T P (write_payload C payload) d) else None
  | IgnoreUnknown => Some (db_update T P (write_payload C payload) d)
  end.

(** A request that the store can refuse. *)
Definition execute_checked {A} (table : string) (v : verb)
    (op : Database → option (A * Database)) : M A := λ w,
  match head (faults w) with
  | Some (Some msg) => (Raise (APIError msg), sent (table, v) w)
  | _ =>
      match op (db w) with
      | Some result => (Ret result.1, set_db result.2 (sent (table, v) w))
      | None => (Raise (APIError "column not found"), sent (table, v) w)
      end
  end.

Definition table_update_payload {R} (T : Table R) (C : Columns R) (policy : column_policy)
    (payload : list (string * value)) (P : R → Prop) `{!∀ r, Decision (P r)} : M (list R) :=
  execute_checked (table_name T) UPDATE (db_update_payload T C policy payload P).

(** [max(l, default=d)], [max(l)] and [min(l)] on ints. *)
Definition max_default (d : Z) (l : list Z) : Z :=
  match l with [] => d | x :: l' => foldl Z.max x l' end.
Definition min_default (d : Z) (l : list Z) : Z :=
  match l with [] => d | x :: l' => foldl Z.min x l' end.

(** [request.form[key]] *)
Definition form_item (request : Request) (key : string) : M string :=
  match form request !! key with
  | Some v => mret v
  | None => raise (KeyError key)
  end.

(** The statistics of a class; [None] is the empty dict. *)
Record ClassStatistics := mkClassStatistics {
  cs_class_name : string;
  cs_section : string;
  cs_total_students : nat;
  cs_students_with_face_data : nat;
  cs_students_with_marks : nat;
  cs_students_with_grades : nat;
  cs_average_marks : number;
  cs_students : list Student.t
}.

Record AcademicEntry := mkAcademicEntry {
  academic_student : Student.t;
  academic_avg_marks : number;
  academic_total_subjects : nat;
  academic_grade_count : nat;
  academic_has_marks : bool;
  academic_has_grades : bool
}.

Section Rest.
Context `{Library}.
(** The store's answer to a payload with a column it does not have, and
    werkzeug's [generate_password_hash] (with its salt). *)
Context (policy : column_policy).
Context (generate_password_hash : string → string).

(** [int(s)] where nothing catches the [ValueError]. *)
Definition py_int (s : string) : M Z :=
  match int_of_str s with
  | Some z => mret z
  | None => raise (ValueError ("invalid literal for int() with base 10: '" +:+ s +:+ "'"))
  end.

(** *** database.py *)

Definition create_user (username password role : string) (student_id : option Z)
  : M (option User.t) :=
  try_except
    (let password_hash := generate_password_hash password in
     created ← datetime_now;
     let link :=
       match student_id with
       | Some id => if decide (id = 0) then None else Some id
       | None => None
       end in
     data ← table_insert users_table
       [λ id, User.mk id username password_hash role link created];
     mret (head data))
    (λ e, print ("Error creating user: " +:+ str_exn e);; mret None).

Definition update_student (student_id : Z) (kwargs : PyDict.t value)
  : M (option Student.t) :=
  try_except
    (now ← datetime_now;
     let kwargs := PyDict.set "updated_at" (VTime now) kwargs in
     data ← table_update_payload students_table student_columns policy
       (PyDict.items kwargs) (λ s, Student.id s = student_id);
     mret (head data))
    (λ e, print ("Error updating student: " +:+ str_exn e);; mret None).

Definition get_teacher (teacher_id : Z) : M (option Teacher.t) :=
  try_except
    (data ← table_select teachers_table (λ t, Teacher.id t = teacher_id);
     mret (head data))
    (λ e, print ("Error getting teacher: " +:+ str_exn e);; mret None).

Definition update_teacher (teacher_id : Z) (kwargs : PyDict.t value)
  : M (option Teacher.t) :=
  try_except
    (now ← datetime_now;
     let kwargs := PyDict.set "updated_at" (VTime now) kwargs in
     data ← table_update_payload teachers_table teacher_columns policy
       (PyDict.items kwargs) (λ t, Teacher.id t = teacher_id);
     mret (head data))
    (λ e, print ("Error updating teacher: " +:+ str_exn e);; mret None).

Definition get_statistics : M (PyDict.t Z) :=
  try_except
    (students ← get_all_students;
     teachers ← get_all_teachers;
     users ← get_all_users;
     students_with_face ← table_select students_table (λ s, Student.face_data s ≠ None);
     attendance_count ← table_select attendance_table (λ _, True);
     mret [("total_students", Z.of_nat (length students));
           ("total_teachers", Z.of_nat (length teachers));
           ("total_users", Z.of_nat (length users));
           ("students_with_face_data", Z.of_nat (length students_with_face));
           ("total_attendance_records", Z.of_nat (length attendance_count))])
    (λ e, print ("Error getting statistics: " +:+ str_exn e);; mret PyDict.empty).

Definition get_class_statistics (class_name section : string)
  : M (option ClassStatistics) :=
  try_except
    (class_students ← table_select students_table
       (λ s, Student.class s = class_name ∧ Student.section s = section);
     match class_students with
     | [] => mret None
     | _ :: _ =>
         let total_students := length class_students in
         let students_with_face :=
           length (filter (λ s, truthy_str (Student.face_data s) = true) class_students) in
         let student_ids := Student.id <$> class_students in
         marks_data ← table_select marks_table (λ m, Mark.student_id m ∈ student_ids);
         grades_data ← table_select grades_table (λ g, Grade.student_id g ∈ student_ids);
         let students_with_marks := length (remove_dups (Mark.student_id <$> marks_data)) in
         let students_with_grades :=
           length (remove_dups (Grade.student_id <$> grades_data)) in
         let avg_marks :=
           match marks_data with
           | _ :: _ => truediv (py_sum (Mark.mark <$> marks_data))
                         (Z.of_nat (length marks_data))
           | [] => Int 0
           end in
         mret (Some (mkClassStatistics class_name section total_students
                       students_with_face students_with_marks students_with_grades
                       (round avg_marks) class_students))
     end)
    (λ e, print ("Error getting class statistics: " +:+ str_exn e);; mret None).

(** *** app.py *)

Definition get_next_student_id : M Z :=
  students ← get_all_students;
  mret (max_default 0 (Student.id <$> students) + 1).

Definition get_next_teacher_id : M Z :=
  teachers ← get_all_teachers;
  mret (max_default 0 (Teacher.id <$> teachers) + 1).

Definition staff (session : Session) : Prop :=
  session !! "role" ∈ [Some "principal"; Some "teacher"].

Definition list_students (session : Session)
  : M (Response (list Student.t * option string)) :=
  if decide (¬ staff session) then mret (Redirect "login")
  else
    students ← get_all_students;
    mret (RenderTemplate "students.html" (students, session !! "role")).

Definition add_student (session : Session) (request : Request)
  : M (Response string) :=
  if decide (¬ staff session) then mret (Redirect "login")
  else if decide (method request = "POST") then
    name ← form_item request "name";
    age ← form_item request "age" ≫= py_int;
    class_name ← form_item request "class";
    section ← form_item request "section";
    new_student ← create_student name age class_name section None;
    match new_student with
    | Some _ => flash "Student added successfully!" "success"
    | None => flash "Error adding student. Please try again." "danger"
    end;;
    mret (Redirect "list_students")
  else mret (RenderTemplate "student_form.html" "Add").

Definition edit_student (session : Session) (request : Request) (student_id : Z)
  : M (Response (string * Student.t)) :=
  if decide (¬ staff session) then mret (Redirect "login")
  else
    student ← get_student student_id;
    match student with
    | None => flash "Student not found." "danger";; mret (Redirect "list_students")
    | Some student =>
        if decide (method request = "POST") then
          name ← form_item request "name";
          age ← form_item request "age" ≫= py_int;
          class_name ← form_item request "class";
          section ← form_item request "section";
          updated_student ← update_student student_id
            [("name", VStr name); ("age", VInt age);
             ("class_name", VStr class_name); ("section", VStr section)];
          match updated_student with
          | Some _ => flash "Student updated successfully!" "success"
          | None => flash "Error updating student. Please try again." "danger"
          end;;
          mret (Redirect "list_students")
        else mret (RenderTemplate "student_form.html" ("Edit", student))
    end.

Definition delete_student_route (session : Session) (student_id : Z)
  : M (Response unit) :=
  if decide (¬ staff session) then mret (Redirect "login")
  else
    deleted ← delete_student student_id;
    (if deleted : bool
     then flash "Student deleted successfully!" "success"
     else flash "Error deleting student. Please try again." "danger");;
    mret (Redirect "list_students").

Definition list_teachers (session : Session) : M (Response (list Teacher.t)) :=
  if decide (session !! "role" ≠ Some "principal") then mret (Redirect "login")
  else
    teachers ← get_all_teachers;
    mret (RenderTemplate "teachers.html" teachers).

Definition add_teacher (session : Session) (request : Request) : M (Response string) :=
  if decide (session !! "role" ≠ Some "principal") then mret (Redirect "login")
  else if decide (method request = "POST") then
    name ← form_item request "name";
    subject ← form_item request "subject";
    new_teacher ← create_teacher name subject;
    match new_teacher with
    | Some _ => flash "Teacher added successfully!" "success"
    | None => flash "Error adding teacher. Please try again." "danger"
    end;;
    mret (Redirect "list_teachers")
  else mret (RenderTemplate "teacher_form.html" "Add").

Definition edit_teacher (session : Session) (request : Request) (teacher_id : Z)
  : M (Response (string * Teacher.t)) :=
  if decide (session !! "role" ≠ Some "principal") then mret (Redirect "login")
  else
    teacher ← get_teacher teacher_id;
    match teacher with
    | None => flash "Teacher not found." "danger";; mret (Redirect "list_teachers")
    | Some teacher =>
        if decide (method request = "POST") then
          name ← form_item request "name";
          subject ← form_item request "subject";
          updated_teacher ← update_teacher teacher_id
            [("name", VStr name); ("subject", VStr subject)];
          match updated_teacher with
          | Some _ => flash "Teacher updated successfully!" "success"
          | None => flash "Error updating teacher. Please try again." "danger"
          end;;
          mret (Redirect "list_teachers")
        else mret (RenderTemplate "teacher_form.html" ("Edit", teacher))
    end.

Definition delete_teacher_route (session : Session) (teacher_id : Z)
  : M (Response unit) :=
  if decide (session !! "role" ≠ Some "principal") then mret (Redirect "login")
  else
    deleted ← delete_teacher teacher_id;
    (if deleted : bool
     then flash "Teacher deleted successfully!" "success"
     else flash "Error deleting teacher. Please try again." "danger");;
    mret (Redirect "list_teachers").

Definition dashboard_of (role : string) : option string :=
  if decide (role = "principal") then Some "dashboard_principal"
  else if decide (role = "teacher") then Some "dashboard_teacher"
  else if decide (role = "student") then Some "dashboard_student"
  else None.

Definition index (session : Session) : Response unit :=
  match session !! "username" with
  | Some _ =>
      match session !! "role" ≫= dashboard_of with
      | Some dashboard => Redirect dashboard
      | None => Redirect "login"
      end
  | None => Redirect "login"
  end.

(** [login] and [logout] also write the session. *)
Definition login (session : Session) (request : Request)
  : M (Response unit * Session) :=
  if decide (method request = "POST") then
    username ← form_item request "username";
    password ← form_item request "password";
    user ← verify_user username password;
    match user with
    | Some user =>
        let session :=
          <["role" := User.role user]> (<["username" := username]> session) in
        match dashboard_of (User.role user) with
        | Some dashboard => mret (Redirect dashboard, session)
        | None => mret (RenderTemplate "login.html" (), session)
        end
    | None =>
        flash "Invalid username or password" "danger";;
        mret (RenderTemplate "login.html" (), session)
    end
  else mret (RenderTemplate "login.html" (), session).

Definition logout (session : Session) : Response unit * Session :=
  (Redirect "login", ∅).

Definition dashboard_principal (session : Session)
  : M (Response (option string * list Student.t * list Teacher.t)) :=
  if decide (session !! "role" ≠ Some "principal") then mret (Redirect "login")
  else
    students ← get_all_students;
    teachers ← get_all_teachers;
    mret (RenderTemplate "dashboard_principal.html"
            (session !! "username", students, teachers)).

Definition dashboard_teacher (session : Session)
  : M (Response (option string * list Student.t)) :=
  if decide (session !! "role" ≠ Some "teacher") then mret (Redirect "login")
  else
    students ← get_all_students;
    mret (RenderTemplate "dashboard_teacher.html" (session !! "username", students)).

(** The student is rendered with the added keys ['marks'], ['grades'] and
    ['attendance']. *)
Definition dashboard_student (session : Session)
  : M (Response (Student.t * PyDict.t Z * PyDict.t string * list string * option string)) :=
  if decide (session !! "role" ≠ Some "student") then mret (Redirect "login")
  else
    username ← match session !! "username" with
               | Some u => mret u
               | None => raise (KeyError "username")
               end;
    user ← get_user username;
    let not_found :=
      flash "Student data not found." "danger";; mret (Redirect "login") in
    match user ≫= User.student_id with
    | None => not_found
    | Some user_student_id =>
        if decide (user_student_id = 0) then not_found
        else
          student ← get_student user_student_id;
          match student with
          | None => not_found
          | Some student =>
              marks ← get_student_marks (Student.id student);
              grades ← get_student_grades (Student.id student);
              attendance ← get_student_attendance (Student.id student);
              mret (RenderTemplate "dashboard_student.html"
                      (student, marks, grades, attendance, session !! "username"))
          end
    end.

Definition manage_student_faces (session : Session) (request : Request)
  : M (Response (list Student.t * list string * list string
                 * option string * option string)) :=
  if decide (session !! "role" ≠ Some "teacher") then mret (Redirect "login")
  else
    students ← get_all_students;
    let classes := sorted_set (Student.class <$> students) in
    let sections := sorted_set (Student.section <$> students) in
    let selected_class := form request !! "class" in
    let selected_section := form request !! "section" in
    if decide (method request = "POST")
    then
      if truthy_str selected_class && truthy_str selected_section then
        let filtered_students :=
          filter (λ s, Some (Student.class s) = selected_class
                       ∧ Some (Student.section s) = selected_section) students in
        mret (RenderTemplate "manage_faces.html"
                (filtered_students, classes, sections, selected_class, selected_section))
      else mret (RenderTemplate "manage_faces.html" ([], classes, sections, None, None))
    else mret (RenderTemplate "manage_faces.html" ([], classes, sections, None, None)).

Definition view_student_face (session : Session) (student_id : Z)
  : M (Response Student.t) :=
  if decide (session !! "role" ≠ Some "teacher") then mret (Redirect "login")
  else
    student ← get_student student_id;
    match student with
    | None => flash "Student not found." "danger";;
              mret (Redirect "manage_student_faces")
    | Some student => mret (RenderTemplate "view_student_face.html" student)
    end.

(** Both branches on [request.referrer] redirect to the same page. *)
Definition delete_student_face_route (session : Session) (referrer : option string)
    (student_id : Z) : M (Response unit) :=
  if decide (session !! "role" ≠ Some "teacher") then mret (Redirect "login")
  else
    student ← get_student student_id;
    match student with
    | None => flash "Student not found." "danger";;
              mret (Redirect "manage_student_faces")
    | Some _ =>
        updated_student ← delete_student_face student_id;
        match updated_student with
        | Some _ => flash "Student face data deleted successfully!" "success"
        | None => flash "Error deleting face data. Please try again." "danger"
        end;;
        mret (Redirect "manage_student_faces")
    end.

(** The int entries of [stats], then ['classes'] and ['sections']. *)
Definition reports_dashboard (session : Session)
  : M (Response (PyDict.t Z * list string * list string * option string)) :=
  if decide (¬ staff session) then mret (Redirect "login")
  else
    stats ← get_statistics;
    students ← get_all_students;
    let classes := sorted_set (Student.class <$> students) in
    let sections := sorted_set (Student.section <$> students) in
    let stats :=
      PyDict.set "total_sections" (Z.of_nat (length sections))
        (PyDict.set "total_classes" (Z.of_nat (length classes)) stats) in
    mret (RenderTemplate "reports_dashboard.html"
            (stats, classes, sections, session !! "username")).

Definition class_report (session : Session) (class_name section : string)
  : M (Response (ClassStatistics * option string)) :=
  if decide (¬ staff session) then mret (Redirect "login")
  else
    class_stats ← get_class_statistics class_name section;
    match class_stats with
    | None => flash "No students found in this class." "danger";;
              mret (Redirect "reports_dashboard")
    | Some class_stats =>
        mret (RenderTemplate "class_report.html" (class_stats, session !! "username"))
    end.

(** The students that the report filters select. *)
Definition filter_students (selected_class selected_section : option string)
    (students : list Student.t) : list Student.t :=
  let filtered_students := students in
  let filtered_students :=
    if truthy_str selected_class
    then filter (λ s, Some (Student.class s) = selected_class) filtered_students
    else filtered_students in
  if truthy_str selected_section
  then filter (λ s, Some (Student.section s) = selected_section) filtered_students
  else filtered_students.

(** The body of [for student in filtered_students] (lines 518-541). *)
Definition academic_entry (student : Student.t) : M AcademicEntry :=
  marks ← get_student_marks (Student.id student);
  grades ← get_student_grades (Student.id student);
  let avg_marks :=
    if PyDict.truthy marks
    then truediv (py_sum (PyDict.values marks)) (Z.of_nat (PyDict.len marks))
    else Int 0 in
  let total_subjects := if PyDict.truthy marks then PyDict.len marks else 0%nat in
  let grade_count := if PyDict.truthy grades then PyDict.len grades else 0%nat in
  mret (mkAcademicEntry student (round avg_marks) total_subjects grade_count
          (PyDict.truthy marks) (PyDict.truthy grades)).

Definition academic_report (session : Session) (request : Request)
  : M (Response (list AcademicEntry * list string * list string
                 * option string * option string * option string)) :=
  if decide (¬ staff session) then mret (Redirect "login")
  else
    let selected_class := args request !! "class" in
    let selected_section := args request !! "section" in
    students ← get_all_students;
    let classes := sorted_set (Student.class <$> students) in
    let sections := sorted_set (Student.section <$> students) in
    let filtered_students := filter_students selected_class selected_section students in
    academic_data ← for_each filtered_students academic_entry;
    let academic_data := sort_desc (λ x, to_Q (academic_avg_marks x)) academic_data in
    mret (RenderTemplate "academic_report.html"
            (academic_data, classes, sections, selected_class, selected_section,
             session !! "username")).
End Rest.

(** ** Statements about runs *)

(** Code that leaves a part [f] of the store as it is, whatever happens. *)
Definition keeps {A X} (f : Database → X) (m : M A) : Prop :=
  ∀ w, f (db (m w).2) = f (db w).

(** Code that changes nothing at all and returns [a]. *)
Definition returns_at_once {A} (m : M A) (a : A) : Prop := ∀ w, m w = (Ret a, w).

(** A run that ends with the failure value, the store untouched and one
    printed line that starts with [prefix]. *)
Definition fails_with {A} (m : M A) (failure : A) (prefix : string) (w : World) : Prop :=
  ∃ msg, (m w).1 = Ret failure ∧ db (m w).2 = db w ∧
         stdout (m w).2 = stdout w ++ [prefix +:+ msg].

(** All tables but one. *)
Definition but_users (d : Database) :=
  (students d, teachers d, marks d, grades d, attendance d).
Definition but_students (d : Database) :=
  (users d, teachers d, marks d, grades d, attendance d).
Definition but_teachers (d : Database) :=
  (users d, students d, marks d, grades d, attendance d).
Definition but_marks (d : Database) :=
  (users d, students d, teachers d, grades d, attendance d).
Definition but_grades (d : Database) :=
  (users d, students d, teachers d, marks d, attendance d).
Definition but_attendance (d : Database) :=
  (users d, students d, teachers d, marks d, grades d).

(** ** More sample data *)

Module Demo.
(** A stand-in for werkzeug's [generate_password_hash]: the default
    format, which does not start with ["$2b$"]. *)
Definition generate_password_hash (password : string) : string :=
  "scrypt:32768:8:1$c2FsdA$" +:+ password.

(** The sample store with one more account, whose hash has the bcrypt
    format (for [Sample.bcrypt_checkpw] the password is ["letmein"]). *)
Definition carol : User.t := User.mk 8 "carol" "$2b$letmein" "principal" None 0.

Definition store : Database := {|
  users := [Sample.alice; Sample.bob; carol];
  students := students Sample.store;
  teachers := teachers Sample.store;
  marks := marks Sample.store;
  grades := grades Sample.store;
  attendance := attendance Sample.store;
  next_id := 9
|}.

Definition world : World := set_db store Sample.world.

(** The next request fails. *)
Definition offline : World := set_faults [Some "connection reset"] Sample.world.
(** The next request goes through, the one after it fails. *)
Definition flaky : World := set_faults [None; Some "timeout"] Sample.world.

Definition principal_session : Session :=
  {[ "username" := "carol"; "role" := "principal" ]}.

Definition login_request (username password : string) : Request :=
  mkRequest "POST" {[ "username" := username; "password" := password ]} ∅.

Definition student_form (age : string) : Request :=
  mkRequest "POST" {[ "name" := "Dan"; "age" := age; "class" := "9"; "section" := "B" ]} ∅.

Definition teacher_form : Request :=
  mkRequest "POST" {[ "name" := "Ms Grey"; "subject" := "Physics" ]} ∅.

Definition short_image_request : Request :=
  mkRequest "POST" {[ "face_data" := "data:image/png;base64,AAAA" ]} ∅.

(** The sample store after student 1 has been marked present on each of
    the 31 days of a month. *)
Definition day (i : Z) : string :=
  "2025-07-" +:+ (if i <? 10 then "0" else "") +:+ pretty i.

Definition diligent_store : Database := {|
  users := users Sample.store;
  students := students Sample.store;
  teachers := teachers Sample.store;
  marks := marks Sample.store;
  grades := grades Sample.store;
  attendance := (λ i, Attendance.mk (100 + i) 1 (day i) None 0 0) <$> seqZ 1 31;
  next_id := 200
|}.

Definition diligent_world : World := set_db diligent_store Sample.world.

(** Sixty times the letter e with an acute accent: 60 code points, 120
    bytes. *)
Definition e_acute : string :=
  String (ascii_of_nat 195) (String (ascii_of_nat 169) EmptyString).
Definition accented : string := foldr String.append "" (replicate 60 e_acute).
Definition accented_request : Request :=
  mkRequest "POST" {[ "face_data" := accented ]} ∅.

(** A marks form in which nothing can be read as a mark for student 1. *)
Definition unreadable_marks_request : Request :=
  mkRequest "POST" {[ "marks_1_Math" := "ninety"; "marks_1_Science" := "";
                      "marks_2_Math" := "81" ]} ∅.
End Demo.
(** ** Properties *)

(** *** Schedules without failures *)

Lemma quiet_tail (fs : list (option string)) :
  Forall (λ f, f = None) fs → Forall (λ f, f = None) (tail fs).
Proof. destruct fs; simpl; [done|]. by inversion 1. Qed.

Lemma quiet_head (fs : list (option string)) :
  Forall (λ f, f = None) fs → fails_next fs = false.
Proof. destruct fs as [|f fs]; [done|]. inversion 1; subst. done. Qed.

Ltac quiet :=
  unfold request_fails, no_faults in *; simpl;
  try apply quiet_head; repeat apply quiet_tail; assumption.

Ltac unfold_M :=
  unfold try_except, mbind, M_bind, mret, M_ret, raise, call, print, flash,
    datetime_now, date_today, load_global in *.

(** *** Lists *)

Section filters.
Context {A : Type}.
Implicit Types l : list A.

Lemma filter_all l : filter (λ _, True) l = l.
Proof.
  induction l as [|x l IH]; [done|]. rewrite filter_cons_True; [|done]. by rewrite IH.
Qed.

Lemma filter_complement_nil (P : A → Prop) `{!∀ x, Decision (P x)} l :
  filter P (filter (λ x, ¬ P x) l) = [].
Proof.
  induction l as [|x l IH]; [done|].
  destruct (decide (P x)).
  - rewrite (filter_cons_False (λ x, ¬ P x)) by tauto. done.
  - rewrite (filter_cons_True (λ x, ¬ P x)) by done. by rewrite filter_cons_False.
Qed.

Lemma filter_Forall_id (P : A → Prop) `{!∀ x, Decision (P x)} l :
  Forall P l → filter P l = l.
Proof.
  induction 1 as [|x l Hx Hl IH]; [done|]. rewrite filter_cons_True by done. by rewrite IH.
Qed.

Lemma filter_other (P Q : A → Prop) `{!∀ x, Decision (P x)} `{!∀ x, Decision (Q x)} l :
  (∀ x, Q x → ¬ P x) → filter Q (filter (λ x, ¬ P x) l) = filter Q l.
Proof.
  intros HQP. induction l as [|x l IH]; [done|].
  destruct (decide (P x)) as [HP|HP].
  - rewrite (filter_cons_False (λ x, ¬ P x)) by tauto.
    rewrite (filter_cons_False Q); [done|]. intros HQ. by apply (HQP x).
  - rewrite (filter_cons_True (λ x, ¬ P x)) by done.
    destruct (decide (Q x)).
    + rewrite !(filter_cons_True Q) by done. by rewrite IH.
    + rewrite !(filter_cons_False Q) by done. done.
Qed.

Lemma filter_Forall_nil (P Q : A → Prop) `{!∀ x, Decision (Q x)} l :
  Forall P l → (∀ x, P x → ¬ Q x) → filter Q l = [].
Proof.
  intros Hl HPQ. induction Hl as [|x l Hx Hl IH]; [done|].
  rewrite filter_cons_False; [done|]. by apply HPQ.
Qed.
End filters.

Lemma length_assign_ids {R} n (new : list (Z → R)) :
  length (assign_ids n new) = length new.
Proof. revert n. induction new as [|f new IH]; intros n; simpl; [done|]. by rewrite IH. Qed.

(** *** Dictionaries *)

Module PyDictFacts.
Import PyDict.

Lemma set_fresh {V} k (v : V) d : k ∉ keys d → set k v d = d ++ [(k, v)].
Proof.
  unfold keys. induction d as [|[k' v'] d IH]; simpl; [done|].
  intros Hk. apply not_elem_of_cons in Hk as [Hne Hk].
  rewrite decide_False by done. by rewrite IH.
Qed.

Lemma foldl_set_items {V} (acc d : t V) :
  NoDup (keys acc ++ keys d) →
  foldl (λ a kv, set kv.1 kv.2 a) acc d = acc ++ d.
Proof.
  unfold keys. revert acc. induction d as [|[k v] d IH]; intros acc Hnd; simpl.
  - by rewrite app_nil_r.
  - assert (k ∉ acc.*1) as Hk.
    { apply NoDup_app in Hnd as (_ & Hdisj & _). intros Hin. apply (Hdisj k Hin). left. }
    rewrite set_fresh by done. rewrite IH.
    + by rewrite <- app_assoc.
    + rewrite fmap_app. simpl. rewrite <- app_assoc. done.
Qed.

(** Writing the items of a dict one by one into an empty dict gives the
    dict back. *)
Lemma rebuild {V} (d : t V) : wf d → foldl (λ a kv, set kv.1 kv.2 a) empty d = d.
Proof. intros Hwf. by rewrite foldl_set_items. Qed.

Lemma get_set_eq {V} k (v : V) d : get k (set k v d) = Some v.
Proof.
  induction d as [|[k' v'] d IH]; simpl.
  - by rewrite decide_True.
  - case_decide; simpl; [by rewrite decide_True|by rewrite decide_False].
Qed.

Lemma get_set_ne {V} k k' (v : V) d : k ≠ k' → get k' (set k v d) = get k' d.
Proof.
  intros Hne. induction d as [|[k0 v0] d IH]; simpl.
  - by rewrite decide_False.
  - case_decide; simpl; subst.
    + by rewrite !decide_False.
    + case_decide; [done|]. apply IH.
Qed.

Lemma keys_set {V} k (v : V) d :
  keys (set k v d) = if decide (k ∈ keys d) then keys d else keys d ++ [k].
Proof.
  unfold keys. induction d as [|[k0 v0] d IH].
  - rewrite decide_False; [done|]. apply not_elem_of_nil.
  - cbn [set]. destruct (decide (k0 = k)) as [->|Hne].
    + rewrite decide_True; [done|]. rewrite fmap_cons. left.
    + rewrite !fmap_cons. rewrite IH. cbn [fst]. destruct (decide (k ∈ d.*1)).
      * rewrite decide_True; [done|]. by right.
      * rewrite decide_False; [done|]. intros [?|?]%elem_of_cons; congruence.
Qed.

Lemma wf_empty {V} : wf (@empty V).
Proof. apply NoDup_nil_2. Qed.

Lemma wf_set {V} k (v : V) d : wf d → wf (set k v d).
Proof.
  unfold wf. intros Hwf. rewrite keys_set. case_decide; [done|].
  apply NoDup_app. split; [done|]. split; [|apply NoDup_singleton].
  intros x Hx ->%list_elem_of_singleton. done.
Qed.

Lemma get_None {V} k (d : t V) : get k d = None ↔ k ∉ keys d.
Proof.
  unfold keys. induction d as [|[k0 v0] d IH]; simpl.
  - split; [intros _; apply not_elem_of_nil|done].
  - case_decide; subst.
    + split; [done|]. intros []. left.
    + rewrite IH. rewrite not_elem_of_cons.
      split; [intros ?; split; [congruence|done] | by intros [_ ?]].
Qed.

Lemma get_Some {V} k (v : V) d : wf d → get k d = Some v ↔ (k, v) ∈ items d.
Proof.
  unfold wf, keys, items. induction d as [|[k0 v0] d IH]; simpl; intros Hwf.
  - split; [done|]. by intros ?%not_elem_of_nil.
  - apply NoDup_cons in Hwf as [Hk0 Hwf]. case_decide; subst.
    + split.
      * intros [= ->]. left.
      * intros [[= ->]|Hin]%elem_of_cons; [done|].
        destruct Hk0. apply list_elem_of_fmap. by exists (k, v).
    + rewrite IH by done. rewrite elem_of_cons.
      split; [by right | intros [[= -> ->]|?]; done].
Qed.

Lemma truthy_true {V} (d : t V) : truthy d = true ↔ d ≠ [].
Proof. by destruct d. Qed.
End PyDictFacts.

Section Properties.
Context `{Library}.

(** *** Running the monad *)

Lemma bind_run {A B} (m : M A) (k : A → M B) w :
  (m ≫= k) w =
  match m w with (Ret a, w') => k a w' | (Raise e, w') => (Raise e, w') end.
Proof. reflexivity. Qed.

Lemma try_except_run {A} (body : M A) handler w :
  try_except body handler w =
  match body w with (Ret a, w') => (Ret a, w') | (Raise e, w') => handler e w' end.
Proof. reflexivity. Qed.

Lemma execute_ok {A} table v (op : Database → A * Database) w :
  request_fails w = false →
  execute table v op w = (Ret (op (db w)).1, set_db (op (db w)).2 (sent (table, v) w)).
Proof.
  unfold request_fails, fails_next, execute. by destruct (head (faults w)) as [[msg|]|].
Qed.

Lemma execute_fails {A} table v (op : Database → A * Database) w :
  request_fails w = true →
  ∃ msg, execute table v op w = (Raise (APIError msg), sent (table, v) w).
Proof.
  unfold request_fails, fails_next, execute.
  destruct (head (faults w)) as [[msg|]|]; try done. by exists msg.
Qed.

(** *** The reads of the service *)

Lemma get_user_ok username w :
  request_fails w = false →
  get_user username w =
    (Ret (head (filter (λ u, User.username u = username) (users (db w)))),
     sent ("users", SELECT) w).
Proof.
  intros Hok. unfold get_user, table_select. unfold_M.
  rewrite execute_ok by done. reflexivity.
Qed.

Lemma get_student_ok student_id w :
  request_fails w = false →
  get_student student_id w =
    (Ret (head (filter (λ s, Student.id s = student_id) (students (db w)))),
     sent ("students", SELECT) w).
Proof.
  intros Hok. unfold get_student, table_select. unfold_M.
  rewrite execute_ok by done. reflexivity.
Qed.

Lemma get_all_students_ok w :
  request_fails w = false →
  get_all_students w =
    (Ret (order_by _ Student.name false (students (db w))), sent ("students", SELECT) w).
Proof.
  intros Hok. unfold get_all_students, table_select. unfold_M.
  rewrite execute_ok by done. simpl. by rewrite filter_all.
Qed.

Lemma get_all_teachers_ok w :
  request_fails w = false →
  get_all_teachers w =
    (Ret (order_by _ Teacher.name false (teachers (db w))), sent ("teachers", SELECT) w).
Proof.
  intros Hok. unfold get_all_teachers, table_select. unfold_M.
  rewrite execute_ok by done. simpl. by rewrite filter_all.
Qed.

Lemma get_student_marks_ok student_id w :
  request_fails w = false →
  get_student_marks student_id w =
    (Ret (student_marks student_id (db w)), sent ("marks", SELECT) w).
Proof.
  intros Hok. unfold get_student_marks, table_select. unfold_M.
  rewrite execute_ok by done. reflexivity.
Qed.

Lemma get_student_grades_ok student_id w :
  request_fails w = false →
  get_student_grades student_id w =
    (Ret (student_grades student_id (db w)), sent ("grades", SELECT) w).
Proof.
  intros Hok. unfold get_student_grades, table_select. unfold_M.
  rewrite execute_ok by done. reflexivity.
Qed.

Lemma get_student_attendance_ok student_id w :
  request_fails w = false →
  get_student_attendance student_id w =
    (Ret (Attendance.date <$>
            order_by _ Attendance.date true (attendance_of student_id (db w))),
     sent ("attendance", SELECT) w).
Proof.
  intros Hok. unfold get_student_attendance, table_select. unfold_M.
  rewrite execute_ok by done. reflexivity.
Qed.

Lemma length_get_student_attendance student_id w :
  request_fails w = false →
  ∃ attendance,
    get_student_attendance student_id w = (Ret attendance, sent ("attendance", SELECT) w) ∧
    length attendance = length (attendance_of student_id (db w)).
Proof.
  intros Hok. eexists. split; [by apply get_student_attendance_ok|].
  rewrite length_fmap. apply Permutation_length, order_by_perm.
Qed.

(** *** The grade table *)

Lemma grade_of_mark_table m : threshold_table m (grade_of_mark m).
Proof.
  unfold grade_of_mark.
  destruct (Z.geb_spec m 90); [constructor; lia|].
  destruct (Z.geb_spec m 80); [constructor; lia|].
  destruct (Z.geb_spec m 70); [constructor; lia|].
  destruct (Z.geb_spec m 60); [constructor; lia|].
  destruct (Z.geb_spec m 40); constructor; lia.
Qed.

Lemma threshold_table_functional m g1 g2 :
  threshold_table m g1 → threshold_table m g2 → g1 = g2.
Proof. inversion 1; inversion 1; subst; try done; lia. Qed.

(** *** verify_user *)

(** C8. A stored user whose password hash does not start with ['$2b$']
    cannot be verified: when the lookup by username returns that user,
    [verify_user] raises [NameError] for the global [check_password_hash],
    which [database.py] never imports, instead of returning a result. *)
Theorem verify_user_name_error w username password u :
  request_fails w = false →
  head (filter (λ r, User.username r = username) (users (db w))) = Some u →
  startswith "$2b$" (User.password_hash u) = false →
  (verify_user username password w).1 = Raise (NameError "check_password_hash").
Proof.
  intros Hok Hu Hpre. unfold verify_user. rewrite bind_run.
  rewrite get_user_ok by done. rewrite Hu. simpl. rewrite Hpre.
  reflexivity.
Qed.

(** Where usernames identify users, the lookup returns the stored user. *)
Lemma lookup_unique_username (l : list User.t) u :
  NoDup (User.username <$> l) → u ∈ l →
  head (filter (λ r, User.username r = User.username u) l) = Some u.
Proof.
  induction l as [|x l IH]; [by intros _ ?%not_elem_of_nil|].
  rewrite fmap_cons. intros [Hx Hnd]%NoDup_cons [->|Hin]%elem_of_cons.
  - by rewrite filter_cons_True.
  - rewrite filter_cons_False; [by apply IH|].
    intros Heq. apply Hx. rewrite Heq. apply list_elem_of_fmap. by exists u.
Qed.

(** With a hash in bcrypt format the name is never looked up: the outcome
    is that of [bcrypt.checkpw]. *)
Lemma verify_user_bcrypt w username password u :
  request_fails w = false →
  head (filter (λ r, User.username r = username) (users (db w))) = Some u →
  startswith "$2b$" (User.password_hash u) = true →
  (verify_user username password w).1 =
    match bcrypt_checkpw password (User.password_hash u) with
    | Ret true => Ret (Some u)
    | Ret false => Ret None
    | Raise e => Raise e
    end.
Proof.
  intros Hok Hu Hpre. unfold verify_user. rewrite bind_run.
  rewrite get_user_ok by done. rewrite Hu. simpl. rewrite Hpre.
  unfold_M. by destruct (bcrypt_checkpw _ _) as [[]|].
Qed.

(** *** Exceptions stop at the service *)

Lemma try_except_returns {A} (body : M A) (msg : string) (failure : A) w :
  ¬ raises (try_except body (λ e, print (msg +:+ str_exn e);; mret failure) w).1.
Proof. rewrite try_except_run. destruct (body w) as [[a|e] w']; simpl; tauto. Qed.

(** Every modelled method other than [verify_user] is one [try] block whose
    handler prints and returns; none of them raises. *)
Lemma service_returns w :
  (∀ username, ¬ raises (get_user username w).1) ∧
  ¬ raises (get_all_users w).1 ∧
  (∀ name age class_name section face_data,
     ¬ raises (create_student name age class_name section face_data w).1) ∧
  (∀ student_id, ¬ raises (get_student student_id w).1) ∧
  ¬ raises (get_all_students w).1 ∧
  (∀ student_id, ¬ raises (delete_student student_id w).1) ∧
  (∀ name subject, ¬ raises (create_teacher name subject w).1) ∧
  ¬ raises (get_all_teachers w).1 ∧
  (∀ teacher_id, ¬ raises (delete_teacher teacher_id w).1) ∧
  (∀ student_id marks_data, ¬ raises (save_marks student_id marks_data w).1) ∧
  (∀ student_id, ¬ raises (get_student_marks student_id w).1) ∧
  (∀ student_id grades_data, ¬ raises (save_grades student_id grades_data w).1) ∧
  (∀ student_id, ¬ raises (get_student_grades student_id w).1) ∧
  (∀ student_id date_str face_data,
     ¬ raises (mark_attendance student_id date_str face_data w).1) ∧
  (∀ student_id, ¬ raises (get_student_attendance student_id w).1) ∧
  (∀ date_str, ¬ raises (get_attendance_by_date date_str w).1) ∧
  (∀ student_id face_data, ¬ raises (update_student_face student_id face_data w).1) ∧
  (∀ student_id, ¬ raises (delete_student_face student_id w).1).
Proof. repeat split; intros; apply try_except_returns. Qed.

(** When the request fails, the method returns its failure value and has
    printed the exception. *)
Lemma service_failure_values w :
  request_fails w = true →
  (∀ username, (get_user username w).1 = Ret None) ∧
  (∀ name age class_name section face_data,
     (create_student name age class_name section face_data w).1 = Ret None) ∧
  (∀ student_id, (delete_student student_id w).1 = Ret false) ∧
  (∀ student_id marks_data, (save_marks student_id marks_data w).1 = Ret []) ∧
  (∀ student_id, (get_student_marks student_id w).1 = Ret PyDict.empty) ∧
  (∀ student_id date_str face_data,
     (mark_attendance student_id date_str face_data w).1 = Ret None) ∧
  (∀ student_id, (get_student_attendance student_id w).1 = Ret []) ∧
  (∀ student_id, ∃ msg,
     stdout (delete_student student_id w).2 =
       stdout w ++ ["Error deleting student: " +:+ msg]).
Proof.
  intros Hfail.
  repeat split; intros;
    unfold get_user, create_student, delete_student, save_marks, get_student_marks,
      mark_attendance, get_student_attendance,
      table_select, table_insert, table_delete, table_update;
    unfold_M; simpl;
    match goal with |- context [execute ?t ?v ?op ?W] =>
      destruct (execute_fails t v op W) as [msg ->]; [exact Hfail|] end;
    try reflexivity.
  by exists msg.
Qed.

(** *** delete_student *)

(** C6. [delete_student] sends one request, a delete on the students
    table; the users, teachers, marks, grades and attendance tables are the
    same after the call, whether or not the request fails, so the rows that
    refer to the deleted student stay. *)
Theorem delete_student_frame w student_id :
  let w' := (delete_student student_id w).2 in
  users (db w') = users (db w) ∧
  teachers (db w') = teachers (db w) ∧
  marks (db w') = marks (db w) ∧
  grades (db w') = grades (db w) ∧
  attendance (db w') = attendance (db w) ∧
  requests w' = requests w ++ [("students", DELETE)] ∧
  students (db w') =
    (if request_fails w then students (db w)
     else filter (λ s, ¬ Student.id s = student_id) (students (db w))).
Proof.
  unfold delete_student, table_delete, execute, request_fails, fails_next. unfold_M.
  destruct (head (faults w)) as [[msg|]|]; simpl; repeat split; auto.
Qed.

(** *** generate_ai_insights *)

Lemma number_ge_true x n : number_ge x n = true ↔ (inject_Z n <= to_Q x)%Q.
Proof. unfold number_ge. apply Qle_bool_iff. Qed.

Lemma number_ge_false x n : number_ge x n = false ↔ (to_Q x < inject_Z n)%Q.
Proof.
  unfold number_ge. split.
  - intros Hb. apply Qnot_le_lt. intros Hle. apply Qle_bool_iff in Hle. congruence.
  - intros Hlt. apply not_true_iff_false. intros Hb. apply Qle_bool_iff in Hb.
    by apply Qlt_not_le in Hlt.
Qed.

Lemma performance_level_analysis_table student avg_marks :
  level_table (to_Q avg_marks) (performance_level_analysis student avg_marks).1.
Proof.
  unfold performance_level_analysis.
  destruct (number_ge avg_marks 90) eqn:H90; simpl.
  { apply level_excellent. by apply number_ge_true in H90. }
  destruct (number_ge avg_marks 80) eqn:H80; simpl.
  { apply number_ge_true in H80. apply number_ge_false in H90. by apply level_good. }
  destruct (number_ge avg_marks 70) eqn:H70; simpl.
  { apply number_ge_true in H70. apply number_ge_false in H80. by apply level_average. }
  destruct (number_ge avg_marks 60) eqn:H60; simpl.
  { apply number_ge_true in H60. apply number_ge_false in H70.
    by apply level_below_average. }
  apply number_ge_false in H60. by apply level_needs_improvement.
Qed.

Lemma level_table_functional q l1 l2 : level_table q l1 → level_table q l2 → l1 = l2.
Proof. inversion 1; inversion 1; subst; try done; lra. Qed.

Lemma level_table_five q l :
  level_table q l →
  l ∈ ["Excellent"; "Good"; "Average"; "Below Average"; "Needs Improvement"].
Proof. inversion 1; set_solver. Qed.

(** C7. The ['performance_level'] of the insights is the entry of the
    five-level table for [avg_marks] ('Excellent' from 90, 'Good' from 80,
    'Average' from 70, 'Below Average' from 60, 'Needs Improvement'
    below), it is one of these five strings, and no other argument of
    [generate_ai_insights] has any influence on it. *)
Theorem performance_level_by_table student marks grades attendance avg_marks
    attendance_percentage :
  let level :=
    performance_level
      (generate_ai_insights student marks grades attendance avg_marks
         attendance_percentage) in
  level_table (to_Q avg_marks) level ∧
  level ∈ ["Excellent"; "Good"; "Average"; "Below Average"; "Needs Improvement"] ∧
  ∀ student' marks' grades' attendance' attendance_percentage',
    performance_level
      (generate_ai_insights student' marks' grades' attendance' avg_marks
         attendance_percentage') = level.
Proof.
  intros level. subst level. split; [|split].
  - apply performance_level_analysis_table.
  - eapply level_table_five, performance_level_analysis_table.
  - intros. simpl. unfold performance_level_analysis.
    by repeat case_match.
Qed.

(** *** The attendance table *)

Lemma key_touch student_id date_str face_data now a :
  Attendance.key (touch student_id date_str face_data now a) = Attendance.key a.
Proof. unfold touch. by case_decide. Qed.

Lemma attendance_on_nil_key student_id date_str d :
  attendance_on student_id date_str d = [] →
  (student_id, date_str) ∉ Attendance.key <$> attendance d.
Proof.
  unfold attendance_on. intros Hnil [a [Hk Ha]]%list_elem_of_fmap.
  assert (a ∈ filter (λ a, Attendance.student_id a = student_id ∧ Attendance.date a = date_str)
                 (attendance d)) as Hin.
  { apply list_elem_of_filter. split; [|done]. unfold Attendance.key in Hk. by inversion Hk. }
  rewrite Hnil in Hin. by apply not_elem_of_nil in Hin.
Qed.

Lemma attendance_on_touch student_id date_str face_data now (l : list Attendance.t) :
  filter (λ a, Attendance.student_id a = student_id ∧ Attendance.date a = date_str)
    (touch student_id date_str face_data now <$> l) =
  Attendance.set_face_data face_data now <$>
    filter (λ a, Attendance.student_id a = student_id ∧ Attendance.date a = date_str) l.
Proof.
  induction l as [|a l IH]; [done|]. rewrite fmap_cons. unfold touch at 1.
  case_decide as Ha.
  - rewrite filter_cons_True by done. rewrite (filter_cons_True _ a) by done.
    rewrite fmap_cons. by rewrite IH.
  - rewrite filter_cons_False by done. rewrite (filter_cons_False _ a) by done. done.
Qed.

Lemma attendance_on_touch_other student_id date_str face_data now other_id other_date
    (l : list Attendance.t) :
  (other_id, other_date) ≠ (student_id, date_str) →
  filter (λ a, Attendance.student_id a = other_id ∧ Attendance.date a = other_date)
    (touch student_id date_str face_data now <$> l) =
  filter (λ a, Attendance.student_id a = other_id ∧ Attendance.date a = other_date) l.
Proof.
  intros Hother. induction l as [|a l IH]; [done|]. rewrite fmap_cons.
  pose proof (key_touch student_id date_str face_data now a) as Hkey.
  unfold Attendance.key in Hkey.
  destruct (decide (Attendance.student_id a = other_id ∧ Attendance.date a = other_date))
    as [[Hs Hd]|Hne].
  - rewrite (filter_cons_True _ a) by done.
    assert (touch student_id date_str face_data now a = a) as ->.
    { unfold touch. rewrite decide_False; [done|]. intros [Hs' Hd']. apply Hother.
      congruence. }
    rewrite filter_cons_True by done. by rewrite IH.
  - rewrite (filter_cons_False _ a) by done.
    rewrite filter_cons_False; [done|].
    intros [Hs Hd]. apply Hne. split; congruence.
Qed.

Lemma attendance_unique_at_most_one student_id date_str d :
  attendance_unique d → (length (attendance_on student_id date_str d) ≤ 1)%nat.
Proof.
  unfold attendance_unique, attendance_on.
  induction (attendance d) as [|a l IH]; [simpl; lia|].
  rewrite fmap_cons. intros [Hnotin Hnd]%NoDup_cons.
  destruct (decide (Attendance.student_id a = student_id ∧ Attendance.date a = date_str))
    as [[Hs Hd]|Hne].
  - rewrite filter_cons_True by done.
    rewrite (filter_Forall_nil (λ b, Attendance.key b ≠ Attendance.key a)); [simpl; lia| |].
    + apply Forall_forall. intros b Hb Hkey. apply Hnotin. rewrite <- Hkey.
      apply list_elem_of_fmap. by exists b.
    + intros b Hb [Hs' Hd']. apply Hb. unfold Attendance.key. congruence.
  - rewrite filter_cons_False by done. by apply IH.
Qed.

(** Whatever the schedule, a call leaves the table alone, rewrites the
    matching records in place or appends one record for a pair that had
    none. *)
Lemma mark_attendance_cases w student_id date_str face_data :
  let w' := (mark_attendance student_id date_str face_data w).2 in
  attendance (db w') = attendance (db w) ∨
  (attendance_on student_id date_str (db w) ≠ [] ∧
   ∃ now, attendance (db w') =
            touch student_id date_str face_data now <$> attendance (db w)) ∨
  (attendance_on student_id date_str (db w) = [] ∧
   ∃ id created updated,
     attendance (db w') =
       attendance (db w) ++
         [Attendance.mk id student_id date_str face_data created updated]).
Proof.
  unfold mark_attendance, table_select, table_update, table_insert, execute, attendance_on.
  unfold_M. simpl.
  destruct (faults w) as [|[m1|] [|[m2|] fs]] eqn:Hf; simpl; auto;
    destruct (filter _ (attendance (db w))) as [|a l] eqn:Hex; simpl; rewrite ?Hf; simpl; auto.
  all: try (right; right; split; [done|]; eauto).
  all: try (right; left; split; [done|]; eexists; reflexivity).
Qed.

Lemma mark_attendance_preserves w student_id date_str face_data :
  attendance_unique (db w) →
  attendance_unique (db (mark_attendance student_id date_str face_data w).2).
Proof.
  intros Huniq. unfold attendance_unique in *.
  destruct (mark_attendance_cases w student_id date_str face_data)
    as [-> | [[_ [now ->]] | [Hnil (id & c & u & ->)]]].
  - done.
  - rewrite <- list_fmap_compose.
    erewrite list_fmap_ext; [exact Huniq|]. intros i a _. simpl. apply key_touch.
  - rewrite fmap_app. simpl. apply NoDup_app. split; [done|]. split.
    + intros k Hk Hin. apply list_elem_of_singleton in Hin. subst k.
      by apply attendance_on_nil_key in Hnil.
    + apply NoDup_singleton.
Qed.

(** Without failures [mark_attendance] returns the record it wrote. *)
Lemma mark_attendance_ok w student_id date_str face_data :
  no_faults w →
  ∃ a w', mark_attendance student_id date_str face_data w = (Ret (Some a), w') ∧
    no_faults w' ∧ today w' = today w ∧
    Attendance.face_data a = face_data ∧
    ((attendance_on student_id date_str (db w) ≠ [] ∧
      attendance (db w') =
        touch student_id date_str face_data (clock w) <$> attendance (db w)) ∨
     (attendance_on student_id date_str (db w) = [] ∧
      attendance (db w') = attendance (db w) ++ [a] ∧
      Attendance.key a = (student_id, date_str))).
Proof.
  intros Hnf.
  unfold mark_attendance, table_select, table_update, table_insert, attendance_on.
  unfold_M. rewrite execute_ok by quiet.
  simpl.
  destruct (filter _ (attendance (db w))) as [|a l] eqn:Hex; simpl.
  - rewrite execute_ok by quiet.
    simpl. eexists _, _. split; [reflexivity|]. simpl.
    repeat split; try done; [quiet|by right].
  - rewrite execute_ok by quiet.
    simpl. rewrite Hex. simpl. eexists _, _. split; [reflexivity|]. simpl.
    repeat split; try done; [quiet|by left].
Qed.

Lemma mark_attendance_stores w student_id date_str face_data :
  no_faults w →
  let w' := (mark_attendance student_id date_str face_data w).2 in
  attendance_on student_id date_str (db w') ≠ [] ∧
  ∀ a, a ∈ attendance_on student_id date_str (db w') → Attendance.face_data a = face_data.
Proof.
  intros Hnf.
  destruct (mark_attendance_ok w student_id date_str face_data Hnf)
    as (a & w' & Heq & _ & _ & Hface & Hcases).
  rewrite Heq. simpl. unfold attendance_on in *.
  destruct Hcases as [[Hne ->] | (Hnil & -> & Hkey)].
  - rewrite attendance_on_touch. split.
    + intros Hmap. apply fmap_nil_inv in Hmap. done.
    + intros a' [r [-> _]]%list_elem_of_fmap. done.
  - rewrite filter_app, Hnil. rewrite filter_cons_True.
    2:{ unfold Attendance.key in Hkey. by inversion Hkey. }
    rewrite filter_nil. simpl. split; [done|].
    intros a' Ha'%list_elem_of_singleton. by subst.
Qed.

Lemma keeps_ret {A} (a : A) : keeps_attendance (mret a).
Proof. done. Qed.

Lemma keeps_print s : keeps_attendance (print s).
Proof. done. Qed.

Lemma keeps_now : keeps_attendance datetime_now.
Proof. done. Qed.

Lemma keeps_bind {A B} (m : M A) (k : A → M B) :
  keeps_attendance m → (∀ a, keeps_attendance (k a)) → keeps_attendance (m ≫= k).
Proof.
  intros Hm Hk w. rewrite bind_run. specialize (Hm w).
  destruct (m w) as [[a|e] w1]; simpl in *; [|done]. by rewrite Hk.
Qed.

Lemma keeps_try {A} (body : M A) handler :
  keeps_attendance body → (∀ e, keeps_attendance (handler e)) →
  keeps_attendance (try_except body handler).
Proof.
  intros Hm Hk w. rewrite try_except_run. specialize (Hm w).
  destruct (body w) as [[a|e] w1]; simpl in *; [done|]. by rewrite Hk.
Qed.

Lemma keeps_for_each {A B} (l : list A) (body : A → M B) :
  (∀ x, keeps_attendance (body x)) → keeps_attendance (for_each l body).
Proof.
  intros Hbody. induction l as [|x l IH]; simpl; [apply keeps_ret|].
  apply keeps_bind; [done|]. intros y. apply keeps_bind; [done|]. intros ys.
  apply keeps_ret.
Qed.

Lemma keeps_execute {A} table v (op : Database → A * Database) :
  (∀ d, attendance (op d).2 = attendance d) → keeps_attendance (execute table v op).
Proof.
  intros Hop w. unfold execute. destruct (head (faults w)) as [[msg|]|]; simpl; auto.
Qed.

Ltac keeps :=
  repeat first
    [ apply keeps_try | apply keeps_bind | apply keeps_for_each | apply keeps_ret
    | apply keeps_print | apply keeps_now
    | apply keeps_execute; intros; reflexivity
    | intros [] | intros ? ].

Lemma run_call_attendance c w :
  (∀ student_id date_str face_data, c ≠ MarkAttendance student_id date_str face_data) →
  attendance (db (run_call c w)) = attendance (db w).
Proof.
  intros Hc. destruct c; simpl;
    try (by match goal with |- attendance (db (?m w).2) = _ =>
           assert (keeps_attendance m) as Hk;
             [ unfold create_student, delete_student, create_teacher, delete_teacher,
                 save_marks, save_grades, update_student_face, delete_student_face,
                 table_select, table_insert, table_delete, table_update; keeps
             | apply Hk ] end).
  by destruct (Hc student_id date_str face_data).
Qed.

(** Starting from an empty attendance table, the service never gets to a
    table with two records for one student and date. *)
Lemma reachable_attendance_unique w : reachable w → attendance_unique (db w).
Proof.
  induction 1 as [w Hnil|c w Hw IH|schedule w Hw IH].
  - unfold attendance_unique. rewrite Hnil. apply NoDup_nil_2.
  - destruct c; try (unfold attendance_unique; rewrite run_call_attendance; done).
    by apply mark_attendance_preserves.
  - done.
Qed.

(** C2. The attendance table never holds two records for one student and
    date: this holds in every world that the service reaches from an empty
    table by calls made one after the other, and [mark_attendance]
    preserves it from any table.  Whatever fails, the call leaves the
    table as it is (a request failed), or a record of that student and
    date exists and the records are rewritten in place, or none exists and
    exactly one record is appended; afterwards there is at most one record
    for the student and the date.  When no request fails the write
    happens: there is exactly one record for the student and the date and
    it holds the given face data; if a record existed, the table is the
    old one with that record given the new face data and update time, row
    for row, so no row is added and every other record is untouched; if
    none existed, the table is the old one followed by one new record
    for the student and date, which holds the given face data and is the
    record returned. *)
Theorem mark_attendance_one_record_per_day w student_id date_str face_data :
  attendance_unique (db w) →
  let w' := (mark_attendance student_id date_str face_data w).2 in
  (∀ w0, reachable w0 → attendance_unique (db w0)) ∧
  attendance_unique (db w') ∧
  (attendance (db w') = attendance (db w) ∨
   (attendance_on student_id date_str (db w) ≠ [] ∧
    ∃ now, attendance (db w') =
             touch student_id date_str face_data now <$> attendance (db w)) ∨
   (attendance_on student_id date_str (db w) = [] ∧
    ∃ id created updated,
      attendance (db w') =
        attendance (db w) ++
          [Attendance.mk id student_id date_str face_data created updated])) ∧
  (length (attendance_on student_id date_str (db w')) ≤ 1)%nat ∧
  (no_faults w →
     length (attendance_on student_id date_str (db w')) = 1%nat ∧
     (∀ a, a ∈ attendance_on student_id date_str (db w') →
           Attendance.face_data a = face_data) ∧
     (∀ old, attendance_on student_id date_str (db w) = [old] →
        attendance_on student_id date_str (db w') =
          [Attendance.set_face_data face_data (clock w) old] ∧
        attendance (db w') =
          touch student_id date_str face_data (clock w) <$> attendance (db w) ∧
        length (attendance (db w')) = length (attendance (db w)) ∧
        ∀ other_id other_date,
          (other_id, other_date) ≠ (student_id, date_str) →
          attendance_on other_id other_date (db w') =
            attendance_on other_id other_date (db w)) ∧
     (attendance_on student_id date_str (db w) = [] →
        ∃ a,
          (mark_attendance student_id date_str face_data w).1 = Ret (Some a) ∧
          attendance (db w') = attendance (db w) ++ [a] ∧
          Attendance.key a = (student_id, date_str) ∧
          Attendance.face_data a = face_data)).
Proof.
  intros Huniq w'. split; [apply reachable_attendance_unique|].
  assert (attendance_unique (db w')) as Huniq' by by apply mark_attendance_preserves.
  split; [done|]. split; [apply mark_attendance_cases|].
  pose proof (attendance_unique_at_most_one student_id date_str _ Huniq') as Hle.
  split; [done|]. intros Hnf.
  destruct (mark_attendance_stores w student_id date_str face_data Hnf) as [Hne Hface].
  fold w' in Hne, Hface.
  split; [destruct (attendance_on student_id date_str (db w')); simpl in *; [done|lia]|].
  split; [done|].
  destruct (mark_attendance_ok w student_id date_str face_data Hnf)
    as (a & w1 & Heq & _ & _ & Ha & Hcases).
  assert (w' = w1) as -> by (subst w'; by rewrite Heq).
  split.
  - intros old Hold.
    destruct Hcases as [[_ Htable] | [Hnil _]]; [|by rewrite Hnil in Hold].
    split; [|split; [done|split]].
    + unfold attendance_on in *. by rewrite Htable, attendance_on_touch, Hold.
    + by rewrite Htable, length_fmap.
    + intros other_id other_date Hother. unfold attendance_on. rewrite Htable.
      apply attendance_on_touch_other. done.
  - intros Hnil.
    destruct Hcases as [[Hne' _] | (_ & Htable & Hkey)]; [done|].
    exists a. by rewrite Heq.
Qed.

(** With a student logged in and an image posted, the route is one call of
    the service method. *)
Lemma mark_attendance_route_run session request w username user student_id student
    face_data :
  no_faults w →
  session !! "role" = Some "student" →
  session !! "username" = Some username →
  head (filter (λ u, User.username u = username) (users (db w))) = Some user →
  User.student_id user = Some student_id →
  student_id ≠ 0 →
  head (filter (λ s, Student.id s = student_id) (students (db w))) = Some student →
  method request = "POST" →
  form request !! "face_data" = Some face_data →
  (100 < py_len face_data)%nat →
  ∃ w0, no_faults w0 ∧ db w0 = db w ∧
    db (mark_attendance_route session request w).2 =
    db (mark_attendance (Student.id student) (today w) (Some face_data) w0).2.
Proof.
  intros Hnf Hrole Huser Hu Hsid Hnz Hs Hpost Hform Hlen.
  unfold mark_attendance_route. rewrite Hrole, Huser.
  rewrite decide_False by (by intros []).
  rewrite bind_run. unfold mret at 1, M_ret. rewrite bind_run.
  rewrite get_user_ok by quiet. rewrite Hu. simpl. rewrite Hsid.
  rewrite decide_False by done.
  rewrite bind_run.
  rewrite get_student_ok by quiet. simpl. rewrite Hs.
  rewrite bind_run. unfold date_today. simpl.
  rewrite decide_True by done. rewrite Hform.
  assert (truthy_str (Some face_data) = true) as ->.
  { simpl. apply bool_decide_eq_true. intros ->. simpl in Hlen. lia. }
  simpl. rewrite bool_decide_eq_true_2 by done.
  unfold_M.
  match goal with |- context [mark_attendance ?a ?b ?c ?W] =>
    exists W; destruct (mark_attendance a b c W) as [[[r|]|e] w1] end;
    (split; [quiet|done]).
Qed.

(** C5. When a logged-in student posts a [face_data] string of more than
    100 characters and no request fails, the attendance record of that
    student for today exists after the request and the [face_data] of
    every such record is the posted string itself. *)
Theorem face_data_stored_verbatim session request w username user student_id student
    face_data :
  no_faults w →
  session !! "role" = Some "student" →
  session !! "username" = Some username →
  head (filter (λ u, User.username u = username) (users (db w))) = Some user →
  User.student_id user = Some student_id →
  student_id ≠ 0 →
  head (filter (λ s, Student.id s = student_id) (students (db w))) = Some student →
  method request = "POST" →
  form request !! "face_data" = Some face_data →
  (100 < py_len face_data)%nat →
  let w' := (mark_attendance_route session request w).2 in
  let stored := attendance_on (Student.id student) (today w) (db w') in
  stored ≠ [] ∧ ∀ a, a ∈ stored → Attendance.face_data a = Some face_data.
Proof.
  intros Hnf Hrole Huser Hu Hsid Hnz Hs Hpost Hform Hlen w' stored.
  destruct (mark_attendance_route_run session request w username user student_id
              student face_data) as (w0 & Hnf0 & Hdb & Hrun); try done.
  subst stored w'. rewrite Hrun.
  by apply mark_attendance_stores.
Qed.

(** *** save_marks and save_grades *)

(** The loop that builds [marks_records] only reads the clock. *)
Lemma marks_records_run student_id (items : list (string * Z)) w :
  ∃ records w',
    for_each items (λ '(subject, mark),
      now ← datetime_now; mret (λ id, Mark.mk id student_id subject mark now)) w
    = (Ret records, w') ∧
    db w' = db w ∧ faults w' = faults w ∧ requests w' = requests w ∧
    (records = [] ↔ items = []) ∧
    ∀ n, Forall (λ r, Mark.student_id r = student_id) (assign_ids n records) ∧
         mark_entry <$> assign_ids n records = items.
Proof.
  revert w. induction items as [|[subject mark] items IH]; intros w.
  - eexists [], w. simpl. unfold_M. repeat split; done.
  - simpl. rewrite !bind_run. unfold datetime_now at 1. simpl. rewrite bind_run.
    match goal with |- context [for_each items ?f ?W] =>
      destruct (IH W) as (records & w' & Heq & Hdb & Hf & Hr & Hnil & Hrec) end.
    rewrite Heq. eexists _, w'. split; [reflexivity|].
    simpl. repeat split; try done; try congruence.
    + constructor; [done|]. apply Hrec.
    + unfold mark_entry at 1. simpl. f_equal. apply Hrec.
Qed.

Lemma grades_records_run student_id (items : list (string * string)) w :
  ∃ records w',
    for_each items (λ '(subject, grade),
      now ← datetime_now; mret (λ id, Grade.mk id student_id subject grade now)) w
    = (Ret records, w') ∧
    db w' = db w ∧ faults w' = faults w ∧ requests w' = requests w ∧
    (records = [] ↔ items = []) ∧
    ∀ n, Forall (λ r, Grade.student_id r = student_id) (assign_ids n records) ∧
         grade_entry <$> assign_ids n records = items.
Proof.
  revert w. induction items as [|[subject grade] items IH]; intros w.
  - eexists [], w. simpl. unfold_M. repeat split; done.
  - simpl. rewrite !bind_run. unfold datetime_now at 1. simpl. rewrite bind_run.
    match goal with |- context [for_each items ?f ?W] =>
      destruct (IH W) as (records & w' & Heq & Hdb & Hf & Hr & Hnil & Hrec) end.
    rewrite Heq. eexists _, w'. split; [reflexivity|].
    simpl. repeat split; try done; try congruence.
    + constructor; [done|]. apply Hrec.
    + unfold grade_entry at 1. simpl. f_equal. apply Hrec.
Qed.

Lemma save_marks_ok student_id marks_data w :
  no_faults w →
  ∃ inserted w',
    save_marks student_id marks_data w = (Ret inserted, w') ∧
    no_faults w' ∧
    requests w' = requests w ++ save_requests "marks" marks_data ∧
    marks (db w') =
      filter (λ r, ¬ Mark.student_id r = student_id) (marks (db w)) ++ inserted ∧
    Forall (λ r, Mark.student_id r = student_id) inserted ∧
    mark_entry <$> inserted = PyDict.items marks_data ∧
    students (db w') = students (db w) ∧ teachers (db w') = teachers (db w) ∧
    grades (db w') = grades (db w).
Proof.
  intros Hnf. unfold save_marks, table_delete, table_insert.
  rewrite try_except_run, bind_run.
  rewrite execute_ok by quiet.
  rewrite bind_run.
  match goal with |- context [for_each ?l ?f ?W] =>
    destruct (marks_records_run student_id l W)
      as (records & w1 & Heq & Hdb & Hf & Hr & Hnil & Hrec) end.
  rewrite Heq. unfold save_requests.
  destruct records as [|f records].
  - exists [], w1. unfold_M. split; [done|].
    destruct (Hrec 0) as [_ Hitems]. simpl in Hitems.
    unfold PyDict.items in Hitems. subst marks_data.
    rewrite Hdb, Hr. simpl. rewrite app_nil_r.
    repeat split; try done.
    unfold no_faults in *. rewrite Hf. simpl. by apply quiet_tail.
  - rewrite execute_ok.
    2:{ unfold request_fails. rewrite Hf. quiet. }
    eexists _, _. split; [reflexivity|]. simpl. rewrite Hdb, Hr. simpl.
    destruct (Hrec (next_id (db w))) as [Hsid Hitems]. simpl in Hsid, Hitems.
    destruct (PyDict.items marks_data) as [|item items] eqn:Hdata.
    { by destruct Hnil as [_ Hnil]; specialize (Hnil eq_refl). }
    unfold PyDict.items in Hdata. rewrite Hdata. simpl.
    repeat split; try done.
    + unfold no_faults in *. simpl. rewrite Hf. simpl. by do 2 apply quiet_tail.
    + by rewrite <- app_assoc.
Qed.

Lemma save_grades_ok student_id grades_data w :
  no_faults w →
  ∃ inserted w',
    save_grades student_id grades_data w = (Ret inserted, w') ∧
    no_faults w' ∧
    requests w' = requests w ++ save_requests "grades" grades_data ∧
    grades (db w') =
      filter (λ r, ¬ Grade.student_id r = student_id) (grades (db w)) ++ inserted ∧
    Forall (λ r, Grade.student_id r = student_id) inserted ∧
    grade_entry <$> inserted = PyDict.items grades_data ∧
    students (db w') = students (db w) ∧ teachers (db w') = teachers (db w) ∧
    marks (db w') = marks (db w).
Proof.
  intros Hnf. unfold save_grades, table_delete, table_insert.
  rewrite try_except_run, bind_run.
  rewrite execute_ok by quiet.
  rewrite bind_run.
  match goal with |- context [for_each ?l ?f ?W] =>
    destruct (grades_records_run student_id l W)
      as (records & w1 & Heq & Hdb & Hf & Hr & Hnil & Hrec) end.
  rewrite Heq. unfold save_requests.
  destruct records as [|f records].
  - exists [], w1. unfold_M. split; [done|].
    destruct (Hrec 0) as [_ Hitems]. simpl in Hitems.
    unfold PyDict.items in Hitems. subst grades_data.
    rewrite Hdb, Hr. simpl. rewrite app_nil_r.
    repeat split; try done.
    unfold no_faults in *. rewrite Hf. simpl. by apply quiet_tail.
  - rewrite execute_ok.
    2:{ unfold request_fails. rewrite Hf. quiet. }
    eexists _, _. split; [reflexivity|]. simpl. rewrite Hdb, Hr. simpl.
    destruct (Hrec (next_id (db w))) as [Hsid Hitems]. simpl in Hsid, Hitems.
    destruct (PyDict.items grades_data) as [|item items] eqn:Hdata.
    { by destruct Hnil as [_ Hnil]; specialize (Hnil eq_refl). }
    unfold PyDict.items in Hdata. rewrite Hdata. simpl.
    repeat split; try done.
    + unfold no_faults in *. simpl. rewrite Hf. simpl. by do 2 apply quiet_tail.
    + by rewrite <- app_assoc.
Qed.

(** What the table holds for one student after a save. *)
Lemma marks_of_after_save student_id other (old inserted : list Mark.t) :
  Forall (λ r, Mark.student_id r = student_id) inserted →
  filter (λ r, Mark.student_id r = other)
    (filter (λ r, ¬ Mark.student_id r = student_id) old ++ inserted) =
  if decide (other = student_id) then inserted
  else filter (λ r, Mark.student_id r = other) old.
Proof.
  intros Hsid. rewrite filter_app. case_decide as Hother.
  - subst other. rewrite filter_complement_nil. simpl. by apply filter_Forall_id.
  - rewrite filter_other by (intros; congruence).
    rewrite (filter_Forall_nil (λ r, Mark.student_id r = student_id) _ inserted).
    + by rewrite app_nil_r.
    + done.
    + intros; congruence.
Qed.

Lemma grades_of_after_save student_id other (old inserted : list Grade.t) :
  Forall (λ r, Grade.student_id r = student_id) inserted →
  filter (λ r, Grade.student_id r = other)
    (filter (λ r, ¬ Grade.student_id r = student_id) old ++ inserted) =
  if decide (other = student_id) then inserted
  else filter (λ r, Grade.student_id r = other) old.
Proof.
  intros Hsid. rewrite filter_app. case_decide as Hother.
  - subst other. rewrite filter_complement_nil. simpl. by apply filter_Forall_id.
  - rewrite filter_other by (intros; congruence).
    rewrite (filter_Forall_nil (λ r, Grade.student_id r = student_id) _ inserted).
    + by rewrite app_nil_r.
    + done.
    + intros; congruence.
Qed.

Lemma entries_missing_subject {R V} (entry : R → string * V) (l : list R)
    (d : PyDict.t V) subject :
  entry <$> l = PyDict.items d →
  PyDict.get subject d = None →
  filter (λ r, (entry r).1 = subject) l = [].
Proof.
  intros Hitems Hnone. apply PyDictFacts.get_None in Hnone.
  destruct (filter _ l) as [|r l'] eqn:Hfil; [done|].
  assert (r ∈ filter (λ r, (entry r).1 = subject) l) as Hin by (rewrite Hfil; left).
  apply list_elem_of_filter in Hin as [Hsub Hin].
  destruct Hnone. unfold PyDict.keys. unfold PyDict.items in Hitems. rewrite <- Hitems.
  rewrite <- list_fmap_compose. apply list_elem_of_fmap. exists r. by split.
Qed.

(** C9. Without failures [save_marks] sends a delete and then an insert:
    afterwards the rows of the student are the entries of [marks_data] and
    nothing else, reading them back gives [marks_data], a subject that
    [marks_data] does not mention has no row left, and the rows of other
    students are untouched.  [save_grades] does the same on the grades
    table. *)
Theorem save_replaces_all_rows student_id marks_data grades_data w :
  no_faults w →
  PyDict.wf marks_data →
  PyDict.wf grades_data →
  (let w' := (save_marks student_id marks_data w).2 in
   requests w' = requests w ++ save_requests "marks" marks_data ∧
   mark_entry <$> marks_of student_id (db w') = PyDict.items marks_data ∧
   (get_student_marks student_id w').1 = Ret marks_data ∧
   (∀ subject, PyDict.get subject marks_data = None →
      filter (λ r, Mark.subject r = subject) (marks_of student_id (db w')) = []) ∧
   (∀ other, other ≠ student_id → marks_of other (db w') = marks_of other (db w))) ∧
  (let w' := (save_grades student_id grades_data w).2 in
   requests w' = requests w ++ save_requests "grades" grades_data ∧
   grade_entry <$> grades_of student_id (db w') = PyDict.items grades_data ∧
   (get_student_grades student_id w').1 = Ret grades_data ∧
   (∀ subject, PyDict.get subject grades_data = None →
      filter (λ r, Grade.subject r = subject) (grades_of student_id (db w')) = []) ∧
   (∀ other, other ≠ student_id → grades_of other (db w') = grades_of other (db w))).
Proof.
  intros Hnf Hwfm Hwfg. split.
  - destruct (save_marks_ok student_id marks_data w Hnf)
      as (inserted & w' & Heq & Hnf' & Hreq & Hmarks & Hsid & Hitems & _).
    rewrite Heq. simpl.
    assert (marks_of student_id (db w') = inserted) as Hof.
    { unfold marks_of. rewrite Hmarks, marks_of_after_save by done. by rewrite decide_True. }
    split; [done|]. split; [by rewrite Hof|]. split; [|split].
    + rewrite get_student_marks_ok by quiet. simpl. f_equal.
      unfold student_marks. rewrite Hof.
      etrans; [|apply (PyDictFacts.rebuild marks_data Hwfm)].
      unfold PyDict.items in Hitems. rewrite <- Hitems.
      by rewrite foldl_fmap.
    + intros subject Hnone. rewrite Hof.
      by apply (entries_missing_subject mark_entry inserted marks_data).
    + intros other Hother. unfold marks_of.
      rewrite Hmarks, marks_of_after_save by done. by rewrite decide_False.
  - destruct (save_grades_ok student_id grades_data w Hnf)
      as (inserted & w' & Heq & Hnf' & Hreq & Hgrades & Hsid & Hitems & _).
    rewrite Heq. simpl.
    assert (grades_of student_id (db w') = inserted) as Hof.
    { unfold grades_of. rewrite Hgrades, grades_of_after_save by done.
      by rewrite decide_True. }
    split; [done|]. split; [by rewrite Hof|]. split; [|split].
    + rewrite get_student_grades_ok by quiet. simpl. f_equal.
      unfold student_grades. rewrite Hof.
      etrans; [|apply (PyDictFacts.rebuild grades_data Hwfg)].
      unfold PyDict.items in Hitems. rewrite <- Hitems.
      by rewrite foldl_fmap.
    + intros subject Hnone. rewrite Hof.
      by apply (entries_missing_subject grade_entry inserted grades_data).
    + intros other Hother. unfold grades_of.
      rewrite Hgrades, grades_of_after_save by done. by rewrite decide_False.
Qed.

(** *** enter_marks *)

Lemma read_mark_submitted form student acc subject :
  read_mark form student acc subject =
  match submitted form student subject with
  | Some mark =>
      (PyDict.set subject mark acc.1, PyDict.set subject (grade_of_mark mark) acc.2)
  | None => acc
  end.
Proof.
  unfold read_mark, submitted. destruct (form !! _) as [mark_val|]; [|done].
  by case_decide.
Qed.

Lemma read_marks_same_id form s s' subjects :
  Student.id s = Student.id s' → read_marks form s subjects = read_marks form s' subjects.
Proof.
  intros Hid. unfold read_marks. generalize (@PyDict.empty Z, @PyDict.empty string).
  induction subjects as [|subject subjects IH]; intros acc; simpl; [done|].
  rewrite <- IH. f_equal. unfold read_mark, mark_key. by rewrite Hid.
Qed.

Lemma foldl_read_mark_get form student subjects acc subject :
  let result := foldl (read_mark form student) acc subjects in
  (PyDict.get subject result.1 =
     match (if decide (subject ∈ subjects) then submitted form student subject else None) with
     | Some mark => Some mark
     | None => PyDict.get subject acc.1
     end) ∧
  (PyDict.get subject result.2 =
     match (if decide (subject ∈ subjects) then submitted form student subject else None) with
     | Some mark => Some (grade_of_mark mark)
     | None => PyDict.get subject acc.2
     end).
Proof.
  revert acc. induction subjects as [|x subjects IH]; intros acc; cbn [foldl]; cbv zeta.
  - rewrite decide_False by apply not_elem_of_nil. done.
  - specialize (IH (read_mark form student acc x)). cbv zeta in IH.
    destruct IH as [IH1 IH2]. rewrite IH1, IH2. clear IH1 IH2.
    rewrite read_mark_submitted.
    destruct (decide (x = subject)) as [->|Hne].
    + rewrite (decide_True (P := subject ∈ subject :: subjects)) by left.
      destruct (submitted form student subject) as [mark|]; simpl.
      * case_decide; [done|]. by rewrite !PyDictFacts.get_set_eq.
      * by case_decide.
    + assert (PyDict.get subject
                (match submitted form student x with
                 | Some mark =>
                     (PyDict.set x mark acc.1, PyDict.set x (grade_of_mark mark) acc.2)
                 | None => acc end).1 = PyDict.get subject acc.1) as ->.
      { destruct (submitted form student x); [by apply PyDictFacts.get_set_ne|done]. }
      assert (PyDict.get subject
                (match submitted form student x with
                 | Some mark =>
                     (PyDict.set x mark acc.1, PyDict.set x (grade_of_mark mark) acc.2)
                 | None => acc end).2 = PyDict.get subject acc.2) as ->.
      { destruct (submitted form student x); [by apply PyDictFacts.get_set_ne|done]. }
      destruct (decide (subject ∈ subjects)) as [Hin|Hnin].
      * by rewrite decide_True by by right.
      * by rewrite decide_False by (intros [?|?]%elem_of_cons; congruence).
Qed.

Lemma read_marks_get form student subjects subject mark :
  subject ∈ subjects →
  submitted form student subject = Some mark →
  PyDict.get subject (read_marks form student subjects).1 = Some mark ∧
  PyDict.get subject (read_marks form student subjects).2 = Some (grade_of_mark mark).
Proof.
  intros Hin Hsub. unfold read_marks.
  destruct (foldl_read_mark_get form student subjects (PyDict.empty, PyDict.empty) subject)
    as [H1 H2].
  rewrite H1, H2. rewrite decide_True by done. by rewrite Hsub.
Qed.

Lemma read_marks_get_None form student subjects subject :
  submitted form student subject = None →
  PyDict.get subject (read_marks form student subjects).1 = None ∧
  PyDict.get subject (read_marks form student subjects).2 = None.
Proof.
  intros Hsub. unfold read_marks.
  destruct (foldl_read_mark_get form student subjects (PyDict.empty, PyDict.empty) subject)
    as [H1 H2].
  rewrite H1, H2. rewrite Hsub. by case_decide.
Qed.

Lemma read_marks_wf form student subjects :
  PyDict.wf (read_marks form student subjects).1 ∧
  PyDict.wf (read_marks form student subjects).2.
Proof.
  unfold read_marks.
  assert (∀ acc, PyDict.wf acc.1 ∧ PyDict.wf acc.2 →
            PyDict.wf (foldl (read_mark form student) acc subjects).1 ∧
            PyDict.wf (foldl (read_mark form student) acc subjects).2) as Hgen.
  { induction subjects as [|x subjects IH]; intros acc Hacc; simpl; [done|].
    apply IH. rewrite read_mark_submitted.
    destruct (submitted form student x); [|done].
    simpl. split; apply PyDictFacts.wf_set; apply Hacc. }
  apply Hgen. split; apply PyDictFacts.wf_empty.
Qed.

Lemma get_truthy {V} k (v : V) d : PyDict.get k d = Some v → PyDict.truthy d = true.
Proof. by destruct d. Qed.

(** One round of the loop over the students, without failures. *)
Lemma enter_marks_student_ok form subjects student w :
  no_faults w →
  let marks_dict := (read_marks form student subjects).1 in
  let grades_dict := (read_marks form student subjects).2 in
  ∃ w', enter_marks_student form subjects student w = (Ret (), w') ∧
    no_faults w' ∧
    (PyDict.truthy marks_dict = true →
       mark_entry <$> marks_of (Student.id student) (db w') = marks_dict) ∧
    (PyDict.truthy grades_dict = true →
       grade_entry <$> grades_of (Student.id student) (db w') = grades_dict) ∧
    (∀ other, other ≠ Student.id student →
       marks_of other (db w') = marks_of other (db w) ∧
       grades_of other (db w') = grades_of other (db w)).
Proof.
  intros Hnf marks_dict grades_dict. unfold enter_marks_student.
  fold marks_dict grades_dict.
  rewrite bind_run.
  assert (∃ w1, (if PyDict.truthy marks_dict
                 then save_marks (Student.id student) marks_dict ≫= λ _, mret ()
                 else mret ()) w = (Ret (), w1) ∧
            no_faults w1 ∧ grades (db w1) = grades (db w) ∧
            (PyDict.truthy marks_dict = true →
               mark_entry <$> marks_of (Student.id student) (db w1) = marks_dict) ∧
            (∀ other, other ≠ Student.id student →
               marks_of other (db w1) = marks_of other (db w)))
    as (w1 & -> & Hnf1 & Hg1 & Hm1 & Ho1).
  { destruct (PyDict.truthy marks_dict) eqn:Htm.
    - destruct (save_marks_ok (Student.id student) marks_dict w Hnf)
        as (ins & w1 & Heq & Hnf1 & _ & Hmarks & Hsid & Hitems & _ & _ & Hg).
      exists w1. rewrite bind_run, Heq. repeat split; try done.
      + intros _. unfold marks_of. rewrite Hmarks, marks_of_after_save by done.
        by rewrite decide_True.
      + intros other Hother. unfold marks_of.
        rewrite Hmarks, marks_of_after_save by done. by rewrite decide_False.
    - exists w. repeat split; done. }
  destruct (PyDict.truthy grades_dict) eqn:Htg.
  - destruct (save_grades_ok (Student.id student) grades_dict w1 Hnf1)
      as (ins & w2 & Heq & Hnf2 & _ & Hgrades & Hsid & Hitems & _ & _ & Hm).
    exists w2. rewrite bind_run, Heq. split; [done|]. split; [done|].
    unfold marks_of in *. rewrite Hm. split; [done|]. split.
    + intros _. unfold grades_of. rewrite Hgrades, grades_of_after_save by done.
      by rewrite decide_True.
    + intros other Hother. split; [by apply Ho1|].
      unfold grades_of. rewrite Hgrades, grades_of_after_save by done.
      rewrite decide_False by done. by rewrite Hg1.
  - exists w1. split; [done|]. split; [done|]. split; [done|]. split; [done|].
    intros other Hother. split; [by apply Ho1|]. unfold grades_of. by rewrite Hg1.
Qed.

(** The whole loop: every student of the list ends with the rows that the
    form carried, the others keep theirs. *)
Lemma enter_marks_loop form subjects (l : list Student.t) w :
  no_faults w →
  ∃ results w', for_each l (enter_marks_student form subjects) w = (Ret results, w') ∧
    no_faults w' ∧
    ∀ s,
      (Student.id s ∈ Student.id <$> l →
         (PyDict.truthy (read_marks form s subjects).1 = true →
            mark_entry <$> marks_of (Student.id s) (db w') = (read_marks form s subjects).1) ∧
         (PyDict.truthy (read_marks form s subjects).2 = true →
            grade_entry <$> grades_of (Student.id s) (db w') =
              (read_marks form s subjects).2)) ∧
      (Student.id s ∉ Student.id <$> l →
         marks_of (Student.id s) (db w') = marks_of (Student.id s) (db w) ∧
         grades_of (Student.id s) (db w') = grades_of (Student.id s) (db w)).
Proof.
  revert w. induction l as [|x l IH]; intros w Hnf.
  - exists [], w. split; [done|]. split; [done|]. intros s. split; [|done].
    by intros ?%not_elem_of_nil.
  - simpl. rewrite bind_run.
    destruct (enter_marks_student_ok form subjects x w Hnf)
      as (w1 & -> & Hnf1 & Hxm & Hxg & Hxo).
    destruct (IH w1 Hnf1) as (results & w' & Heq & Hnf' & Hl).
    rewrite bind_run, Heq. eexists _, w'. split; [reflexivity|]. split; [done|].
    intros s. destruct (Hl s) as [Hin Hout].
    destruct (decide (Student.id s ∈ Student.id <$> l)) as [Hs|Hs].
    { split; [intros _; by apply Hin|]. intros Hnot. destruct Hnot. by right. }
    destruct (Hout Hs) as [Hm Hg]. rewrite Hm, Hg.
    destruct (decide (Student.id s = Student.id x)) as [Hsx|Hsx].
    + split; [|intros Hnot; destruct Hnot; rewrite Hsx; left].
      intros _. rewrite (read_marks_same_id form s x) by done. rewrite Hsx. done.
    + split; [intros [?|?]%elem_of_cons; done|]. intros _. by apply Hxo.
Qed.

Lemma entries_of_subject {R V} (entry : R → string * V) (l : list R) (d : PyDict.t V)
    subject v :
  entry <$> l = d → PyDict.wf d → PyDict.get subject d = Some v →
  filter (λ r, (entry r).1 = subject) l ≠ [] ∧
  ∀ r, r ∈ filter (λ r, (entry r).1 = subject) l → (entry r).2 = v.
Proof.
  intros Hentries Hwf Hget. split.
  - apply PyDictFacts.get_Some in Hget; [|done]. unfold PyDict.items in Hget.
    rewrite <- Hentries in Hget. apply list_elem_of_fmap in Hget as [r [Hr Hin]].
    intros Hnil.
    assert (r ∈ filter (λ r, (entry r).1 = subject) l) as Hfil.
    { apply list_elem_of_filter. split; [|done]. by rewrite <- Hr. }
    rewrite Hnil in Hfil. by apply not_elem_of_nil in Hfil.
  - intros r [Hsub Hin]%list_elem_of_filter.
    assert ((subject, (entry r).2) ∈ PyDict.items d) as Hitem.
    { unfold PyDict.items. rewrite <- Hentries. apply list_elem_of_fmap. exists r.
      split; [|done]. rewrite <- Hsub. by destruct (entry r). }
    apply PyDictFacts.get_Some in Hitem; [|done]. congruence.
Qed.

(** Without failures, a POST of the teacher runs the loop over the students
    of the class and section. *)
Lemma enter_marks_run session request class_name section w :
  no_faults w →
  session !! "role" = Some "teacher" →
  method request = "POST" →
  ∃ results w0,
    no_faults w0 ∧ db w0 = db w ∧
    let subjects := Teacher.subject <$> order_by _ Teacher.name false (teachers (db w)) in
    let filtered_students :=
      filter (λ s, Student.class s = class_name ∧ Student.section s = section)
        (order_by _ Student.name false (students (db w))) in
    db (enter_marks session request class_name section w).2 =
      db (for_each filtered_students (enter_marks_student (form request) subjects) w0).2 ∧
    for_each filtered_students (enter_marks_student (form request) subjects) w0
      = (Ret results, (for_each filtered_students
                         (enter_marks_student (form request) subjects) w0).2).
Proof.
  intros Hnf Hrole Hpost. unfold enter_marks. rewrite Hrole.
  rewrite decide_False by (intros Hne; by apply Hne).
  rewrite bind_run, get_all_students_ok by quiet.
  rewrite bind_run, get_all_teachers_ok by quiet.
  rewrite decide_True by done.
  rewrite bind_run.
  match goal with |- context [for_each ?l ?f ?W] =>
    destruct (enter_marks_loop (form request)
                (Teacher.subject <$> order_by _ Teacher.name false (teachers (db w))) l W)
      as (results & w' & Heq & Hnf' & _); [quiet|]; exists results, W end.
  split; [quiet|]. split; [done|]. simpl. rewrite Heq. simpl. done.
Qed.

(** C1. When the teacher posts the marks form and no request fails, then
    for every student of the class and section and every subject of a
    teacher for which the form carries a value that [int] parses as [m],
    the grades table afterwards has a row for that student and subject,
    and every such row carries the letter that the threshold table gives
    for [m]. *)
Theorem enter_marks_grade_by_table session request class_name section w s subject
    mark_val m :
  no_faults w →
  session !! "role" = Some "teacher" →
  method request = "POST" →
  s ∈ students (db w) →
  Student.class s = class_name →
  Student.section s = section →
  subject ∈ Teacher.subject <$> teachers (db w) →
  form request !! mark_key s subject = Some mark_val →
  mark_val ≠ "" →
  int_of_str mark_val = Some m →
  let w' := (enter_marks session request class_name section w).2 in
  let saved :=
    filter (λ r, Grade.subject r = subject) (grades_of (Student.id s) (db w')) in
  saved ≠ [] ∧ ∀ r, r ∈ saved → threshold_table m (Grade.grade r).
Proof.
  intros Hnf Hrole Hpost Hs Hclass Hsection Hsubject Hform Hne Hint w' saved.
  destruct (enter_marks_run session request class_name section w Hnf Hrole Hpost)
    as (results & w0 & Hnf0 & Hdb0 & Hrun & Hret).
  cbv zeta in Hrun, Hret.
  set (subjects := Teacher.subject <$> order_by _ Teacher.name false (teachers (db w))) in *.
  set (filtered := filter _ (order_by _ Student.name false (students (db w)))) in *.
  destruct (enter_marks_loop (form request) subjects filtered w0 Hnf0)
    as (results' & w1 & Heq & _ & Hloop).
  rewrite Heq in Hrun. simpl in Hrun.
  assert (submitted (form request) s subject = Some m) as Hsub.
  { unfold submitted. rewrite Hform. by rewrite decide_True. }
  assert (subject ∈ subjects) as Hin_subject.
  { unfold subjects. apply list_elem_of_fmap in Hsubject as [t [-> Ht]].
    apply list_elem_of_fmap. exists t. split; [done|]. by rewrite order_by_perm. }
  assert (Student.id s ∈ Student.id <$> filtered) as Hin_student.
  { apply list_elem_of_fmap. exists s. split; [done|]. unfold filtered.
    apply list_elem_of_filter. split; [done|]. by rewrite order_by_perm. }
  destruct (read_marks_get (form request) s subjects subject m Hin_subject Hsub)
    as [_ Hgrade].
  destruct (Hloop s) as [[_ Hstored] _]; [done|].
  specialize (Hstored (get_truthy _ _ _ Hgrade)).
  destruct (entries_of_subject grade_entry (grades_of (Student.id s) (db w1)) _
              subject (grade_of_mark m) Hstored) as [Hne' Hall].
  { apply read_marks_wf. }
  { done. }
  subst saved w'. rewrite Hrun. split; [done|].
  intros r Hr. specialize (Hall r Hr). simpl in Hall. rewrite Hall.
  apply grade_of_mark_table.
Qed.

(** What the loop leaves for a student who got at least one mark: the
    marks rows are the submitted ones, so the stored mark of every subject
    for which the form carries nothing is gone. *)
Lemma enter_marks_erases_unsubmitted session request class_name section w s subject m
    other :
  no_faults w →
  session !! "role" = Some "teacher" →
  method request = "POST" →
  s ∈ students (db w) →
  Student.class s = class_name →
  Student.section s = section →
  subject ∈ Teacher.subject <$> teachers (db w) →
  submitted (form request) s subject = Some m →
  submitted (form request) s other = None →
  let w' := (enter_marks session request class_name section w).2 in
  filter (λ r, Mark.subject r = other) (marks_of (Student.id s) (db w')) = [].
Proof.
  intros Hnf Hrole Hpost Hs Hclass Hsection Hsubject Hsub Hother w'.
  destruct (enter_marks_run session request class_name section w Hnf Hrole Hpost)
    as (results & w0 & Hnf0 & Hdb0 & Hrun & Hret).
  cbv zeta in Hrun, Hret.
  set (subjects := Teacher.subject <$> order_by _ Teacher.name false (teachers (db w))) in *.
  set (filtered := filter _ (order_by _ Student.name false (students (db w)))) in *.
  destruct (enter_marks_loop (form request) subjects filtered w0 Hnf0)
    as (results' & w1 & Heq & _ & Hloop).
  rewrite Heq in Hrun. simpl in Hrun.
  assert (subject ∈ subjects) as Hin_subject.
  { unfold subjects. apply list_elem_of_fmap in Hsubject as [t [-> Ht]].
    apply list_elem_of_fmap. exists t. split; [done|]. by rewrite order_by_perm. }
  assert (Student.id s ∈ Student.id <$> filtered) as Hin_student.
  { apply list_elem_of_fmap. exists s. split; [done|]. unfold filtered.
    apply list_elem_of_filter. split; [done|]. by rewrite order_by_perm. }
  destruct (read_marks_get (form request) s subjects subject m Hin_subject Hsub)
    as [Hmark _].
  destruct (read_marks_get_None (form request) s subjects other Hother) as [Hnone _].
  destruct (Hloop s) as [[Hstored _] _]; [done|].
  specialize (Hstored (get_truthy _ _ _ Hmark)).
  subst w'. rewrite Hrun.
  by apply (entries_missing_subject mark_entry _ (read_marks (form request) s subjects).1).
Qed.

(** *** The reports *)

Lemma py_sum_foldr (l : list Z) : py_sum l = foldr Z.add 0 l.
Proof.
  unfold py_sum.
  assert (∀ a, foldl Z.add a l = a + foldr Z.add 0 l) as Hgen.
  { induction l as [|x l IH]; intros a; simpl; [lia|]. rewrite IH. lia. }
  by rewrite Hgen.
Qed.

Lemma average_marks_spec (marks_dict : PyDict.t Z) :
  match marks_dict with
  | [] => average_marks marks_dict = Int 0
  | _ :: _ =>
      ∃ q, average_marks marks_dict = Float q ∧
        (q == inject_Z (foldr Z.add 0%Z (PyDict.values marks_dict)) /
              inject_Z (Z.of_nat (length (PyDict.values marks_dict))))%Q
  end.
Proof.
  destruct marks_dict as [|item items]; [done|].
  unfold average_marks, truediv. simpl PyDict.truthy. cbv iota.
  eexists. split; [reflexivity|].
  rewrite py_sum_foldr. unfold PyDict.len, PyDict.values. by rewrite length_fmap.
Qed.

Lemma distribution_fold (g : string) (values : list string) (acc : PyDict.t Z) :
  PyDict.get g
    (foldl (λ dist grade, PyDict.set grade (PyDict.get_default grade 0 dist + 1) dist)
       acc values) =
  match length (filter (λ v, v = g) values) with
  | O => PyDict.get g acc
  | S n => Some (PyDict.get_default g 0 acc + Z.of_nat (S n))
  end.
Proof.
  revert acc. induction values as [|x values IH]; intros acc; [done|].
  cbn [foldl]. rewrite IH. clear IH.
  destruct (decide (x = g)) as [->|Hne].
  - rewrite (filter_cons_True (λ v, v = g)) by done. cbn [length].
    unfold PyDict.get_default. rewrite !PyDictFacts.get_set_eq.
    destruct (length (filter _ values)); f_equal; lia.
  - rewrite (filter_cons_False (λ v, v = g)) by done.
    unfold PyDict.get_default. rewrite !PyDictFacts.get_set_ne by done.
    done.
Qed.

Lemma length_filter_values (g : string) (grades_dict : PyDict.t string) :
  length (filter (λ v, v = g) (PyDict.values grades_dict)) =
  subjects_with_grade g grades_dict.
Proof.
  unfold subjects_with_grade, PyDict.values, PyDict.items.
  induction grades_dict as [|[k v] d IH]; [done|]. rewrite fmap_cons. simpl snd.
  destruct (decide (v = g)).
  - rewrite !filter_cons_True by done. simpl. by rewrite IH.
  - rewrite !filter_cons_False by done. done.
Qed.

Lemma grade_distribution_spec (grades_dict : PyDict.t string) (g : string) :
  PyDict.get g (grade_distribution grades_dict) =
  match subjects_with_grade g grades_dict with
  | O => None
  | S n => Some (Z.of_nat (S n))
  end.
Proof.
  unfold grade_distribution. destruct (PyDict.truthy grades_dict) eqn:Ht.
  - rewrite distribution_fold, length_filter_values.
    destruct (subjects_with_grade g grades_dict); [done|].
    unfold PyDict.get_default. simpl. f_equal.
  - by destruct grades_dict.
Qed.

Lemma role_allowed (session : Session) :
  session !! "role" ∈ [Some "principal"; Some "teacher"] →
  ∀ {A} (a b : A),
    (if decide (session !! "role" ∉ [Some "principal"; Some "teacher"]) then a else b) = b.
Proof. intros Hrole A a b. by rewrite decide_False by (intros Hn; by apply Hn). Qed.

(** Without failures [student_report] renders the report built from the
    rows of the student. *)
Lemma student_report_run session student_id student w :
  no_faults w →
  session !! "role" ∈ [Some "principal"; Some "teacher"] →
  head (filter (λ s, Student.id s = student_id) (students (db w))) = Some student →
  ∃ attendance w',
    length attendance = length (attendance_of student_id (db w)) ∧
    student_report session student_id w =
      (Ret (RenderTemplate "student_report.html"
              (mkReportData student
                 (round (attendance_percentage attendance))
                 (round (average_marks (student_marks student_id (db w))))
                 (grade_distribution (student_grades student_id (db w)))
                 (if PyDict.truthy (student_marks student_id (db w))
                  then PyDict.len (student_marks student_id (db w)) else 0%nat)
                 (length attendance),
               session !! "username")), w').
Proof.
  intros Hnf Hrole Hstudent. unfold student_report. rewrite role_allowed by done.
  rewrite bind_run, get_student_ok by quiet. rewrite Hstudent.
  rewrite bind_run, get_student_marks_ok by quiet.
  rewrite bind_run, get_student_grades_ok by quiet.
  rewrite bind_run.
  match goal with |- context [get_student_attendance ?sid ?W] =>
    destruct (length_get_student_attendance sid W) as (attendance & -> & Hlen) end;
    [quiet|].
  exists attendance. eexists. split; [done|]. reflexivity.
Qed.

(** C4. In the report of a student (without failures), [average_marks] is
    0 when the student has no marks and otherwise the sum of the mark
    values divided by their number; the report shows it rounded to two
    decimals.  [grade_distribution] maps a letter to the number of the
    student's subjects with that grade, and has no entry for a letter that
    no subject has. *)
Theorem student_report_average_and_distribution session student_id student w :
  no_faults w →
  session !! "role" ∈ [Some "principal"; Some "teacher"] →
  head (filter (λ s, Student.id s = student_id) (students (db w))) = Some student →
  let marks_dict := student_marks student_id (db w) in
  let grades_dict := student_grades student_id (db w) in
  ∃ report_data username w',
    student_report session student_id w =
      (Ret (RenderTemplate "student_report.html" (report_data, username)), w') ∧
    report_average_marks report_data = round (average_marks marks_dict) ∧
    match marks_dict with
    | [] => average_marks marks_dict = Int 0
    | _ :: _ =>
        ∃ q, average_marks marks_dict = Float q ∧
          (q == inject_Z (foldr Z.add 0%Z (PyDict.values marks_dict)) /
                inject_Z (Z.of_nat (length (PyDict.values marks_dict))))%Q
    end ∧
    ∀ g, PyDict.get g (report_grade_distribution report_data) =
         match subjects_with_grade g grades_dict with
         | O => None
         | S n => Some (Z.of_nat (S n))
         end.
Proof.
  intros Hnf Hrole Hstudent marks_dict grades_dict.
  destruct (student_report_run session student_id student w Hnf Hrole Hstudent)
    as (attendance & w' & Hlen & Heq).
  eexists _, _, w'. split; [exact Heq|]. simpl.
  split; [done|]. split; [apply average_marks_spec|]. apply grade_distribution_spec.
Qed.

(** *** The attendance percentage *)

(** More than 30 records give more than 100 percent, also after rounding. *)
Lemma rounded_percentage_above_100 (n : nat) :
  (30 < n)%nat →
  (100 < to_Q (round (Float (to_Q (truediv (Z.of_nat n) 30) * 100))))%Q.
Proof.
  intros Hn. simpl.
  set (x := (inject_Z (Z.of_nat n) / inject_Z 30 * 100)%Q).
  pose proof (round2_close x) as Hclose. apply Qabs_Qle_condition in Hclose.
  destruct Hclose as [Hlow _].
  assert (inject_Z 31 <= inject_Z (Z.of_nat n))%Q as Hn'.
  { rewrite <- Zle_Qle. lia. }
  assert (x * 30 == inject_Z (Z.of_nat n) * 100)%Q as Hx.
  { unfold x. change (inject_Z 30) with 30%Q. field. }
  change (inject_Z 31) with 31%Q in Hn'.
  clearbody x. generalize dependent (inject_Z (Z.of_nat n)). intros y Hy Hx.
  generalize dependent (round2 x). intros r Hr. lra.
Qed.

Lemma sort_desc_perm {A} (key : A → Q) (l : list A) : sort_desc key l ≡ₚ l.
Proof.
  unfold sort_desc.
  assert (∀ x sorted, insert_desc key x sorted ≡ₚ x :: sorted) as Hins.
  { intros x sorted. induction sorted as [|y sorted IH]; simpl; [done|].
    destruct (Qle_bool (key x) (key y)); [|done].
    rewrite IH. apply Permutation_swap. }
  assert (∀ sorted, foldl (λ sorted x, insert_desc key x sorted) sorted l ≡ₚ sorted ++ l)
    as Hgen.
  { induction l as [|x l IH]; intros sorted; simpl; [by rewrite app_nil_r|].
    rewrite IH, Hins. simpl. apply Permutation_middle. }
  apply Hgen.
Qed.

(** The entries of the attendance report, before they are sorted. *)
Lemma attendance_entries_run (l : list Student.t) w :
  no_faults w →
  ∃ entries w',
    for_each l attendance_entry w = (Ret entries, w') ∧
    no_faults w' ∧ db w' = db w ∧
    entry_student <$> entries = l ∧
    Forall (λ e,
      let n := length (attendance_of (Student.id (entry_student e)) (db w)) in
      entry_student e ∈ l ∧
      entry_attendance_days e = n ∧
      entry_attendance_percentage e =
        round (Float (to_Q (truediv (Z.of_nat n) 30) * 100))) entries.
Proof.
  revert w. induction l as [|s l IH]; intros w Hnf.
  - exists [], w. repeat split; done.
  - simpl. rewrite bind_run. unfold attendance_entry at 1. rewrite bind_run.
    destruct (length_get_student_attendance (Student.id s) w) as (attendance & -> & Hlen);
      [quiet|].
    unfold mret at 1, M_ret. rewrite bind_run.
    destruct (IH (sent ("attendance", SELECT) w))
      as (entries & w' & Heq & Hnf' & Hdb & Hstudents & Hall); [quiet|].
    rewrite Heq. eexists _, w'. split; [reflexivity|].
    split; [done|]. split; [by rewrite Hdb|].
    split; [by rewrite fmap_cons, Hstudents|].
    constructor.
    + simpl. rewrite Hlen. split; [left|done].
    + eapply Forall_impl; [exact Hall|]. simpl. intros e (Hin & Hdays & Hpct).
      split; [by right|done].
Qed.

(** C10. Without failures, the attendance percentage of [student_report]
    and of every entry of [attendance_report] is [round(n / 30 * 100, 2)]
    for the number [n] of attendance records of the student; it is not
    clamped: with more than 30 records it is above 100.  The attendance
    report has one entry for each student that passes its class and
    section filters, so every such student with more than 30 records is
    shown with a percentage above 100. *)
Theorem attendance_percentage_not_clamped session w :
  no_faults w →
  session !! "role" ∈ [Some "principal"; Some "teacher"] →
  (∀ student_id student,
     head (filter (λ s, Student.id s = student_id) (students (db w))) = Some student →
     ∃ report_data username w',
       student_report session student_id w =
         (Ret (RenderTemplate "student_report.html" (report_data, username)), w') ∧
       let n := length (attendance_of student_id (db w)) in
       report_total_attendance_days report_data = n ∧
       report_attendance_percentage report_data =
         round (Float (to_Q (truediv (Z.of_nat n) 30) * 100)) ∧
       ((30 < n)%nat → (100 < to_Q (report_attendance_percentage report_data))%Q)) ∧
  (∀ request,
     let shown :=
       filter (λ s,
                 (truthy_str (args request !! "class") = true →
                  Some (Student.class s) = args request !! "class") ∧
                 (truthy_str (args request !! "section") = true →
                  Some (Student.section s) = args request !! "section"))
              (students (db w)) in
     ∃ report w',
       attendance_report session request w =
         (Ret (RenderTemplate "attendance_report.html" report), w') ∧
       entry_student <$> attendance_data report ≡ₚ shown ∧
       (∀ e, e ∈ attendance_data report →
          let n := length (attendance_of (Student.id (entry_student e)) (db w)) in
          entry_attendance_days e = n ∧
          entry_attendance_percentage e =
            round (Float (to_Q (truediv (Z.of_nat n) 30) * 100)) ∧
          ((30 < n)%nat → (100 < to_Q (entry_attendance_percentage e))%Q)) ∧
       (∀ s, s ∈ shown →
          (30 < length (attendance_of (Student.id s) (db w)))%nat →
          ∃ e, e ∈ attendance_data report ∧ entry_student e = s ∧
               (100 < to_Q (entry_attendance_percentage e))%Q)).
Proof.
  intros Hnf Hrole. split.
  - intros student_id student Hstudent.
    destruct (student_report_run session student_id student w Hnf Hrole Hstudent)
      as (attendance & w' & Hlen & Heq).
    eexists _, _, w'. split; [exact Heq|]. simpl.
    unfold attendance_percentage. simpl. rewrite Hlen.
    split; [done|]. split; [done|]. intros Hn.
    by apply (rounded_percentage_above_100 _ Hn).
  - intros request shown. unfold attendance_report. rewrite role_allowed by done.
    rewrite bind_run, get_all_students_ok by quiet.
    rewrite bind_run.
    match goal with |- context [for_each ?l attendance_entry ?W] =>
      destruct (attendance_entries_run l W)
        as (entries & w' & -> & _ & _ & Hstudents & Hall) end;
      [quiet|].
    eexists _, w'. split; [reflexivity|]. simpl.
    rewrite Forall_forall in Hall.
    assert (entry_student <$>
              sort_desc (λ x, to_Q (entry_attendance_percentage x)) entries ≡ₚ shown)
      as Hshown.
    { rewrite sort_desc_perm, Hstudents. subst shown.
      set (all := order_by _ Student.name false (students (db w))).
      rewrite <- (order_by_perm _ Student.name false (students (db w))). fold all.
      destruct (truthy_str (args request !! "class")) eqn:Hclass;
        destruct (truthy_str (args request !! "section")) eqn:Hsection.
      - rewrite list_filter_filter. apply reflexive_eq, list_filter_iff.
        intros s. intuition discriminate.
      - apply reflexive_eq, list_filter_iff. intros s. intuition discriminate.
      - apply reflexive_eq, list_filter_iff. intros s. intuition discriminate.
      - apply reflexive_eq. induction all as [|s all IH]; [done|].
        rewrite filter_cons_True by (by split). by f_equal. }
    split; [exact Hshown|]. split.
    + intros e He. rewrite sort_desc_perm in He.
      destruct (Hall e He) as (_ & Hdays & Hpct).
      split; [done|]. split; [done|]. intros Hn. rewrite Hpct.
      by apply rounded_percentage_above_100.
    + intros s Hs Hn. rewrite <- Hshown in Hs.
      apply list_elem_of_fmap in Hs as (e & -> & He).
      exists e. split; [done|]. split; [done|].
      rewrite sort_desc_perm in He.
      destruct (Hall e He) as (_ & _ & Hpct). rewrite Hpct.
      by apply rounded_percentage_above_100.
Qed.

(** *** Frames *)

Lemma frame_ret {A X} (f : Database → X) (a : A) : keeps f (mret a).
Proof. done. Qed.

Lemma frame_raise {A X} (f : Database → X) e : keeps f (@raise A e).
Proof. done. Qed.

Lemma frame_call {A X} (f : Database → X) (o : outcome A) : keeps f (call o).
Proof. done. Qed.

Lemma frame_print {X} (f : Database → X) s : keeps f (print s).
Proof. done. Qed.

Lemma frame_flash {X} (f : Database → X) msg category : keeps f (flash msg category).
Proof. done. Qed.

Lemma frame_now {X} (f : Database → X) : keeps f datetime_now.
Proof. done. Qed.

Lemma frame_today {X} (f : Database → X) : keeps f date_today.
Proof. done. Qed.

Lemma frame_load_global {X} (f : Database → X) name : keeps f (load_global name).
Proof. unfold load_global. by case_decide. Qed.

Lemma frame_bind {A B X} (f : Database → X) (m : M A) (k : A → M B) :
  keeps f m → (∀ a, keeps f (k a)) → keeps f (m ≫= k).
Proof.
  intros Hm Hk w. rewrite bind_run. specialize (Hm w).
  destruct (m w) as [[a|e] w1]; simpl in *; [|done]. by rewrite Hk.
Qed.

Lemma frame_try {A X} (f : Database → X) (body : M A) handler :
  keeps f body → (∀ e, keeps f (handler e)) → keeps f (try_except body handler).
Proof.
  intros Hm Hk w. rewrite try_except_run. specialize (Hm w).
  destruct (body w) as [[a|e] w1]; simpl in *; [done|]. by rewrite Hk.
Qed.

Lemma frame_for_each {A B X} (f : Database → X) (l : list A) (body : A → M B) :
  (∀ x, keeps f (body x)) → keeps f (for_each l body).
Proof.
  intros Hbody. induction l as [|x l IH]; simpl; [apply frame_ret|].
  apply frame_bind; [done|]. intros y. apply frame_bind; [done|]. intros ys.
  apply frame_ret.
Qed.

Lemma frame_execute {A X} (f : Database → X) table v (op : Database → A * Database) :
  (∀ d, f (op d).2 = f d) → keeps f (execute table v op).
Proof.
  intros Hop w. unfold execute. destruct (head (faults w)) as [[msg|]|]; simpl; auto.
Qed.

Lemma frame_execute_checked {A X} (f : Database → X) table v
    (op : Database → option (A * Database)) :
  (∀ d r, op d = Some r → f r.2 = f d) → keeps f (execute_checked table v op).
Proof.
  intros Hop w. unfold execute_checked.
  destruct (head (faults w)) as [[msg|]|]; simpl; auto;
    destruct (op (db w)) as [r|] eqn:Hr; simpl; eauto.
Qed.

Lemma frame_update_payload {R X} (f : Database → X) (T : Table R) C policy payload
    (P : R → Prop) `{!∀ r, Decision (P r)} :
  (∀ l d, f (set_rows T l d) = f d) →
  keeps f (table_update_payload T C policy payload P).
Proof.
  intros Hset. apply frame_execute_checked. intros d r.
  unfold db_update_payload. destruct policy; [destruct (payload_fits C payload)|];
    intros [= <-]; try done; apply Hset.
Qed.

(** Breaks code into its statements and closes the frame of each. *)
Ltac frame :=
  repeat first
    [ apply frame_try | apply frame_bind | apply frame_for_each | apply frame_ret
    | apply frame_raise | apply frame_call | apply frame_print | apply frame_flash
    | apply frame_now | apply frame_today | apply frame_load_global
    | apply frame_execute; intros; reflexivity
    | apply frame_update_payload; intros; reflexivity
    | match goal with
      | |- keeps _ (match ?x with _ => _ end) => destruct x
      | |- keeps _ (if ?b then _ else _) => destruct b
      | |- keeps _ (let _ := _ in _) => cbv zeta
      | |- ∀ _, _ => intro
      end ].

Ltac unfold_service :=
  unfold get_user, verify_user, get_all_users, create_user, create_student, get_student,
    get_all_students, update_student, delete_student, create_teacher, get_teacher,
    get_all_teachers, update_teacher, delete_teacher, save_marks, get_student_marks,
    save_grades, get_student_grades, mark_attendance, get_student_attendance,
    get_attendance_by_date, update_student_face, delete_student_face, get_statistics,
    get_class_statistics, table_select, table_insert, table_delete, table_update.

(** X1. Under every failure schedule, every method of the service other
    than [verify_user] returns: none of them raises. *)
Theorem service_never_raises policy generate_password_hash w :
  (∀ username password role student_id,
     ¬ raises (create_user generate_password_hash username password role student_id w).1) ∧
  (∀ username, ¬ raises (get_user username w).1) ∧
  ¬ raises (get_all_users w).1 ∧
  (∀ name age class_name section face_data,
     ¬ raises (create_student name age class_name section face_data w).1) ∧
  (∀ student_id, ¬ raises (get_student student_id w).1) ∧
  ¬ raises (get_all_students w).1 ∧
  (∀ student_id kwargs, ¬ raises (update_student policy student_id kwargs w).1) ∧
  (∀ student_id, ¬ raises (delete_student student_id w).1) ∧
  (∀ name subject, ¬ raises (create_teacher name subject w).1) ∧
  (∀ teacher_id, ¬ raises (get_teacher teacher_id w).1) ∧
  ¬ raises (get_all_teachers w).1 ∧
  (∀ teacher_id kwargs, ¬ raises (update_teacher policy teacher_id kwargs w).1) ∧
  (∀ teacher_id, ¬ raises (delete_teacher teacher_id w).1) ∧
  (∀ student_id marks_data, ¬ raises (save_marks student_id marks_data w).1) ∧
  (∀ student_id, ¬ raises (get_student_marks student_id w).1) ∧
  (∀ student_id grades_data, ¬ raises (save_grades student_id grades_data w).1) ∧
  (∀ student_id, ¬ raises (get_student_grades student_id w).1) ∧
  (∀ student_id date_str face_data,
     ¬ raises (mark_attendance student_id date_str face_data w).1) ∧
  (∀ student_id, ¬ raises (get_student_attendance student_id w).1) ∧
  (∀ date_str, ¬ raises (get_attendance_by_date date_str w).1) ∧
  (∀ student_id face_data, ¬ raises (update_student_face student_id face_data w).1) ∧
  (∀ student_id, ¬ raises (delete_student_face student_id w).1) ∧
  ¬ raises (get_statistics w).1 ∧
  (∀ class_name section, ¬ raises (get_class_statistics class_name section w).1).
Proof. repeat split; intros; apply try_except_returns. Qed.

(** X2. Every write of the service changes rows of one table only: under
    every failure schedule the other five tables are the same after the
    call. *)
Theorem writes_touch_one_table policy generate_password_hash :
  (∀ username password role student_id,
     keeps but_users (create_user generate_password_hash username password role student_id)) ∧
  (∀ name age class_name section face_data,
     keeps but_students (create_student name age class_name section face_data)) ∧
  (∀ student_id kwargs, keeps but_students (update_student policy student_id kwargs)) ∧
  (∀ student_id, keeps but_students (delete_student student_id)) ∧
  (∀ student_id face_data, keeps but_students (update_student_face student_id face_data)) ∧
  (∀ student_id, keeps but_students (delete_student_face student_id)) ∧
  (∀ name subject, keeps but_teachers (create_teacher name subject)) ∧
  (∀ teacher_id kwargs, keeps but_teachers (update_teacher policy teacher_id kwargs)) ∧
  (∀ teacher_id, keeps but_teachers (delete_teacher teacher_id)) ∧
  (∀ student_id marks_data, keeps but_marks (save_marks student_id marks_data)) ∧
  (∀ student_id grades_data, keeps but_grades (save_grades student_id grades_data)) ∧
  (∀ student_id date_str face_data,
     keeps but_attendance (mark_attendance student_id date_str face_data)).
Proof. repeat split; intros; unfold_service; frame. Qed.

(** X3. The reads of the service never write: under every failure schedule
    the whole store is the same after the call. *)
Theorem reads_never_write :
  (∀ username, keeps id (get_user username)) ∧
  (∀ username password, keeps id (verify_user username password)) ∧
  keeps id get_all_users ∧
  (∀ student_id, keeps id (get_student student_id)) ∧
  keeps id get_all_students ∧
  (∀ teacher_id, keeps id (get_teacher teacher_id)) ∧
  keeps id get_all_teachers ∧
  (∀ student_id, keeps id (get_student_marks student_id)) ∧
  (∀ student_id, keeps id (get_student_grades student_id)) ∧
  (∀ student_id, keeps id (get_student_attendance student_id)) ∧
  (∀ date_str, keeps id (get_attendance_by_date date_str)) ∧
  keeps id get_statistics ∧
  (∀ class_name section, keeps id (get_class_statistics class_name section)).
Proof. repeat split; intros; unfold_service; frame. Qed.

(** *** The handlers: who may do what *)

Ltac unfold_handlers :=
  unfold list_students, add_student, edit_student, delete_student_route, list_teachers,
    add_teacher, edit_teacher, delete_teacher_route, enter_marks, dashboard_principal,
    dashboard_teacher, dashboard_student, mark_attendance_route, manage_student_faces,
    view_student_face, delete_student_face_route, reports_dashboard, student_report,
    class_report, attendance_report, academic_report, get_next_student_id,
    get_next_teacher_id, login, attendance_entry, academic_entry, enter_marks_student,
    form_item, py_int.

(** X4. The pages that only show data never write: the listing, dashboard
    and report handlers leave the whole store as it is under every failure
    schedule, and so do the form handlers when the request is not a POST. *)
Theorem pages_never_write policy session request :
  keeps id (list_students session) ∧
  keeps id (list_teachers session) ∧
  keeps id (dashboard_principal session) ∧
  keeps id (dashboard_teacher session) ∧
  keeps id (dashboard_student session) ∧
  keeps id (manage_student_faces session request) ∧
  (∀ student_id, keeps id (view_student_face session student_id)) ∧
  keeps id (reports_dashboard session) ∧
  (∀ student_id, keeps id (student_report session student_id)) ∧
  (∀ class_name section, keeps id (class_report session class_name section)) ∧
  keeps id (attendance_report session request) ∧
  keeps id (academic_report session request) ∧
  keeps id get_next_student_id ∧
  keeps id get_next_teacher_id ∧
  keeps id (login session request) ∧
  (method request ≠ "POST" →
     keeps id (add_student session request) ∧
     (∀ student_id, keeps id (edit_student policy session request student_id)) ∧
     keeps id (add_teacher session request) ∧
     (∀ teacher_id, keeps id (edit_teacher policy session request teacher_id)) ∧
     (∀ class_name section, keeps id (enter_marks session request class_name section)) ∧
     keeps id (mark_attendance_route session request)).
Proof.
  repeat split; intros; unfold_handlers; unfold_service;
    try (destruct (decide (method request = "POST")); [congruence|]); frame.
Qed.

(** X5. A session without the role that a handler asks for gets the
    redirect to the login page and nothing else happens: no request is
    sent, nothing is flashed or printed, the world is the same. *)
Theorem wrong_role_changes_nothing policy session request referrer :
  (¬ staff session →
     returns_at_once (list_students session) (Redirect "login") ∧
     returns_at_once (add_student session request) (Redirect "login") ∧
     (∀ student_id,
        returns_at_once (edit_student policy session request student_id)
          (Redirect "login")) ∧
     (∀ student_id,
        returns_at_once (delete_student_route session student_id) (Redirect "login")) ∧
     returns_at_once (reports_dashboard session) (Redirect "login") ∧
     (∀ student_id,
        returns_at_once (student_report session student_id) (Redirect "login")) ∧
     (∀ class_name section,
        returns_at_once (class_report session class_name section) (Redirect "login")) ∧
     returns_at_once (attendance_report session request) (Redirect "login") ∧
     returns_at_once (academic_report session request) (Redirect "login")) ∧
  (session !! "role" ≠ Some "principal" →
     returns_at_once (list_teachers session) (Redirect "login") ∧
     returns_at_once (add_teacher session request) (Redirect "login") ∧
     (∀ teacher_id,
        returns_at_once (edit_teacher policy session request teacher_id)
          (Redirect "login")) ∧
     (∀ teacher_id,
        returns_at_once (delete_teacher_route session teacher_id) (Redirect "login")) ∧
     returns_at_once (dashboard_principal session) (Redirect "login")) ∧
  (session !! "role" ≠ Some "teacher" →
     (∀ class_name section,
        returns_at_once (enter_marks session request class_name section)
          (Redirect "login")) ∧
     returns_at_once (dashboard_teacher session) (Redirect "login") ∧
     returns_at_once (manage_student_faces session request) (Redirect "login") ∧
     (∀ student_id,
        returns_at_once (view_student_face session student_id) (Redirect "login")) ∧
     (∀ student_id,
        returns_at_once (delete_student_face_route session referrer student_id)
          (Redirect "login"))) ∧
  (session !! "role" ≠ Some "student" →
     returns_at_once (dashboard_student session) (Redirect "login") ∧
     returns_at_once (mark_attendance_route session request) (Redirect "login")).
Proof.
  repeat split; intros; intros w; unfold_handlers;
    first [ rewrite (decide_True (P := ¬ staff session)) by done
          | rewrite decide_True by done
          | (rewrite decide_True; [|done]) ];
    reflexivity.
Qed.

(** *** Failures *)

(** X6. When the store fails the first request of a call, the method
    returns its failure value ([None], [False], the empty list or dict),
    has printed one line with the error and has changed nothing in the
    store. *)
Theorem failed_request_gives_failure_value policy generate_password_hash w :
  request_fails w = true →
  (∀ username password role student_id,
     fails_with (create_user generate_password_hash username password role student_id)
       None "Error creating user: " w) ∧
  (∀ username, fails_with (get_user username) None "Error getting user: " w) ∧
  fails_with get_all_users [] "Error getting users: " w ∧
  (∀ name age class_name section face_data,
     fails_with (create_student name age class_name section face_data)
       None "Error creating student: " w) ∧
  (∀ student_id, fails_with (get_student student_id) None "Error getting student: " w) ∧
  fails_with get_all_students [] "Error getting students: " w ∧
  (∀ student_id kwargs,
     fails_with (update_student policy student_id kwargs) None "Error updating student: " w) ∧
  (∀ student_id, fails_with (delete_student student_id) false "Error deleting student: " w) ∧
  (∀ name subject,
     fails_with (create_teacher name subject) None "Error creating teacher: " w) ∧
  (∀ teacher_id, fails_with (get_teacher teacher_id) None "Error getting teacher: " w) ∧
  fails_with get_all_teachers [] "Error getting teachers: " w ∧
  (∀ teacher_id kwargs,
     fails_with (update_teacher policy teacher_id kwargs) None "Error updating teacher: " w) ∧
  (∀ teacher_id, fails_with (delete_teacher teacher_id) false "Error deleting teacher: " w) ∧
  (∀ student_id marks_data,
     fails_with (save_marks student_id marks_data) [] "Error saving marks: " w) ∧
  (∀ student_id,
     fails_with (get_student_marks student_id) PyDict.empty "Error getting marks: " w) ∧
  (∀ student_id grades_data,
     fails_with (save_grades student_id grades_data) [] "Error saving grades: " w) ∧
  (∀ student_id,
     fails_with (get_student_grades student_id) PyDict.empty "Error getting grades: " w) ∧
  (∀ student_id date_str face_data,
     fails_with (mark_attendance student_id date_str face_data)
       None "Error marking attendance: " w) ∧
  (∀ student_id,
     fails_with (get_student_attendance student_id) [] "Error getting attendance: " w) ∧
  (∀ date_str,
     fails_with (get_attendance_by_date date_str) []
       "Error getting attendance by date: " w) ∧
  (∀ student_id face_data,
     fails_with (update_student_face student_id face_data)
       None "Error updating face data: " w) ∧
  (∀ student_id,
     fails_with (delete_student_face student_id) None "Error deleting face data: " w) ∧
  (∀ class_name section,
     fails_with (get_class_statistics class_name section)
       None "Error getting class statistics: " w).
Proof.
  intros Hfail.
  repeat split; intros; unfold_service; unfold table_update_payload;
    unfold fails_with, execute, execute_checked;
    unfold request_fails, fails_next in Hfail;
    unfold_M; simpl;
    destruct (head (faults w)) as [[msg|]|]; try done;
    by exists msg.
Qed.

(** *** Writes and what can be read back *)

Lemma marks_records_stdout student_id (items : list (string * Z)) w0 l w1 :
  for_each items (λ '(subject, mark),
    now ← datetime_now; mret (λ id, Mark.mk id student_id subject mark now)) w0
  = (Ret l, w1) → stdout w1 = stdout w0.
Proof.
  revert w0 l w1. induction items as [|[subject mark] items IH]; intros w0 l w1.
  - simpl. unfold_M. by intros [= _ <-].
  - simpl. rewrite !bind_run. unfold datetime_now at 1. simpl. rewrite bind_run.
    match goal with |- context [for_each items ?f ?W] =>
      destruct (for_each items f W) as [[l'|e] w2] eqn:Hrest end; [|done].
    unfold_M. intros [= _ <-]. by apply IH in Hrest.
Qed.

(** X7. [save_marks] is not atomic: when the delete goes through and the
    insert fails, the call returns the empty list and prints the error,
    and the student is left without any mark; the marks of the other
    students are as before. *)
Theorem save_marks_not_atomic student_id marks_data w :
  request_fails w = false →
  fails_next (tail (faults w)) = true →
  marks_data ≠ [] →
  let w' := (save_marks student_id marks_data w).2 in
  (save_marks student_id marks_data w).1 = Ret [] ∧
  marks_of student_id (db w') = [] ∧
  (∀ other, other ≠ student_id → marks_of other (db w') = marks_of other (db w)) ∧
  ∃ msg, stdout w' = stdout w ++ ["Error saving marks: " +:+ msg].
Proof.
  intros Hok Hfail Hne. unfold save_marks, table_delete, table_insert.
  rewrite try_except_run, bind_run, execute_ok by done.
  rewrite bind_run.
  match goal with |- context [for_each ?l ?f ?W] =>
    destruct (marks_records_run student_id l W)
      as (records & w1 & Heq & Hdb & Hf & Hr & Hnil & Hrec) end.
  rewrite Heq. destruct records as [|f records].
  { destruct Hnil as [Hnil _]. by specialize (Hnil eq_refl). }
  destruct (execute_fails (table_name marks_table) INSERT
              (db_insert marks_table (f :: records)) w1) as [msg Hins].
  { unfold request_fails. by rewrite Hf. }
  rewrite Hins. unfold_M. simpl. rewrite Hdb. simpl.
  assert (stdout w1 = stdout w) as Hout by (by apply marks_records_stdout in Heq).
  rewrite Hout. unfold marks_of. simpl.
  split; [done|]. split; [apply filter_complement_nil|]. split; [|by exists msg].
  intros other Hother. apply filter_other. intros; congruence.
Qed.

(** X8. Marking attendance twice on one day keeps one record: after two
    calls without failures there is exactly one record of the student for
    the date, it holds the image of the second call, and the second call
    has added no row. *)
Theorem mark_attendance_twice student_id date_str first_image second_image w :
  no_faults w →
  attendance_unique (db w) →
  let w1 := (mark_attendance student_id date_str first_image w).2 in
  let w2 := (mark_attendance student_id date_str second_image w1).2 in
  (∃ a, attendance_on student_id date_str (db w2) = [a] ∧
        Attendance.face_data a = second_image) ∧
  length (attendance (db w2)) = length (attendance (db w1)).
Proof.
  intros Hnf Huniq w1 w2.
  destruct (mark_attendance_ok w student_id date_str first_image Hnf)
    as (a1 & w1' & Heq1 & Hnf1 & _).
  assert (w1 = w1') as Hw1 by (unfold w1; by rewrite Heq1).
  assert (no_faults w1) as Hnf1' by by rewrite Hw1.
  destruct (mark_attendance_stores w student_id date_str first_image Hnf) as [Hne1 _].
  fold w1 in Hne1.
  destruct (mark_attendance_stores w1 student_id date_str second_image Hnf1')
    as [Hne2 Hface2].
  fold w2 in Hne2, Hface2.
  assert (attendance_unique (db w2)) as Huniq2.
  { unfold w2, w1. by do 2 apply mark_attendance_preserves. }
  pose proof (attendance_unique_at_most_one student_id date_str _ Huniq2) as Hle.
  split.
  - destruct (attendance_on student_id date_str (db w2)) as [|a [|b l]] eqn:Hon;
      [done| |simpl in Hle; lia].
    exists a. split; [done|]. apply Hface2. left.
  - destruct (mark_attendance_ok w1 student_id date_str second_image Hnf1')
      as (a2 & w2' & Heq2 & _ & _ & _ & Hcases).
    assert (w2 = w2') as -> by (unfold w2; by rewrite Heq2).
    destruct Hcases as [[_ ->]|[Hnil _]]; [by rewrite length_fmap|done].
Qed.

Lemma attendance_on_of student_id date_str d :
  attendance_on student_id date_str d =
  filter (λ a, Attendance.date a = date_str) (attendance_of student_id d).
Proof.
  unfold attendance_on, attendance_of. rewrite list_filter_filter.
  apply list_filter_iff. intros a. tauto.
Qed.

Lemma length_filter_fmap {A B} (f : A → B) (P : B → Prop) `{!∀ x, Decision (P x)}
    (l : list A) :
  length (filter P (f <$> l)) = length (filter (λ x, P (f x)) l).
Proof.
  induction l as [|x l IH]; [done|]. rewrite fmap_cons.
  destruct (decide (P (f x))).
  - rewrite !filter_cons_True by done. simpl. by rewrite IH.
  - by rewrite !filter_cons_False by done.
Qed.

(** X9. A marked day can be read back: after [mark_attendance] without
    failures, on a table with at most one record per student and date,
    [get_student_attendance] lists the date exactly once. *)
Theorem marked_day_is_listed_once student_id date_str face_data w :
  no_faults w →
  attendance_unique (db w) →
  let w' := (mark_attendance student_id date_str face_data w).2 in
  ∃ attendance,
    (get_student_attendance student_id w').1 = Ret attendance ∧
    length (filter (λ d, d = date_str) attendance) = 1%nat.
Proof.
  intros Hnf Huniq w'.
  destruct (mark_attendance_ok w student_id date_str face_data Hnf)
    as (a & w1 & Heq & Hnf1 & _).
  assert (w' = w1) as Hw' by (unfold w'; by rewrite Heq).
  rewrite get_student_attendance_ok by (rewrite Hw'; quiet).
  eexists. split; [reflexivity|].
  rewrite length_filter_fmap.
  rewrite (filter_Permutation _ _ _ (order_by_perm _ _ _ _)).
  rewrite <- attendance_on_of.
  destruct (mark_attendance_stores w student_id date_str face_data Hnf) as [Hne _].
  fold w' in Hne.
  assert (attendance_unique (db w')) as Huniq'.
  { unfold w'. by apply mark_attendance_preserves. }
  pose proof (attendance_unique_at_most_one student_id date_str _ Huniq') as Hle.
  destruct (attendance_on student_id date_str (db w')); simpl in *; [done|lia].
Qed.

Lemma filter_update {R} (P : R → Prop) `{!∀ r, Decision (P r)} (f : R → R) (l : list R) :
  (∀ r, P r → P (f r)) →
  filter P ((λ r, if decide (P r) then f r else r) <$> l) = f <$> filter P l.
Proof.
  intros Hf. induction l as [|r l IH]; [done|]. rewrite fmap_cons.
  destruct (decide (P r)) as [Hr|Hr].
  - rewrite filter_cons_True by by apply Hf. rewrite (filter_cons_True _ r) by done.
    rewrite fmap_cons. by rewrite IH.
  - rewrite filter_cons_False by done. by rewrite (filter_cons_False _ r) by done.
Qed.

(** X10. A created student can be read back: without failures, and with
    the store assigning an id that no student has yet, [create_student]
    returns the new row with the given values, appends it to the table, and
    [get_student] with its id returns the same row. *)
Theorem create_student_round_trip name age class_name section face_data w :
  no_faults w →
  (∀ s, s ∈ students (db w) → Student.id s ≠ next_id (db w)) →
  ∃ s,
    (create_student name age class_name section face_data w).1 = Ret (Some s) ∧
    let w' := (create_student name age class_name section face_data w).2 in
    students (db w') = students (db w) ++ [s] ∧
    (Student.name s, Student.age s, Student.class s, Student.section s,
     Student.face_data s) = (name, age, class_name, section, face_data) ∧
    (get_student (Student.id s) w').1 = Ret (Some s).
Proof.
  intros Hnf Hfresh. unfold create_student, table_insert. unfold_M.
  rewrite execute_ok by quiet. simpl.
  eexists. split; [reflexivity|]. split; [done|]. split; [done|].
  unfold get_student, table_select. unfold_M.
  rewrite execute_ok by quiet. simpl. f_equal.
  rewrite filter_app.
  rewrite (filter_Forall_nil (λ s, Student.id s ≠ next_id (db w))).
  - by rewrite filter_cons_True.
  - apply Forall_forall. intros s Hs. by apply Hfresh.
  - intros s Hs Hid. by apply Hs.
Qed.

(** X11. A deleted student cannot be read back: without failures, after
    [delete_student] the lookup by that id returns [None], no student with
    that id is left, and every other student is still in the table. *)
Theorem delete_student_round_trip student_id w :
  no_faults w →
  let w' := (delete_student student_id w).2 in
  (delete_student student_id w).1 = Ret true ∧
  (get_student student_id w').1 = Ret None ∧
  ∀ s, s ∈ students (db w') ↔ s ∈ students (db w) ∧ Student.id s ≠ student_id.
Proof.
  intros Hnf. unfold delete_student, table_delete. unfold_M.
  rewrite execute_ok by quiet. simpl. split; [done|]. split.
  - unfold get_student, table_select. unfold_M.
    rewrite execute_ok by quiet. simpl. by rewrite filter_complement_nil.
  - intros s. rewrite list_elem_of_filter. tauto.
Qed.

(** X12. Face data can be set and cleared: without failures, after
    [update_student_face] the student read back has the given image, after
    [delete_student_face] it has none, and name, age, class and section are
    the same throughout. *)
Theorem face_data_round_trip student_id face_data s w :
  no_faults w →
  head (filter (λ s, Student.id s = student_id) (students (db w))) = Some s →
  let w1 := (update_student_face student_id face_data w).2 in
  let w2 := (delete_student_face student_id w1).2 in
  ∃ s1 s2,
    (get_student student_id w1).1 = Ret (Some s1) ∧
    (get_student student_id w2).1 = Ret (Some s2) ∧
    Student.face_data s1 = Some face_data ∧
    Student.face_data s2 = None ∧
    (Student.id s1, Student.name s1, Student.age s1, Student.class s1, Student.section s1)
      = (Student.id s, Student.name s, Student.age s, Student.class s, Student.section s) ∧
    (Student.id s2, Student.name s2, Student.age s2, Student.class s2, Student.section s2)
      = (Student.id s, Student.name s, Student.age s, Student.class s, Student.section s).
Proof.
  intros Hnf Hs.
  unfold update_student_face, delete_student_face, table_update. unfold_M.
  rewrite !execute_ok by quiet. simpl.
  unfold get_student, table_select. unfold_M.
  rewrite !execute_ok by quiet. simpl.
  rewrite !filter_update by done.
  destruct (filter _ (students (db w))) as [|s0 l]; [done|].
  simpl in Hs. injection Hs as ->. simpl.
  eexists _, _. repeat split.
Qed.

(** *** Editing students and teachers *)

Lemma execute_checked_ok {A} table v (op : Database → option (A * Database)) r w :
  request_fails w = false →
  op (db w) = Some r →
  execute_checked table v op w = (Ret r.1, set_db r.2 (sent (table, v) w)).
Proof.
  unfold request_fails, fails_next, execute_checked. intros Hok ->.
  by destruct (head (faults w)) as [[msg|]|].
Qed.

(** The update that [edit_student] asks for: its payload has the key
    ['class_name'], which is no column of the students table. *)
Lemma edit_payload_keeps_class policy student_id name age class_name section now :
  let payload :=
    PyDict.items
      (PyDict.set "updated_at" (VTime now)
         [("name", VStr name); ("age", VInt age);
          ("class_name", VStr class_name); ("section", VStr section)]) in
  keeps (λ d, Student.class <$> students d)
    (table_update_payload students_table student_columns policy payload
       (λ s, Student.id s = student_id)) ∧
  (policy = RejectUnknown →
   keeps students
     (table_update_payload students_table student_columns policy payload
        (λ s, Student.id s = student_id))).
Proof.
  unfold table_update_payload. split; [|intros ->].
  - apply frame_execute_checked. intros d r.
    unfold db_update_payload. destruct policy; [by vm_compute|].
    intros [= <-]. simpl. rewrite <- list_fmap_compose. apply list_fmap_ext.
    intros i s _. simpl. case_decide; [|done]. by destruct s.
  - apply frame_execute_checked. intros d r. by vm_compute.
Qed.

(** X13. Editing a student never changes the class: the handler sends the
    posted class under the key ['class_name'], which the table does not
    have.  Whatever the store does with such a payload and whatever fails,
    the classes of all students are the same after the request; a store
    that refuses the payload leaves the whole table as it is. *)
Theorem edit_student_never_changes_class policy session request student_id w :
  let w' := (edit_student policy session request student_id w).2 in
  Student.class <$> students (db w') = Student.class <$> students (db w) ∧
  (policy = RejectUnknown → students (db w') = students (db w)).
Proof.
  split; [|intros Hpolicy].
  - assert (keeps (λ d, Student.class <$> students d)
              (edit_student policy session request student_id)) as Hk; [|apply Hk].
    unfold edit_student, get_student, table_select, form_item, py_int.
    frame; apply (edit_payload_keeps_class policy).
  - assert (keeps students (edit_student policy session request student_id)) as Hk;
      [|apply Hk].
    unfold edit_student, get_student, table_select, form_item, py_int.
    frame; by apply (edit_payload_keeps_class policy).
Qed.

Lemma get_teacher_ok teacher_id w :
  request_fails w = false →
  get_teacher teacher_id w =
    (Ret (head (filter (λ t, Teacher.id t = teacher_id) (teachers (db w)))),
     sent ("teachers", SELECT) w).
Proof.
  intros Hok. unfold get_teacher, table_select. unfold_M.
  rewrite execute_ok by done. reflexivity.
Qed.

(** X14. Editing a teacher works: when the principal posts a name and a
    subject for an existing teacher and nothing fails, the teacher read
    back afterwards has the posted name and subject and the same id, and
    the success message is flashed. *)
Theorem edit_teacher_round_trip policy session request teacher_id teacher name subject w :
  no_faults w →
  session !! "role" = Some "principal" →
  method request = "POST" →
  head (filter (λ t, Teacher.id t = teacher_id) (teachers (db w))) = Some teacher →
  form request !! "name" = Some name →
  form request !! "subject" = Some subject →
  let w' := (edit_teacher policy session request teacher_id w).2 in
  (edit_teacher policy session request teacher_id w).1 = Ret (Redirect "list_teachers") ∧
  flashed w' = flashed w ++ [("Teacher updated successfully!", "success")] ∧
  ∃ t, (get_teacher teacher_id w').1 = Ret (Some t) ∧
       (Teacher.id t, Teacher.name t, Teacher.subject t) =
         (Teacher.id teacher, name, subject).
Proof.
  intros Hnf Hrole Hpost Hteacher Hname Hsubject.
  assert (∃ w1 now,
            edit_teacher policy session request teacher_id w =
              (Ret (Redirect "list_teachers"), w1) ∧
            flashed w1 = flashed w ++ [("Teacher updated successfully!", "success")] ∧
            no_faults w1 ∧
            teachers (db w1) =
              (λ t, if decide (Teacher.id t = teacher_id)
                    then write_payload teacher_columns
                           [("name", VStr name); ("subject", VStr subject);
                            ("updated_at", VTime now)] t
                    else t) <$> teachers (db w)) as (w1 & now & -> & Hflash & Hnf1 & Hrows).
  { unfold edit_teacher. rewrite Hrole.
    rewrite decide_False by (intros Hne; by apply Hne).
    rewrite bind_run, get_teacher_ok by quiet. rewrite Hteacher.
    rewrite decide_True by done.
    unfold form_item. rewrite Hname, Hsubject.
    rewrite bind_run. unfold mret at 1, M_ret. rewrite bind_run.
    unfold mret at 1, M_ret. rewrite bind_run.
    unfold update_teacher, table_update_payload.
    rewrite try_except_run, bind_run. unfold datetime_now at 1.
    rewrite bind_run.
    erewrite execute_checked_ok; [|quiet|].
    2:{ unfold db_update_payload. destruct policy; vm_compute payload_fits; reflexivity. }
    simpl.
    destruct (filter _ (teachers (db w))) as [|t0 l] eqn:Hfil; [done|].
    unfold_M. simpl. eexists _, _. split; [reflexivity|]. simpl.
    split; [done|]. split; [quiet|]. reflexivity. }
  simpl. split; [done|]. split; [done|].
  rewrite get_teacher_ok by quiet. rewrite Hrows.
  rewrite filter_update; [|intros t; by destruct t].
  destruct (filter _ (teachers (db w))) as [|t0 l] eqn:Hfil; [done|].
  simpl in Hteacher. injection Hteacher as ->.
  simpl. eexists. split; [reflexivity|]. by destruct teacher.
Qed.

(** *** Accounts and login *)

Lemma create_user_ok generate_password_hash username password role student_id w :
  no_faults w →
  ∃ u w',
    create_user generate_password_hash username password role student_id w
      = (Ret (Some u), w') ∧
    no_faults w' ∧
    users (db w') = users (db w) ++ [u] ∧
    User.username u = username ∧
    User.password_hash u = generate_password_hash password ∧
    User.role u = role ∧
    User.student_id u =
      match student_id with
      | Some id => if decide (id = 0) then None else Some id
      | None => None
      end.
Proof.
  intros Hnf. unfold create_user, table_insert. unfold_M.
  rewrite execute_ok by quiet. simpl.
  eexists _, _. split; [reflexivity|]. simpl. repeat split; try done. quiet.
Qed.

(** X15. An account made by [create_user] cannot log in.  The hash that
    [generate_password_hash] writes does not start with ['$2b$']; with a
    username that was free and no failing request, every later POST to
    [login] for that username ends in the [NameError] of [verify_user],
    whatever password is posted. *)
Theorem created_account_cannot_log_in generate_password_hash username password role
    student_id session request attempt w :
  no_faults w →
  (∀ u, u ∈ users (db w) → User.username u ≠ username) →
  startswith "$2b$" (generate_password_hash password) = false →
  method request = "POST" →
  form request !! "username" = Some username →
  form request !! "password" = Some attempt →
  let w1 :=
    (create_user generate_password_hash username password role student_id w).2 in
  (login session request w1).1 = Raise (NameError "check_password_hash").
Proof.
  intros Hnf Hfree Hhash Hpost Huser Hattempt.
  destruct (create_user_ok generate_password_hash username password role student_id w Hnf)
    as (u & w1 & -> & Hnf1 & Husers & Hname & Hpw & _).
  simpl. unfold login. rewrite decide_True by done.
  unfold form_item. rewrite Huser, Hattempt.
  rewrite bind_run. unfold mret at 1, M_ret. rewrite bind_run.
  unfold mret at 1, M_ret. rewrite bind_run.
  unfold verify_user. rewrite bind_run, get_user_ok by quiet.
  rewrite Husers, filter_app.
  rewrite (filter_Forall_nil (λ u, User.username u ≠ username)).
  2:{ apply Forall_forall. intros u' Hu'. by apply Hfree. }
  2:{ intros u' Hu' Heq. by apply Hu'. }
  rewrite filter_cons_True by done. simpl. rewrite Hpw, Hhash. reflexivity.
Qed.

(** X16. [login] refuses when it finds no user: if the lookup fails or no
    user has the posted username, the login page is rendered again with
    the message 'Invalid username or password', and the session and the
    store are as before.  A failing store cannot be told from a wrong
    username. *)
Theorem login_refuses_unknown_user session request username password w :
  method request = "POST" →
  form request !! "username" = Some username →
  form request !! "password" = Some password →
  request_fails w = true ∨ (∀ u, u ∈ users (db w) → User.username u ≠ username) →
  let w' := (login session request w).2 in
  (login session request w).1 = Ret (RenderTemplate "login.html" (), session) ∧
  flashed w' = flashed w ++ [("Invalid username or password", "danger")] ∧
  db w' = db w.
Proof.
  intros Hpost Huser Hpassword Hmiss.
  assert (∃ w1, get_user username w = (Ret None, w1) ∧ flashed w1 = flashed w ∧
                db w1 = db w) as (w1 & Hget & Hflash & Hdb).
  { destruct (request_fails w) eqn:Hfail.
    - unfold get_user, table_select. rewrite try_except_run, bind_run.
      destruct (execute_fails "users" SELECT
                  (db_select users_table (λ u, User.username u = username)) w Hfail)
        as [msg Hexec].
      simpl table_name. rewrite Hexec. unfold_M. simpl. eexists. done.
    - destruct Hmiss as [?|Hmiss]; [done|].
      rewrite get_user_ok by done.
      rewrite (filter_Forall_nil (λ u, User.username u ≠ username)).
      + eexists. done.
      + apply Forall_forall. intros u Hu. by apply Hmiss.
      + intros u Hu Heq. by apply Hu. }
  assert (login session request w =
            (Ret (RenderTemplate "login.html" (), session),
             (flash "Invalid username or password" "danger" w1).2)) as ->.
  { unfold login. rewrite decide_True by done.
    unfold form_item. rewrite Huser, Hpassword.
    rewrite bind_run. unfold mret at 1, M_ret. rewrite bind_run.
    unfold mret at 1, M_ret. rewrite bind_run.
    unfold verify_user. rewrite bind_run, Hget. by unfold_M. }
  simpl. by rewrite Hflash, Hdb.
Qed.

(** X17. What [login] does with a bcrypt account: when the lookup returns
    a user whose hash starts with ['$2b$'] and [bcrypt.checkpw] answers
    [ok], then with [ok] true the session gets the username and the role
    and the response is the redirect to the dashboard of the role, or the
    login page again when the role is none of the three (the session is
    written all the same); with [ok] false the login page is rendered with
    the session unchanged and the message flashed. *)
Theorem login_with_bcrypt_account session request username password user ok w :
  method request = "POST" →
  form request !! "username" = Some username →
  form request !! "password" = Some password →
  request_fails w = false →
  head (filter (λ u, User.username u = username) (users (db w))) = Some user →
  startswith "$2b$" (User.password_hash user) = true →
  bcrypt_checkpw password (User.password_hash user) = Ret ok →
  let w' := (login session request w).2 in
  (login session request w).1 =
    Ret (if ok
         then (match dashboard_of (User.role user) with
               | Some dashboard => Redirect dashboard
               | None => RenderTemplate "login.html" ()
               end,
               <["role" := User.role user]> (<["username" := username]> session))
         else (RenderTemplate "login.html" (), session)) ∧
  flashed w' =
    flashed w ++ (if ok then [] else [("Invalid username or password", "danger")]).
Proof.
  intros Hpost Huser Hpassword Hok Hfound Hprefix Hcheck.
  assert (login session request w =
            (if ok
             then (Ret (match dashboard_of (User.role user) with
                        | Some dashboard => Redirect dashboard
                        | None => RenderTemplate "login.html" ()
                        end,
                        <["role" := User.role user]> (<["username" := username]> session)),
                   sent ("users", SELECT) w)
             else (Ret (RenderTemplate "login.html" (), session),
                   (flash "Invalid username or password" "danger"
                      (sent ("users", SELECT) w)).2))) as ->.
  { unfold login. rewrite decide_True by done.
    unfold form_item. rewrite Huser, Hpassword.
    rewrite bind_run. unfold mret at 1, M_ret. rewrite bind_run.
    unfold mret at 1, M_ret. rewrite bind_run.
    unfold verify_user. rewrite bind_run, get_user_ok by done.
    rewrite Hfound. simpl. rewrite Hprefix, Hcheck. unfold_M. simpl.
    destruct ok; [|done]. by destruct (dashboard_of (User.role user)). }
  destruct ok; simpl; [|done]. by rewrite app_nil_r.
Qed.

(** *** Statistics *)

Lemma get_all_users_ok w :
  request_fails w = false →
  get_all_users w = (Ret (users (db w)), sent ("users", SELECT) w).
Proof.
  intros Hok. unfold get_all_users, table_select. unfold_M.
  rewrite execute_ok by done. simpl. by rewrite filter_all.
Qed.

Lemma get_all_students_fails w :
  request_fails w = true →
  ∃ msg, get_all_students w =
           (Ret [], (print ("Error getting students: " +:+ msg)
                       (sent ("students", SELECT) w)).2).
Proof.
  intros Hfail. unfold get_all_students, table_select.
  destruct (execute_fails "students" SELECT (db_select students_table (λ _, True)) w Hfail)
    as [msg Hexec].
  exists msg. rewrite try_except_run, bind_run. simpl table_name. by rewrite Hexec.
Qed.

Lemma execute_cases {A} table v (op : Database → A * Database) w :
  execute table v op w = (Ret (op (db w)).1, set_db (op (db w)).2 (sent (table, v) w)) ∨
  ∃ msg, execute table v op w = (Raise (APIError msg), sent (table, v) w).
Proof.
  destruct (request_fails w) eqn:Hf.
  - right. by apply execute_fails.
  - left. by apply execute_ok.
Qed.

(** X18. Without failures [get_statistics] counts the rows: its five
    entries are the numbers of students, teachers, users, students with
    face data and attendance records, and the students with face data are
    never more than the students. *)
Theorem get_statistics_counts w :
  no_faults w →
  let with_face := filter (λ s, Student.face_data s ≠ None) (students (db w)) in
  (get_statistics w).1 =
    Ret [("total_students", Z.of_nat (length (students (db w))));
         ("total_teachers", Z.of_nat (length (teachers (db w))));
         ("total_users", Z.of_nat (length (users (db w))));
         ("students_with_face_data", Z.of_nat (length with_face));
         ("total_attendance_records", Z.of_nat (length (attendance (db w))))] ∧
  (length with_face ≤ length (students (db w)))%nat.
Proof.
  intros Hnf with_face. split; [|apply length_filter].
  unfold get_statistics.
  rewrite try_except_run, bind_run, get_all_students_ok by quiet.
  rewrite bind_run, get_all_teachers_ok by quiet.
  rewrite bind_run, get_all_users_ok by quiet.
  unfold table_select.
  rewrite bind_run, execute_ok by quiet.
  rewrite bind_run, execute_ok by quiet.
  simpl. rewrite filter_all.
  by rewrite !(Permutation_length (order_by_perm _ _ _ _)).
Qed.

Ltac quiet_rest :=
  unfold request_fails; simpl; try apply quiet_head;
  repeat first [ assumption | apply quiet_tail ].

(** X19. [get_statistics] hides a failure of its first read: when the
    request for the students fails and the other four go through, the
    result is not the empty dict of a failure but a full one that says
    there are 0 students; the error of the inner call is printed. *)
Theorem get_statistics_hides_failure w :
  request_fails w = true →
  Forall (λ f, f = None) (tail (faults w)) →
  let w' := (get_statistics w).2 in
  (get_statistics w).1 =
    Ret [("total_students", 0);
         ("total_teachers", Z.of_nat (length (teachers (db w))));
         ("total_users", Z.of_nat (length (users (db w))));
         ("students_with_face_data",
          Z.of_nat (length (filter (λ s, Student.face_data s ≠ None) (students (db w)))));
         ("total_attendance_records", Z.of_nat (length (attendance (db w))))] ∧
  ∃ msg, stdout w' = stdout w ++ ["Error getting students: " +:+ msg].
Proof.
  intros Hfail Hrest.
  destruct (get_all_students_fails w Hfail) as [msg Hstudents].
  assert (∃ w1, get_statistics w =
            (Ret [("total_students", 0);
                  ("total_teachers", Z.of_nat (length (teachers (db w))));
                  ("total_users", Z.of_nat (length (users (db w))));
                  ("students_with_face_data",
                   Z.of_nat (length (filter (λ s, Student.face_data s ≠ None)
                                       (students (db w)))));
                  ("total_attendance_records", Z.of_nat (length (attendance (db w))))],
             w1) ∧
            stdout w1 = stdout w ++ ["Error getting students: " +:+ msg])
    as (w1 & -> & Hout).
  { unfold get_statistics.
    rewrite try_except_run, bind_run, Hstudents.
    rewrite bind_run, get_all_teachers_ok by quiet_rest.
    rewrite bind_run, get_all_users_ok by quiet_rest.
    unfold table_select.
    rewrite bind_run, execute_ok by quiet_rest.
    rewrite bind_run, execute_ok by quiet_rest.
    simpl. rewrite filter_all.
    rewrite !(Permutation_length (order_by_perm _ _ _ _)).
    eexists. split; [reflexivity|]. done. }
  simpl. split; [done|]. by exists msg.
Qed.

Lemma length_remove_dups_le `{EqDecision A} (l k : list A) :
  (∀ x, x ∈ l → x ∈ k) → (length (remove_dups l) ≤ length k)%nat.
Proof.
  intros Hsub. apply submseteq_length, NoDup_submseteq; [apply NoDup_remove_dups|].
  intros x Hx. apply Hsub. by apply elem_of_remove_dups.
Qed.

(** X20. The numbers of [get_class_statistics] fit the class: whenever it
    returns statistics, under every failure schedule, the class is not
    empty, its students are those of the class and section, and the
    students with face data, with marks and with grades are each no more
    than the students of the class. *)
Theorem class_statistics_bounds class_name section w :
  match (get_class_statistics class_name section w).1 with
  | Ret (Some cs) =>
      cs_students cs =
        filter (λ s, Student.class s = class_name ∧ Student.section s = section)
          (students (db w)) ∧
      cs_total_students cs = length (cs_students cs) ∧
      (0 < cs_total_students cs)%nat ∧
      (cs_students_with_face_data cs ≤ cs_total_students cs)%nat ∧
      (cs_students_with_marks cs ≤ cs_total_students cs)%nat ∧
      (cs_students_with_grades cs ≤ cs_total_students cs)%nat
  | _ => True
  end.
Proof.
  unfold get_class_statistics, table_select.
  rewrite try_except_run, bind_run.
  destruct (execute_cases "students" SELECT
              (db_select students_table
                 (λ s, Student.class s = class_name ∧ Student.section s = section)) w)
    as [Hexec|[msg Hexec]]; simpl table_name; rewrite Hexec; [|done].
  simpl. destruct (filter _ (students (db w))) as [|s l] eqn:Hclass; [done|].
  rewrite bind_run.
  match goal with |- context [execute ?t ?v ?op ?W] =>
    destruct (execute_cases t v op W) as [Hm|[msg Hm]]; rewrite Hm; [|done] end.
  rewrite bind_run.
  match goal with |- context [execute ?t ?v ?op ?W] =>
    destruct (execute_cases t v op W) as [Hg|[msg Hg]]; rewrite Hg; [|done] end.
  simpl. split; [done|]. split; [done|]. split; [lia|].
  split; [|split].
  - pose proof (length_filter (λ s0, truthy_str (Student.face_data s0) = true) (s :: l)).
    simpl in *. lia.
  - etrans; [apply (length_remove_dups_le _ (Student.id <$> s :: l))|
             by rewrite length_fmap].
    intros x [m [-> Hin]]%list_elem_of_fmap.
    by apply list_elem_of_filter in Hin as [Hin _].
  - etrans; [apply (length_remove_dups_le _ (Student.id <$> s :: l))|
             by rewrite length_fmap].
    intros x [g [-> Hin]]%list_elem_of_fmap.
    by apply list_elem_of_filter in Hin as [Hin _].
Qed.

(** *** Forms *)

(** X21. [add_student] does not guard its form: for a logged-in teacher or
    principal, a POST without the field ['age'] ends in [KeyError] and one
    whose ['age'] is not accepted by [int] ends in [ValueError]; in both
    cases nothing has been sent to the store and the world is as before. *)
Theorem add_student_bad_age session request name w :
  staff session →
  method request = "POST" →
  form request !! "name" = Some name →
  (form request !! "age" = None →
     add_student session request w = (Raise (KeyError "age"), w)) ∧
  (∀ age, form request !! "age" = Some age → int_of_str age = None →
     add_student session request w =
       (Raise (ValueError ("invalid literal for int() with base 10: '" +:+ age +:+ "'")),
        w)).
Proof.
  intros Hstaff Hpost Hname.
  split; [intros Hage|intros age Hage Hint];
    unfold add_student; rewrite decide_False by (intros Hn; by apply Hn);
    rewrite decide_True by done;
    unfold form_item, py_int; rewrite Hname, Hage; unfold_M; simpl;
    [done|by rewrite Hint].
Qed.

(** X22. A good form adds the student: with name, age, class and section
    posted by a teacher or principal, an age that [int] parses and no
    failing request, the table has one more row afterwards, with the
    posted values and no face data, the success message is flashed and the
    response is the redirect to the list. *)
Theorem add_student_stores session request name age_str age class_name section w :
  no_faults w →
  staff session →
  method request = "POST" →
  form request !! "name" = Some name →
  form request !! "age" = Some age_str →
  int_of_str age_str = Some age →
  form request !! "class" = Some class_name →
  form request !! "section" = Some section →
  ∃ s w',
    add_student session request w = (Ret (Redirect "list_students"), w') ∧
    students (db w') = students (db w) ++ [s] ∧
    (Student.name s, Student.age s, Student.class s, Student.section s,
     Student.face_data s) = (name, age, class_name, section, None) ∧
    flashed w' = flashed w ++ [("Student added successfully!", "success")].
Proof.
  intros Hnf Hstaff Hpost Hname Hage Hint Hclass Hsection.
  unfold add_student. rewrite decide_False by (intros Hn; by apply Hn).
  rewrite decide_True by done.
  unfold form_item, py_int. rewrite Hname, Hage, Hclass, Hsection.
  unfold create_student, table_insert. unfold_M. simpl. rewrite Hint.
  rewrite execute_ok by quiet. simpl.
  eexists _, _. split; [reflexivity|]. done.
Qed.

(** X23. An image of at most 100 characters is never stored: when the
    posted ['face_data'] is missing, empty or not longer than 100, the
    attendance route leaves the whole store as it is, whoever is logged in
    and whatever fails. *)
Theorem short_image_is_not_stored session request w :
  match form request !! "face_data" with
  | Some face_data => (py_len face_data ≤ 100)%nat
  | None => True
  end →
  db (mark_attendance_route session request w).2 = db w.
Proof.
  intros Hshort.
  assert (truthy_str (form request !! "face_data") &&
          bool_decide (100 < py_len (default "" (form request !! "face_data")))%nat
          = false) as Hcond.
  { destruct (form request !! "face_data") as [face_data|]; [|done].
    apply andb_false_iff. right. apply bool_decide_eq_false. simpl. lia. }
  assert (keeps id (mark_attendance_route session request)) as Hk; [|apply Hk].
  unfold mark_attendance_route. cbv zeta.
  remember (truthy_str (form request !! "face_data") &&
            bool_decide (100 < py_len (default "" (form request !! "face_data")))%nat)
    as cond.
  subst cond. rewrite Hcond in *.
  unfold get_user, get_student, table_select. frame.
Qed.

Lemma foldl_max_init (l : list Z) a : a ≤ foldl Z.max a l.
Proof.
  revert a. induction l as [|y l IH]; intros a; simpl; [lia|].
  etrans; [|apply IH]. lia.
Qed.

Lemma foldl_max_elem (l : list Z) a x : x ∈ l → x ≤ foldl Z.max a l.
Proof.
  revert a. induction l as [|y l IH]; intros a; [by intros ?%not_elem_of_nil|].
  intros [->|Hin]%elem_of_cons; simpl; [|by apply IH].
  etrans; [|apply foldl_max_init]. lia.
Qed.

Lemma max_default_upper d (l : list Z) x : x ∈ l → x ≤ max_default d l.
Proof.
  destruct l as [|y l]; [by intros ?%not_elem_of_nil|].
  simpl. intros [->|Hin]%elem_of_cons; [apply foldl_max_init|by apply foldl_max_elem].
Qed.

(** X24. [get_next_student_id] is above every id in the table when the
    read goes through; when the read fails it is 1, whatever ids the table
    holds. *)
Theorem next_student_id w :
  (request_fails w = false →
     ∃ n, (get_next_student_id w).1 = Ret n ∧
          ∀ s, s ∈ students (db w) → Student.id s < n) ∧
  (request_fails w = true → (get_next_student_id w).1 = Ret 1).
Proof.
  split; intros Hreq; unfold get_next_student_id; rewrite bind_run.
  - rewrite get_all_students_ok by done. eexists. split; [reflexivity|].
    intros s Hs.
    assert (Student.id s ≤ max_default 0
              (Student.id <$> order_by _ Student.name false (students (db w)))); [|lia].
    apply max_default_upper. apply list_elem_of_fmap. exists s. split; [done|].
    by rewrite order_by_perm.
  - destruct (get_all_students_fails w Hreq) as [msg ->]. reflexivity.
Qed.

(** *** More on enter_marks *)

Lemma set_graded (k : string) (m : Z) (d : PyDict.t Z) :
  PyDict.set k (grade_of_mark m) ((λ kv, (kv.1, grade_of_mark kv.2)) <$> d) =
  (λ kv, (kv.1, grade_of_mark kv.2)) <$> PyDict.set k m d.
Proof.
  induction d as [|[k' m'] d IH]; [done|]. rewrite fmap_cons. simpl.
  case_decide; [done|]. rewrite fmap_cons. simpl. f_equal. apply IH.
Qed.

(** The grades that the loop collects are the letters of the marks that it
    collects, subject by subject and in the same order. *)
Lemma read_marks_graded form student subjects :
  (read_marks form student subjects).2 =
  (λ kv, (kv.1, grade_of_mark kv.2)) <$> (read_marks form student subjects).1.
Proof.
  unfold read_marks.
  assert (∀ acc, acc.2 = (λ kv, (kv.1, grade_of_mark kv.2)) <$> acc.1 →
            (foldl (read_mark form student) acc subjects).2 =
            (λ kv, (kv.1, grade_of_mark kv.2)) <$>
              (foldl (read_mark form student) acc subjects).1) as Hgen.
  { induction subjects as [|x subjects IH]; intros acc Hacc; [done|].
    simpl. apply IH. rewrite read_mark_submitted.
    destruct (submitted form student x); [|done].
    destruct acc as [marks grades]. simpl in *. subst grades.
    apply set_graded. }
  by apply Hgen.
Qed.

Lemma read_marks_nothing form student subjects :
  (∀ subject, submitted form student subject = None) →
  read_marks form student subjects = (PyDict.empty, PyDict.empty).
Proof.
  intros Hnone. unfold read_marks. generalize (@PyDict.empty Z, @PyDict.empty string).
  induction subjects as [|x subjects IH]; intros acc; [done|].
  simpl. rewrite read_mark_submitted, Hnone. apply IH.
Qed.

(** X25. Marks and grades are saved together: when the teacher posts the
    form and nothing fails, then for a student of the class for whom the
    form carries a mark [m] in a subject, the marks table has that mark
    for the student and subject, and the grades rows of the student are
    the marks rows with each mark replaced by its letter, in the same
    order. *)
Theorem enter_marks_grades_follow_marks session request class_name section w s subject m :
  no_faults w →
  session !! "role" = Some "teacher" →
  method request = "POST" →
  s ∈ students (db w) →
  Student.class s = class_name →
  Student.section s = section →
  subject ∈ Teacher.subject <$> teachers (db w) →
  submitted (form request) s subject = Some m →
  let w' := (enter_marks session request class_name section w).2 in
  (subject, m) ∈ mark_entry <$> marks_of (Student.id s) (db w') ∧
  grade_entry <$> grades_of (Student.id s) (db w') =
    (λ entry, (entry.1, grade_of_mark entry.2)) <$>
      (mark_entry <$> marks_of (Student.id s) (db w')).
Proof.
  intros Hnf Hrole Hpost Hs Hclass Hsection Hsubject Hsub w'.
  destruct (enter_marks_run session request class_name section w Hnf Hrole Hpost)
    as (results & w0 & Hnf0 & Hdb0 & Hrun & Hret).
  cbv zeta in Hrun, Hret.
  set (subjects := Teacher.subject <$> order_by _ Teacher.name false (teachers (db w))) in *.
  set (filtered := filter _ (order_by _ Student.name false (students (db w)))) in *.
  destruct (enter_marks_loop (form request) subjects filtered w0 Hnf0)
    as (results' & w1 & Heq & _ & Hloop).
  rewrite Heq in Hrun. simpl in Hrun.
  assert (subject ∈ subjects) as Hin_subject.
  { unfold subjects. apply list_elem_of_fmap in Hsubject as [t [-> Ht]].
    apply list_elem_of_fmap. exists t. split; [done|]. by rewrite order_by_perm. }
  assert (Student.id s ∈ Student.id <$> filtered) as Hin_student.
  { apply list_elem_of_fmap. exists s. split; [done|]. unfold filtered.
    apply list_elem_of_filter. split; [done|]. by rewrite order_by_perm. }
  destruct (read_marks_get (form request) s subjects subject m Hin_subject Hsub)
    as [Hmark Hgrade].
  destruct (Hloop s) as [[Hmarks Hgrades] _]; [done|].
  specialize (Hmarks (get_truthy _ _ _ Hmark)).
  specialize (Hgrades (get_truthy _ _ _ Hgrade)).
  subst w'. rewrite Hrun. rewrite Hmarks, Hgrades. split.
  - apply PyDictFacts.get_Some; [apply read_marks_wf|done].
  - apply read_marks_graded.
Qed.

Lemma enter_marks_loop_nothing form subjects (l : list Student.t) s w :
  no_faults w →
  (∀ subject, submitted form s subject = None) →
  let w' := (for_each l (enter_marks_student form subjects) w).2 in
  marks_of (Student.id s) (db w') = marks_of (Student.id s) (db w) ∧
  grades_of (Student.id s) (db w') = grades_of (Student.id s) (db w).
Proof.
  intros Hnf Hnone. revert w Hnf. induction l as [|x l IH]; intros w Hnf; [done|].
  simpl. rewrite bind_run.
  destruct (enter_marks_student_ok form subjects x w Hnf)
    as (w1 & Hx & Hnf1 & _ & _ & Hother).
  rewrite Hx. rewrite bind_run.
  specialize (IH w1 Hnf1). cbv zeta in IH.
  destruct (for_each l (enter_marks_student form subjects) w1) as [[results|e] w2];
    simpl in *; destruct IH as [-> ->].
  - destruct (decide (Student.id s = Student.id x)) as [Hid|Hid]; [|by apply Hother].
    assert (w1 = w) as ->; [|done].
    unfold enter_marks_student in Hx.
    rewrite (read_marks_same_id form x s) in Hx by done.
    rewrite read_marks_nothing in Hx by done.
    simpl in Hx. unfold_M. by injection Hx.
  - destruct (decide (Student.id s = Student.id x)) as [Hid|Hid]; [|by apply Hother].
    assert (w1 = w) as ->; [|done].
    unfold enter_marks_student in Hx.
    rewrite (read_marks_same_id form x s) in Hx by done.
    rewrite read_marks_nothing in Hx by done.
    simpl in Hx. unfold_M. by injection Hx.
Qed.

(** X26. A student without a usable mark is skipped: when the form has no
    field for the student that is present, not empty and accepted by
    [int], the POST leaves the marks and the grades of that student as they
    were (values that [int] refuses are dropped without a message). *)
Theorem enter_marks_skips_student_without_marks session request class_name section w s :
  no_faults w →
  session !! "role" = Some "teacher" →
  method request = "POST" →
  (∀ subject, submitted (form request) s subject = None) →
  let w' := (enter_marks session request class_name section w).2 in
  marks_of (Student.id s) (db w') = marks_of (Student.id s) (db w) ∧
  grades_of (Student.id s) (db w') = grades_of (Student.id s) (db w).
Proof.
  intros Hnf Hrole Hpost Hnone w'.
  destruct (enter_marks_run session request class_name section w Hnf Hrole Hpost)
    as (results & w0 & Hnf0 & Hdb0 & Hrun & _).
  cbv zeta in Hrun. subst w'. rewrite Hrun, <- Hdb0.
  by apply enter_marks_loop_nothing.
Qed.

(** *** The order of the attendance report *)

Lemma insert_desc_sorted {A} (key : A → Q) (x : A) (l : list A) :
  Sorted (λ a b, (key b <= key a)%Q) l →
  Sorted (λ a b, (key b <= key a)%Q) (insert_desc key x l).
Proof.
  induction 1 as [|y l Hsorted IH Hhd]; simpl; [by repeat constructor|].
  destruct (Qle_bool (key x) (key y)) eqn:Hle.
  - constructor; [done|]. apply Qle_bool_iff in Hle.
    destruct Hhd as [|z l Hz]; simpl; [by constructor|].
    destruct (Qle_bool (key x) (key z)); by constructor.
  - constructor; [by constructor|]. constructor.
    apply Qlt_le_weak, Qnot_le_lt. intros Hxy.
    apply Qle_bool_iff in Hxy. congruence.
Qed.

Lemma sort_desc_sorted {A} (key : A → Q) (l : list A) :
  StronglySorted (λ a b, (key b <= key a)%Q) (sort_desc key l).
Proof.
  apply Sorted_StronglySorted.
  { intros a b c Hab Hbc. by apply (Qle_trans _ (key b)). }
  unfold sort_desc.
  assert (∀ sorted, Sorted (λ a b, (key b <= key a)%Q) sorted →
            Sorted (λ a b, (key b <= key a)%Q)
              (foldl (λ sorted x, insert_desc key x sorted) sorted l)) as Hgen.
  { induction l as [|x l IH]; intros sorted Hsorted; [done|].
    simpl. by apply IH, insert_desc_sorted. }
  apply Hgen. constructor.
Qed.

(** X27. Without failures the attendance report has one entry for each
    student that passes the class and section filters (a filter that is
    missing or empty lets every student pass), and the entries are in
    descending order of attendance percentage. *)
Theorem attendance_report_sorted session request w :
  no_faults w →
  session !! "role" ∈ [Some "principal"; Some "teacher"] →
  ∃ report w',
    attendance_report session request w =
      (Ret (RenderTemplate "attendance_report.html" report), w') ∧
    StronglySorted
      (λ a b, (to_Q (entry_attendance_percentage b) <=
               to_Q (entry_attendance_percentage a))%Q)
      (attendance_data report) ∧
    entry_student <$> attendance_data report ≡ₚ
      filter (λ s,
                (truthy_str (args request !! "class") = true →
                 Some (Student.class s) = args request !! "class") ∧
                (truthy_str (args request !! "section") = true →
                 Some (Student.section s) = args request !! "section"))
             (students (db w)).
Proof.
  intros Hnf Hrole. unfold attendance_report. rewrite role_allowed by done.
  rewrite bind_run, get_all_students_ok by quiet.
  rewrite bind_run.
  match goal with |- context [for_each ?l attendance_entry ?W] =>
    destruct (attendance_entries_run l W) as (entries & w' & -> & _ & _ & Hstudents & _) end;
    [quiet|].
  eexists _, w'. split; [reflexivity|]. simpl. split.
  - apply (sort_desc_sorted (λ x, to_Q (entry_attendance_percentage x))).
  - rewrite sort_desc_perm, Hstudents.
    set (all := order_by _ Student.name false (students (db w))).
    rewrite <- (order_by_perm _ Student.name false (students (db w))). fold all.
    destruct (truthy_str (args request !! "class")) eqn:Hclass;
      destruct (truthy_str (args request !! "section")) eqn:Hsection.
    + rewrite list_filter_filter. apply reflexive_eq, list_filter_iff.
      intros s. intuition discriminate.
    + apply reflexive_eq, list_filter_iff. intros s. intuition discriminate.
    + apply reflexive_eq, list_filter_iff. intros s. intuition discriminate.
    + apply reflexive_eq. induction all as [|s all IH]; [done|].
      rewrite filter_cons_True by (by split). by f_equal.
Qed.

(** *** The subject analysis of the insights *)

Lemma max_by_value_spec first rest :
  max_by_value first rest ∈ first :: rest ∧
  ∀ x, x ∈ first :: rest → x.2 ≤ (max_by_value first rest).2.
Proof.
  unfold max_by_value. revert first.
  induction rest as [|y rest IH]; intros first; simpl.
  - split; [left|]. intros x Hx. apply list_elem_of_singleton in Hx as ->. lia.
  - destruct (IH (if first.2 <? y.2 then y else first)) as [Hin Hmax]. split.
    + apply elem_of_cons in Hin as [->|Hin].
      * destruct (first.2 <? y.2); [right; left|left].
      * by do 2 right.
    + intros x Hx.
      assert (x.2 ≤ (if first.2 <? y.2 then y else first).2 ∨ x ∈ rest) as Hstep.
      { apply elem_of_cons in Hx as [->|Hx].
        - left. destruct (Z.ltb_spec first.2 y.2); lia.
        - apply elem_of_cons in Hx as [->|Hx]; [|by right].
          left. destruct (Z.ltb_spec first.2 y.2); lia. }
      destruct Hstep as [Hstep|Hrest].
      * etrans; [exact Hstep|]. apply Hmax. left.
      * apply Hmax. by right.
Qed.

Lemma min_by_value_spec first rest :
  min_by_value first rest ∈ first :: rest ∧
  ∀ x, x ∈ first :: rest → (min_by_value first rest).2 ≤ x.2.
Proof.
  unfold min_by_value. revert first.
  induction rest as [|y rest IH]; intros first; simpl.
  - split; [left|]. intros x Hx. apply list_elem_of_singleton in Hx as ->. lia.
  - destruct (IH (if y.2 <? first.2 then y else first)) as [Hin Hmin]. split.
    + apply elem_of_cons in Hin as [->|Hin].
      * destruct (y.2 <? first.2); [right; left|left].
      * by do 2 right.
    + intros x Hx.
      assert ((if y.2 <? first.2 then y else first).2 ≤ x.2 ∨ x ∈ rest) as Hstep.
      { apply elem_of_cons in Hx as [->|Hx].
        - left. destruct (Z.ltb_spec y.2 first.2); lia.
        - apply elem_of_cons in Hx as [->|Hx]; [|by right].
          left. destruct (Z.ltb_spec y.2 first.2); lia. }
      destruct Hstep as [Hstep|Hrest].
      * etrans; [|exact Hstep]. apply Hmin. left.
      * apply Hmin. by right.
Qed.

(** X28. What the insights say about subjects follows the extreme marks:
    there is no weakness exactly when every mark is at least 70, there is
    no strength exactly when every mark is below 75, neither list has
    more than one line, and the list of recommendations is never
    empty. *)
Theorem insights_follow_extreme_marks student marks grades attendance
    avg_marks attendance_percentage :
  let insights :=
    generate_ai_insights student marks grades attendance
      avg_marks attendance_percentage in
  (weaknesses insights = [] ↔ ∀ subject mark, (subject, mark) ∈ PyDict.items marks → 70 ≤ mark) ∧
  (strengths insights = [] ↔ ∀ subject mark, (subject, mark) ∈ PyDict.items marks → mark < 75) ∧
  (length (weaknesses insights) ≤ 1)%nat ∧
  (length (strengths insights) ≤ 1)%nat ∧
  recommendations insights ≠ [].
Proof.
  intros insights. subst insights. unfold generate_ai_insights. simpl.
  split; [|split; [|split; [|split]]].
  - unfold subject_analysis.
    destruct (PyDict.items marks) as [|first rest] eqn:Hitems; simpl.
    { split; [|done]. intros _ subject mark Hin. by apply elem_of_nil in Hin. }
    destruct (min_by_value_spec first rest) as [Hin Hmin].
    destruct (Z.ltb_spec (min_by_value first rest).2 70) as [Hlow|Hhigh].
    + split; [done|]. intros Hall. exfalso.
      destruct (min_by_value first rest) as [subject mark].
      specialize (Hall _ _ Hin). simpl in Hlow. lia.
    + split; [|done]. intros _ subject mark Hx.
      specialize (Hmin _ Hx). simpl in Hmin. lia.
  - unfold subject_analysis.
    destruct (PyDict.items marks) as [|first rest] eqn:Hitems; simpl.
    { split; [|done]. intros _ subject mark Hin. by apply elem_of_nil in Hin. }
    destruct (max_by_value_spec first rest) as [Hin Hmax].
    destruct (Z.geb_spec (max_by_value first rest).2 85) as [H85|H85].
    + split; [done|]. intros Hall. exfalso.
      destruct (max_by_value first rest) as [subject mark].
      specialize (Hall _ _ Hin). simpl in H85. lia.
    + destruct (Z.geb_spec (max_by_value first rest).2 75) as [H75|H75].
      * split; [done|]. intros Hall. exfalso.
        destruct (max_by_value first rest) as [subject mark].
        specialize (Hall _ _ Hin). simpl in H75. lia.
      * split; [|done]. intros _ subject mark Hx.
        specialize (Hmax _ Hx). simpl in Hmax. lia.
  - unfold subject_analysis.
    destruct (PyDict.items marks) as [|first rest]; simpl; [lia|].
    destruct (_ <? 70); simpl; lia.
  - unfold subject_analysis.
    destruct (PyDict.items marks) as [|first rest]; simpl; [lia|].
    destruct (_ >=? 85); simpl; [lia|]. destruct (_ >=? 75); simpl; lia.
  - unfold additional_recommendations.
    match goal with |- context [match ?l with [] => _ | _ :: _ => _ end] =>
      destruct l eqn:Hl end; done.
Qed.

End Properties.

(** ** The model at work *)

#[local] Existing Instance Sample.library.

Ltac by_compute := refine (bool_decide_unpack _ _); vm_compute; exact I.

Example grade_boundaries :
  grade_of_mark <$> [100; 90; 89; 80; 79; 70; 69; 60; 59; 40; 39; 0; -5] =
  ["A"; "A"; "B"; "B"; "C"; "C"; "D"; "D"; "E"; "E"; "F"; "F"; "F"].
Proof. reflexivity. Qed.

(** The form fills in Math only: the Science mark and grade of student 1 are
    gone afterwards, student 2 keeps hers. *)
Example enter_marks_sample :
  let w' := (enter_marks Sample.teacher_session Sample.marks_request "10" "A"
               Sample.world).2 in
  mark_entry <$> marks (db w') = [("Math", 90); ("Math", 95)] ∧
  grade_entry <$> grades (db w') = [("Math", "A"); ("Math", "A")] ∧
  Mark.student_id <$> marks (db w') = [2; 1] ∧
  requests w' = [("students", SELECT); ("teachers", SELECT);
                 ("marks", DELETE); ("marks", INSERT);
                 ("grades", DELETE); ("grades", INSERT)].
Proof. vm_compute. repeat split. Qed.

Example thirty_one_days :
  (100 < to_Q (attendance_percentage (replicate 31 "2025-08-01")))%Q.
Proof. vm_compute. reflexivity. Qed.

(** A failing request: the service prints and returns its failure value. *)
Example delete_student_fails :
  let w := set_faults [Some "connection reset"] Sample.world in
  (delete_student 1 w).1 = Ret false ∧
  stdout (delete_student 1 w).2 = ["Error deleting student: connection reset"] ∧
  students (db (delete_student 1 w).2) = students Sample.store.
Proof. vm_compute. repeat split. Qed.

(** C3. [verify_user] lets an exception through.  The stored account has a
    hash in the format that [create_user] writes; the lookup succeeds and the
    call ends in [NameError], which nothing in [database.py] catches.  (All
    other methods return their failure value: [service_returns],
    [service_failure_values].) *)
Example verify_user_propagates_name_error :
  (verify_user "alice" "secret" Sample.world).1 =
    Raise (NameError "check_password_hash").
Proof. vm_compute. reflexivity. Qed.

Lemma verify_user_name_error_witness :
  (verify_user "alice" "secret" Sample.world).1 =
    Raise (NameError "check_password_hash").
Proof.
  apply (verify_user_name_error Sample.world "alice" "secret" Sample.alice);
    reflexivity.
Defined.

Lemma enter_marks_grade_by_table_witness :
  let w' := (enter_marks Sample.teacher_session Sample.marks_request
               "10" "A" Sample.world).2 in
  let saved := filter (λ r, Grade.subject r = "Math") (grades_of 1 (db w')) in
  saved ≠ [] ∧ ∀ r, r ∈ saved → threshold_table 95 (Grade.grade r).
Proof.
  apply (enter_marks_grade_by_table Sample.teacher_session
           Sample.marks_request "10" "A" Sample.world Sample.student1 "Math" "95" 95).
  - constructor.
  - reflexivity.
  - reflexivity.
  - vm_compute. left.
  - reflexivity.
  - reflexivity.
  - by_compute.
  - reflexivity.
  - discriminate.
  - reflexivity.
Defined.

Lemma mark_attendance_one_record_per_day_witness :
  let old := Attendance.mk 7 1 "2025-08-05" (Some "data:image/png;base64,AAAA") 0 0 in
  let w1 := (mark_attendance 1 "2025-08-05" (Some Sample.image) Sample.world).2 in
  let w2 := (mark_attendance 1 "2025-08-06" (Some Sample.image) Sample.world).2 in
  (attendance (db w1) = [Attendance.set_face_data (Some Sample.image) 1 old] ∧
   length (attendance (db w1)) = 1%nat) ∧
  (attendance_unique (db w2) ∧
   length (attendance_on 1 "2025-08-06" (db w2)) = 1%nat ∧
   length (attendance (db w2)) = 2%nat).
Proof.
  intros old w1 w2. split.
  - destruct (mark_attendance_one_record_per_day Sample.world 1 "2025-08-05"
                (Some Sample.image)) as (_ & _ & _ & _ & Hwritten).
    + by_compute.
    + destruct Hwritten as (_ & _ & Hupdate & _); [constructor|].
      destruct (Hupdate old) as (_ & Htable & Hlength & _); [reflexivity|].
      split; [exact Htable | exact Hlength].
  - destruct (mark_attendance_one_record_per_day Sample.world 1 "2025-08-06"
                (Some Sample.image)) as (_ & Huniq & _ & _ & Hwritten).
    + by_compute.
    + destruct Hwritten as (Hone & _ & _ & Hinsert); [constructor|].
      destruct Hinsert as (a & _ & Htable & _); [reflexivity|].
      split; [exact Huniq|]. split; [exact Hone|].
      fold w2 in Htable. rewrite Htable, length_app. reflexivity.
Defined.

Lemma face_data_stored_verbatim_witness :
  let w' := (mark_attendance_route Sample.student_session
               Sample.attendance_request Sample.world).2 in
  let stored := attendance_on 1 "2025-08-06" (db w') in
  stored ≠ [] ∧ ∀ a, a ∈ stored → Attendance.face_data a = Some Sample.image.
Proof.
  apply (face_data_stored_verbatim Sample.student_session
           Sample.attendance_request Sample.world "bob" Sample.bob 1 Sample.student1
           Sample.image).
  - constructor.
  - reflexivity.
  - reflexivity.
  - reflexivity.
  - reflexivity.
  - discriminate.
  - reflexivity.
  - reflexivity.
  - reflexivity.
  - vm_compute. lia.
Defined.

Lemma save_replaces_all_rows_witness :
  let w' := (save_marks 1 [("Math", 70)] Sample.world).2 in
  mark_entry <$> marks_of 1 (db w') = [("Math", 70)] ∧
  (get_student_marks 1 w').1 = Ret [("Math", 70)] ∧
  filter (λ r, Mark.subject r = "Science") (marks_of 1 (db w')) = [].
Proof.
  destruct (save_replaces_all_rows 1 [("Math", 70)] [("Math", "C")]
              Sample.world) as [(_ & Hrows & Hread & Hmissing & _) _].
  - constructor.
  - by_compute.
  - by_compute.
  - split; [exact Hrows|]. split; [exact Hread|]. apply Hmissing. reflexivity.
Defined.

Lemma student_report_average_and_distribution_witness :
  ∃ report_data username w',
    student_report Sample.teacher_session 1 Sample.world =
      (Ret (RenderTemplate "student_report.html" (report_data, username)), w') ∧
    report_average_marks report_data =
      round (average_marks (student_marks 1 Sample.store)) ∧
    ∀ g, PyDict.get g (report_grade_distribution report_data) =
         match subjects_with_grade g (student_grades 1 Sample.store) with
         | O => None
         | S n => Some (Z.of_nat (S n))
         end.
Proof.
  destruct (student_report_average_and_distribution Sample.teacher_session
              1 Sample.student1 Sample.world)
    as (report_data & username & w' & Heq & Havg & _ & Hdist).
  - constructor.
  - by_compute.
  - reflexivity.
  - exists report_data, username, w'. split; [exact Heq|]. split; [exact Havg | exact Hdist].
Defined.

Lemma attendance_percentage_not_clamped_witness :
  (∃ report_data username w',
     student_report Sample.teacher_session 1 Demo.diligent_world =
       (Ret (RenderTemplate "student_report.html" (report_data, username)), w') ∧
     report_total_attendance_days report_data = 31%nat ∧
     (100 < to_Q (report_attendance_percentage report_data))%Q) ∧
  (∃ report w' e,
     attendance_report Sample.teacher_session (mkRequest "GET" ∅ ∅) Demo.diligent_world =
       (Ret (RenderTemplate "attendance_report.html" report), w') ∧
     e ∈ attendance_data report ∧
     entry_student e = Sample.student1 ∧
     (100 < to_Q (entry_attendance_percentage e))%Q).
Proof.
  destruct (attendance_percentage_not_clamped Sample.teacher_session
              Demo.diligent_world) as [Hstudent Hreport].
  - constructor.
  - by_compute.
  - split.
    + destruct (Hstudent 1 Sample.student1) as (report_data & username & w' & Heq & Hrest);
        [reflexivity|].
      destruct Hrest as (Hdays & _ & Habove).
      exists report_data, username, w'. split; [exact Heq|]. split; [exact Hdays|].
      apply Habove. vm_compute. lia.
    + destruct (Hreport (mkRequest "GET" ∅ ∅)) as (report & w' & Heq & _ & _ & Hmany).
      destruct (Hmany Sample.student1) as (e & He & Hs & Habove).
      * apply list_elem_of_filter. split; [|left].
        split; intros Hset; vm_compute in Hset; discriminate Hset.
      * vm_compute. lia.
      * by exists report, w', e.
Defined.

(** ** The further properties at work *)

Ltac each_row :=
  let x := fresh "x" in
  let Hx := fresh "Hx" in
  intros x Hx;
  repeat (apply elem_of_cons in Hx as [->|Hx]; [vm_compute; discriminate|]);
  by apply elem_of_nil in Hx.

Lemma pages_never_write_witness :
  keeps id (add_student Sample.teacher_session (mkRequest "GET" ∅ ∅)) ∧
  keeps id (mark_attendance_route Sample.student_session (mkRequest "GET" ∅ ∅)).
Proof.
  pose proof (pages_never_write IgnoreUnknown Sample.teacher_session (mkRequest "GET" ∅ ∅))
    as (_ & _ & _ & _ & _ & _ & _ & _ & _ & _ & _ & _ & _ & _ & _ & Hget).
  pose proof (pages_never_write IgnoreUnknown Sample.student_session (mkRequest "GET" ∅ ∅))
    as (_ & _ & _ & _ & _ & _ & _ & _ & _ & _ & _ & _ & _ & _ & _ & Hget').
  split.
  - apply Hget. discriminate.
  - apply Hget'. discriminate.
Defined.

Lemma wrong_role_changes_nothing_witness :
  returns_at_once (delete_student_route Sample.student_session 1) (Redirect "login") ∧
  returns_at_once (delete_teacher_route Sample.teacher_session 1) (Redirect "login") ∧
  returns_at_once (enter_marks Sample.student_session Sample.marks_request "10" "A")
    (Redirect "login") ∧
  returns_at_once (mark_attendance_route Sample.teacher_session Sample.attendance_request)
    (Redirect "login").
Proof.
  pose proof (wrong_role_changes_nothing IgnoreUnknown Sample.student_session
                Sample.marks_request None) as (Hstaff & _ & Hteacher & _).
  pose proof (wrong_role_changes_nothing IgnoreUnknown Sample.teacher_session
                Sample.attendance_request None) as (_ & Hprincipal & _ & Hstudent).
  split; [|split; [|split]].
  - apply Hstaff. by_compute.
  - apply Hprincipal. discriminate.
  - apply Hteacher. discriminate.
  - apply Hstudent. discriminate.
Defined.

Lemma failed_request_gives_failure_value_witness :
  fails_with get_all_students [] "Error getting students: " Demo.offline ∧
  fails_with (delete_student 1) false "Error deleting student: " Demo.offline.
Proof.
  pose proof (failed_request_gives_failure_value IgnoreUnknown Demo.generate_password_hash
                Demo.offline eq_refl)
    as (_ & _ & _ & _ & _ & Hall & _ & Hdelete & _).
  split; [exact Hall | exact (Hdelete 1)].
Defined.

Lemma save_marks_not_atomic_witness :
  let w' := (save_marks 1 [("Math", 70)] Demo.flaky).2 in
  (save_marks 1 [("Math", 70)] Demo.flaky).1 = Ret [] ∧
  marks_of 1 (db w') = [] ∧
  (∀ other, other ≠ 1 → marks_of other (db w') = marks_of other (db Demo.flaky)) ∧
  ∃ msg, stdout w' = stdout Demo.flaky ++ ["Error saving marks: " +:+ msg].
Proof.
  apply (save_marks_not_atomic 1 [("Math", 70)] Demo.flaky).
  - reflexivity.
  - reflexivity.
  - discriminate.
Defined.

Lemma mark_attendance_twice_witness :
  let w1 := (mark_attendance 1 "2025-08-06" (Some Sample.image) Sample.world).2 in
  let w2 := (mark_attendance 1 "2025-08-06" None w1).2 in
  (∃ a, attendance_on 1 "2025-08-06" (db w2) = [a] ∧ Attendance.face_data a = None) ∧
  length (attendance (db w2)) = length (attendance (db w1)).
Proof.
  apply (mark_attendance_twice 1 "2025-08-06" (Some Sample.image) None Sample.world).
  - constructor.
  - by_compute.
Defined.

Lemma marked_day_is_listed_once_witness :
  let w' := (mark_attendance 1 "2025-08-05" None Sample.world).2 in
  ∃ attendance,
    (get_student_attendance 1 w').1 = Ret attendance ∧
    length (filter (λ d, d = "2025-08-05") attendance) = 1%nat.
Proof.
  apply (marked_day_is_listed_once 1 "2025-08-05" None Sample.world).
  - constructor.
  - by_compute.
Defined.

Lemma create_student_round_trip_witness :
  ∃ s,
    (create_student "Dan" 14 "9" "B" None Sample.world).1 = Ret (Some s) ∧
    let w' := (create_student "Dan" 14 "9" "B" None Sample.world).2 in
    students (db w') = students (db Sample.world) ++ [s] ∧
    (Student.name s, Student.age s, Student.class s, Student.section s,
     Student.face_data s) = ("Dan", 14, "9", "B", None) ∧
    (get_student (Student.id s) w').1 = Ret (Some s).
Proof.
  apply (create_student_round_trip "Dan" 14 "9" "B" None Sample.world).
  - constructor.
  - each_row.
Defined.

Lemma delete_student_round_trip_witness :
  let w' := (delete_student 1 Sample.world).2 in
  (delete_student 1 Sample.world).1 = Ret true ∧
  (get_student 1 w').1 = Ret None ∧
  ∀ s, s ∈ students (db w') ↔ s ∈ students (db Sample.world) ∧ Student.id s ≠ 1.
Proof.
  apply (delete_student_round_trip 1 Sample.world). constructor.
Defined.

Lemma face_data_round_trip_witness :
  let w1 := (update_student_face 1 Sample.image Sample.world).2 in
  let w2 := (delete_student_face 1 w1).2 in
  ∃ s1 s2,
    (get_student 1 w1).1 = Ret (Some s1) ∧
    (get_student 1 w2).1 = Ret (Some s2) ∧
    Student.face_data s1 = Some Sample.image ∧
    Student.face_data s2 = None.
Proof.
  destruct (face_data_round_trip 1 Sample.image Sample.student1 Sample.world)
    as (s1 & s2 & H1 & H2 & Hface1 & Hface2 & _).
  - constructor.
  - reflexivity.
  - by exists s1, s2.
Defined.

Lemma edit_teacher_round_trip_witness :
  let w' := (edit_teacher IgnoreUnknown Demo.principal_session Demo.teacher_form 1
               Sample.world).2 in
  ∃ t, (get_teacher 1 w').1 = Ret (Some t) ∧
       (Teacher.id t, Teacher.name t, Teacher.subject t) = (1, "Ms Grey", "Physics").
Proof.
  destruct (edit_teacher_round_trip IgnoreUnknown Demo.principal_session Demo.teacher_form 1
              (Teacher.mk 1 "Ms Gray" "Math" 0 0) "Ms Grey" "Physics" Sample.world)
    as (_ & _ & Hread).
  - constructor.
  - reflexivity.
  - reflexivity.
  - reflexivity.
  - reflexivity.
  - reflexivity.
  - exact Hread.
Defined.

Lemma created_account_cannot_log_in_witness :
  let w1 :=
    (create_user Demo.generate_password_hash "dan" "secret" "student" (Some 1)
       Sample.world).2 in
  (login ∅ (Demo.login_request "dan" "secret") w1).1 =
    Raise (NameError "check_password_hash").
Proof.
  apply (created_account_cannot_log_in Demo.generate_password_hash "dan" "secret" "student"
           (Some 1) ∅ (Demo.login_request "dan" "secret") "secret" Sample.world).
  - constructor.
  - each_row.
  - reflexivity.
  - reflexivity.
  - reflexivity.
  - reflexivity.
Defined.

Lemma login_refuses_unknown_user_witness :
  let w' := (login ∅ (Demo.login_request "mallory" "guess") Demo.world).2 in
  (login ∅ (Demo.login_request "mallory" "guess") Demo.world).1 =
    Ret (RenderTemplate "login.html" (), ∅) ∧
  flashed w' = flashed Demo.world ++ [("Invalid username or password", "danger")] ∧
  db w' = db Demo.world.
Proof.
  apply (login_refuses_unknown_user ∅ (Demo.login_request "mallory" "guess")
           "mallory" "guess" Demo.world).
  - reflexivity.
  - reflexivity.
  - reflexivity.
  - right. each_row.
Defined.

Lemma login_with_bcrypt_account_witness :
  (login ∅ (Demo.login_request "carol" "letmein") Demo.world).1 =
    Ret (Redirect "dashboard_principal",
         <["role" := "principal"]> (<["username" := "carol"]> ∅)).
Proof.
  destruct (login_with_bcrypt_account ∅ (Demo.login_request "carol" "letmein")
              "carol" "letmein" Demo.carol true Demo.world) as [Hlogin _].
  - reflexivity.
  - reflexivity.
  - reflexivity.
  - reflexivity.
  - reflexivity.
  - reflexivity.
  - reflexivity.
  - exact Hlogin.
Defined.

Lemma get_statistics_counts_witness :
  (get_statistics Demo.world).1 =
    Ret [("total_students", 2); ("total_teachers", 2); ("total_users", 3);
         ("students_with_face_data", 0); ("total_attendance_records", 1)].
Proof.
  destruct (get_statistics_counts Demo.world) as [Hcounts _].
  - constructor.
  - exact Hcounts.
Defined.

Lemma get_statistics_hides_failure_witness :
  (get_statistics Demo.offline).1 =
    Ret [("total_students", 0); ("total_teachers", 2); ("total_users", 2);
         ("students_with_face_data", 0); ("total_attendance_records", 1)].
Proof.
  destruct (get_statistics_hides_failure Demo.offline) as [Hcounts _].
  - reflexivity.
  - constructor.
  - exact Hcounts.
Defined.

Lemma add_student_bad_age_witness :
  add_student Sample.teacher_session (Demo.student_form "fourteen") Sample.world =
    (Raise (ValueError "invalid literal for int() with base 10: 'fourteen'"), Sample.world).
Proof.
  destruct (add_student_bad_age Sample.teacher_session (Demo.student_form "fourteen")
              "Dan" Sample.world) as [_ Hbad].
  - by_compute.
  - reflexivity.
  - reflexivity.
  - apply (Hbad "fourteen"); reflexivity.
Defined.

Lemma add_student_stores_witness :
  ∃ s w',
    add_student Sample.teacher_session (Demo.student_form "14") Sample.world =
      (Ret (Redirect "list_students"), w') ∧
    students (db w') = students (db Sample.world) ++ [s] ∧
    (Student.name s, Student.age s, Student.class s, Student.section s,
     Student.face_data s) = ("Dan", 14, "9", "B", None) ∧
    flashed w' = flashed Sample.world ++ [("Student added successfully!", "success")].
Proof.
  apply (add_student_stores Sample.teacher_session (Demo.student_form "14")
           "Dan" "14" 14 "9" "B" Sample.world).
  - constructor.
  - by_compute.
  - reflexivity.
  - reflexivity.
  - reflexivity.
  - reflexivity.
  - reflexivity.
  - reflexivity.
Defined.

Lemma short_image_is_not_stored_witness :
  (100 < String.length Demo.accented)%nat ∧
  db (mark_attendance_route Sample.student_session Demo.accented_request
        Sample.world).2 = db Sample.world.
Proof.
  split; [vm_compute; lia|].
  apply (short_image_is_not_stored Sample.student_session Demo.accented_request
           Sample.world).
  vm_compute. lia.
Defined.

Lemma next_student_id_witness :
  (∃ n, (get_next_student_id Sample.world).1 = Ret n ∧
        ∀ s, s ∈ students (db Sample.world) → Student.id s < n) ∧
  (get_next_student_id Demo.offline).1 = Ret 1.
Proof.
  split.
  - apply (next_student_id Sample.world). reflexivity.
  - apply (next_student_id Demo.offline). reflexivity.
Defined.

Lemma enter_marks_grades_follow_marks_witness :
  let w' := (enter_marks Sample.teacher_session Sample.marks_request "10" "A"
               Sample.world).2 in
  ("Math", 95) ∈ mark_entry <$> marks_of 1 (db w') ∧
  grade_entry <$> grades_of 1 (db w') =
    (λ entry, (entry.1, grade_of_mark entry.2)) <$> (mark_entry <$> marks_of 1 (db w')).
Proof.
  apply (enter_marks_grades_follow_marks Sample.teacher_session Sample.marks_request
           "10" "A" Sample.world Sample.student1 "Math" 95).
  - constructor.
  - reflexivity.
  - reflexivity.
  - vm_compute. left.
  - reflexivity.
  - reflexivity.
  - by_compute.
  - reflexivity.
Defined.

Lemma enter_marks_skips_student_without_marks_witness :
  let w' := (enter_marks Sample.teacher_session Demo.unreadable_marks_request "10" "A"
               Sample.world).2 in
  marks_of 1 (db w') = marks_of 1 (db Sample.world) ∧
  grades_of 1 (db w') = grades_of 1 (db Sample.world).
Proof.
  apply (enter_marks_skips_student_without_marks Sample.teacher_session
           Demo.unreadable_marks_request "10" "A" Sample.world Sample.student1).
  - constructor.
  - reflexivity.
  - reflexivity.
  - intros subject. unfold submitted.
    change (mark_key Sample.student1 subject) with ("marks_1_" +:+ subject).
    destruct (decide (subject = "Math")) as [->|Hmath]; [reflexivity|].
    destruct (decide (subject = "Science")) as [->|Hscience]; [reflexivity|].
    assert (form Demo.unreadable_marks_request !! ("marks_1_" +:+ subject) = None) as ->;
      [|reflexivity].
    unfold Demo.unreadable_marks_request. cbn [form].
    rewrite lookup_insert_ne
      by (intros Heq; apply Hmath; vm_compute in Heq; by injection Heq).
    rewrite lookup_insert_ne
      by (intros Heq; apply Hscience; vm_compute in Heq; by injection Heq).
    apply lookup_singleton_ne. intros Heq. vm_compute in Heq. discriminate.
Defined.

Lemma attendance_report_sorted_witness :
  ∃ report w',
    attendance_report Sample.teacher_session (mkRequest "GET" ∅ {[ "class" := "10" ]})
      Sample.world = (Ret (RenderTemplate "attendance_report.html" report), w') ∧
    StronglySorted
      (λ a b, (to_Q (entry_attendance_percentage b) <=
               to_Q (entry_attendance_percentage a))%Q)
      (attendance_data report).
Proof.
  destruct (attendance_report_sorted Sample.teacher_session
              (mkRequest "GET" ∅ {[ "class" := "10" ]}) Sample.world)
    as (report & w' & Heq & Hsorted & _).
  - constructor.
  - by_compute.
  - by exists report, w'.
Defined.

Lemma class_statistics_bounds_witness :
  ∃ cs,
    (get_class_statistics "10" "A" Sample.world).1 = Ret (Some cs) ∧
    cs_total_students cs = 2%nat ∧
    (cs_students_with_marks cs ≤ cs_total_students cs)%nat.
Proof.
  pose proof (class_statistics_bounds "10" "A" Sample.world) as Hbounds.
  destruct (get_class_statistics "10" "A" Sample.world).1 as [[cs|]|e] eqn:Heq.
  - destruct Hbounds as (Hstudents & Htotal & _ & _ & Hmarks & _).
    exists cs. split; [reflexivity|]. split; [|exact Hmarks].
    rewrite Htotal, Hstudents. reflexivity.
  - vm_compute in Heq. discriminate.
  - vm_compute in Heq. discriminate.
Defined.
